(** * my-labs: the JSON-metrics grouping transform and the config parsers

    A shallow embedding of the scripts that turn JSON power-measurement
    logs into per-device series

      - [extract_metrics_to_csv.py]  ([load_json_data],
        [extract_and_group_data], [write_csv_files], [main]),
      - [json_to_csv_simple.py]      ([main]),
      - [chirop/json_to_csv.py]      ([json_to_csv]),
      - [chirop/plot_chirop5_power.py]      ([load_chirop5_data],
        [load_config_info]),
      - [chirop/plot_chirop5_timewindow.py] ([load_chirop5_data],
        [load_timewindow_info]),

    followed by the properties the specification states about them.

    The scripts run on what [json.load] and [readlines] hand them, so the
    embedding starts from Python values: [None], booleans, unbounded
    integers, IEEE-754 doubles (Rocq's primitive floats), strings, lists
    and string-keyed dictionaries.  A Python exception is a value of
    [outcome]; where the source mutates a dictionary before an exception
    is caught, the partially updated state is returned next to it. *)

From Stdlib Require Import ZArith NArith List String Ascii Bool Lia.
From Stdlib Require Import Floats Permutation Sorted.
Import ListNotations.

Local Open Scope string_scope.
Local Open Scope list_scope.

(* ================================================================== *)
(** * Part I. The embedding                                            *)
(* ================================================================== *)

(** ** Python values and the builtins the scripts call *)

Module Py.

(** The exception classes that the modelled code can raise, and
    [SystemExit] for [sys.exit]. *)
Inductive exn : Type :=
| TypeError | AttributeError | KeyError | ValueError | IndexError
| OverflowError | FileNotFoundError | SystemExit.

(** A computation either returns a value or raises. *)
Inductive outcome (A : Type) : Type :=
| Returns (a : A)
| Raises (e : exn).
Arguments Returns {A} a.
Arguments Raises {A} e.

Definition bind {A B : Type} (m : outcome A) (k : A -> outcome B) : outcome B :=
  match m with
  | Returns a => k a
  | Raises e => Raises e
  end.

Definition raised {A : Type} (m : outcome A) : bool :=
  match m with Returns _ => false | Raises _ => true end.

(** What [json.load] produces.  A dictionary is an association list read
    through the first binding of a key; its keys are strings because
    JSON object keys are. *)
#[warnings="-register-all"]
Inductive pyval : Type :=
| PNone
| PBool (b : bool)
| PInt (z : Z)
| PFloat (f : float)
| PStr (s : string)
| PList (xs : list pyval)
| PDict (kvs : list (string * pyval)).

(** *** Strings

    A [string] stands for a Python [str] whose code points are all below
    256, one [ascii] per code point.  On such strings the functions below
    are the Python ones. *)

(** [needle in s] for two strings. *)
Fixpoint contains (needle s : string) : bool :=
  prefix needle s ||
  match s with
  | EmptyString => false
  | String _ s' => contains needle s'
  end.

(** [s.split(c)] for a one-character separator: never the empty list. *)
Fixpoint split (c : ascii) (s : string) : list string :=
  match s with
  | EmptyString => [EmptyString]
  | String a s' =>
      if Ascii.eqb a c then EmptyString :: split c s'
      else match split c s' with
           | h :: t => String a h :: t
           | [] => [String a EmptyString]
           end
  end.

(** [str.isspace] on the code points below 256: U+0009..U+000D,
    U+001C..U+0020, U+0085 and U+00A0. *)
Definition is_space (a : ascii) : bool :=
  let n := N_of_ascii a in
  ((9 <=? n) && (n <=? 13) || (28 <=? n) && (n <=? 32)
   || (n =? 133) || (n =? 160))%N.

Fixpoint lstrip (s : string) : string :=
  match s with
  | EmptyString => EmptyString
  | String a s' => if is_space a then lstrip s' else s
  end.

Fixpoint rstrip (s : string) : string :=
  match s with
  | EmptyString => EmptyString
  | String a s' =>
      match rstrip s' with
      | EmptyString => if is_space a then EmptyString else String a EmptyString
      | r => String a r
      end
  end.

(** [s.strip()]. *)
Definition strip (s : string) : string := rstrip (lstrip s).

Definition digit_val (a : ascii) : option Z :=
  let n := N_of_ascii a in
  if ((48 <=? n) && (n <=? 57))%N then Some (Z.of_N n - 48)%Z else None.

(** The digits of an integer literal: decimal digits, with single
    underscores allowed between two digits.  [after_us] says that the
    previous character was not a digit; the count is the number of digit
    characters. *)
Fixpoint int_digits (s : string) (acc : Z) (count : N) (after_us : bool)
  : option (Z * N) :=
  match s with
  | EmptyString => if after_us then None else Some (acc, count)
  | String a s' =>
      if Ascii.eqb a "_"%char then
        if after_us then None else int_digits s' acc count true
      else
        match digit_val a with
        | Some d => int_digits s' (10 * acc + d)%Z (N.succ count) false
        | None => None
        end
  end.

(** CPython's default limit on the digits of a decimal string given to
    [int] ([sys.get_int_max_str_digits()]). *)
Definition max_str_digits : N := 4300.

Definition checked_digits (s : string) : outcome Z :=
  match int_digits s 0%Z 0%N true with
  | Some (z, count) =>
      if (max_str_digits <? count)%N then Raises ValueError else Returns z
  | None => Raises ValueError
  end.

(** [int(s)] for a string: surrounding white space, an optional sign,
    then the digits; [ValueError] otherwise. *)
Definition int_of_str (s : string) : outcome Z :=
  match strip s with
  | String "+"%char ds => checked_digits ds
  | String "-"%char ds => bind (checked_digits ds) (fun z => Returns (- z)%Z)
  | ds => checked_digits ds
  end.

(** *** Numbers *)

(** [float(z)] for an integer: the nearest double, ties to even;
    [OverflowError] when that is beyond the largest double. *)
Definition float_of_int (z : Z) : outcome float :=
  match binary_normalize prec emax z 0 false with
  | S754_infinity _ => Raises OverflowError
  | sf => Returns (SF2Prim sf)
  end.

(** [z / d] with an integer [z] and a non-zero float [d] (the scripts
    divide by the literals [1e6] and [1000.0] only). *)
Definition int_truediv (z : Z) (d : float) : outcome float :=
  bind (float_of_int z) (fun x => Returns (x / d)%float).

(** [abs(v)]. *)
Definition py_abs (v : pyval) : outcome pyval :=
  match v with
  | PBool b => Returns (PInt (if b then 1 else 0))
  | PInt z => Returns (PInt (Z.abs z))
  | PFloat f => Returns (PFloat (PrimFloat.abs f))
  | _ => Raises TypeError
  end.

(** Truth value of a Python value, as [if v] and [and] test it. *)
Definition truthy (v : pyval) : bool :=
  match v with
  | PNone => false
  | PBool b => b
  | PInt z => negb (z =? 0)%Z
  | PFloat f => negb (f =? 0)%float
  | PStr s => negb (String.eqb s EmptyString)
  | PList xs => match xs with [] => false | _ => true end
  | PDict kvs => match kvs with [] => false | _ => true end
  end.

Definition is_none (v : pyval) : bool :=
  match v with PNone => true | _ => false end.

(** [v == s] for a string literal [s]. *)
Definition eq_str (v : pyval) (s : string) : bool :=
  match v with PStr t => String.eqb t s | _ => false end.

(** *** Dictionaries read by the scripts *)

Fixpoint assoc {V : Type} (k : string) (kvs : list (string * V)) : option V :=
  match kvs with
  | [] => None
  | (k', v) :: rest => if String.eqb k' k then Some v else assoc k rest
  end.

(** [record.get(k)]: only a dictionary has the method. *)
Definition get (record : pyval) (k : string) : outcome pyval :=
  match record with
  | PDict kvs => Returns (match assoc k kvs with Some v => v | None => PNone end)
  | _ => Raises AttributeError
  end.

(** [record[k]] with a string [k]. *)
Definition getitem (record : pyval) (k : string) : outcome pyval :=
  match record with
  | PDict kvs =>
      match assoc k kvs with Some v => Returns v | None => Raises KeyError end
  | _ => Raises TypeError
  end.

(** [k in record] with a string [k]: key membership in a dictionary,
    substring test in a string, element membership in a list. *)
Definition has (k : string) (record : pyval) : outcome bool :=
  match record with
  | PDict kvs => Returns (match assoc k kvs with Some _ => true | None => false end)
  | PStr s => Returns (contains k s)
  | PList xs => Returns (existsb (fun x => eq_str x k) xs)
  | _ => Raises TypeError
  end.

(** [len(v)]. *)
Definition len (v : pyval) : outcome Z :=
  match v with
  | PStr s => Returns (Z.of_nat (String.length s))
  | PList xs => Returns (Z.of_nat (List.length xs))
  | PDict kvs => Returns (Z.of_nat (List.length kvs))
  | _ => Raises TypeError
  end.

(** The items [for x in v] runs through: the elements of a list, the
    keys of a dictionary, the characters of a string. *)
Definition iter (v : pyval) : outcome (list pyval) :=
  match v with
  | PList xs => Returns xs
  | PDict kvs => Returns (map (fun kv => PStr (fst kv)) kvs)
  | PStr s =>
      Returns (map (fun a => PStr (String a EmptyString)) (list_ascii_of_string s))
  | _ => Raises TypeError
  end.

(** [xs[i]] with Python's negative indices. *)
Definition index {A : Type} (xs : list A) (i : Z) : outcome A :=
  let n := Z.of_nat (List.length xs) in
  let j := if (i <? 0)%Z then (i + n)%Z else i in
  if (j <? 0)%Z then Raises IndexError
  else match nth_error xs (Z.to_nat j) with
       | Some x => Returns x
       | None => Raises IndexError
       end.

(** *** Dictionary keys

    A [dict] identifies keys that hash alike and compare equal: [True],
    [1] and [1.0] are one key, and so are [0], [0.0] and [-0.0].  A key
    is kept here in a canonical form in which that identification is
    plain equality: a finite number is [m * 2^e] with [m] odd (or
    [0 * 2^0]).  Lists and dictionaries are unhashable. *)
Inductive pykey : Type :=
| KNone
| KStr (s : string)
| KNum (m e : Z)
| KInf (negative : bool)
| KNan.

Fixpoint odd_part (p : positive) (e : Z) : positive * Z :=
  match p with
  | xO q => odd_part q (e + 1)%Z
  | _ => (p, e)
  end.

Definition knum (m e : Z) : pykey :=
  match m with
  | Z0 => KNum 0 0
  | Zpos p => let '(q, e') := odd_part p e in KNum (Zpos q) e'
  | Zneg p => let '(q, e') := odd_part p e in KNum (Zneg q) e'
  end.

Definition key_of (v : pyval) : outcome pykey :=
  match v with
  | PNone => Returns KNone
  | PBool b => Returns (knum (if b then 1 else 0) 0)
  | PInt z => Returns (knum z 0)
  | PFloat f =>
      Returns (match Prim2SF f with
               | S754_zero _ => KNum 0 0
               | S754_infinity s => KInf s
               | S754_nan => KNan
               | S754_finite s m e => knum (if s then Zneg m else Zpos m) e
               end)
  | PStr s => Returns (KStr s)
  | PList _ | PDict _ => Raises TypeError
  end.

Definition key_eqb (a b : pykey) : bool :=
  match a, b with
  | KNone, KNone => true
  | KStr s, KStr t => String.eqb s t
  | KNum m e, KNum m' e' => (m =? m')%Z && (e =? e')%Z
  | KInf s, KInf t => Bool.eqb s t
  | KNan, KNan => true
  | _, _ => false
  end.

(** A [defaultdict(list)] in insertion order. *)
Definition listdict (A : Type) : Type := list (pykey * list A).

(** [d[k].append(x)]: extends the list of [k], or enters [k] last with
    the one-element list. *)
Fixpoint append_at {A : Type} (k : pykey) (x : A) (d : listdict A) : listdict A :=
  match d with
  | [] => [(k, [x])]
  | (k', xs) :: rest =>
      if key_eqb k' k then (k', xs ++ [x]) :: rest
      else (k', xs) :: append_at k x rest
  end.

(** The list stored under [k], empty when [k] is not a key. *)
Fixpoint series {A : Type} (d : listdict A) (k : pykey) : list A :=
  match d with
  | [] => []
  | (k', xs) :: rest => if key_eqb k' k then xs else series rest k
  end.

Definition keys {A : Type} (d : listdict A) : list pykey := map fst d.

End Py.

(** *** [sorted(records, key=...)] on string keys

    Python's sort is stable, and a stable sort has one possible result
    (lemma [stable_sort_unique] below); it is produced here by
    insertion, an element going in front of the first one whose key is
    not smaller.  Strings compare code point by code point
    ([String.ltb]). *)

Module PySort.

Section ByKey.
Context {A : Type} (key : A -> string).

Fixpoint insert (x : A) (l : list A) : list A :=
  match l with
  | [] => [x]
  | y :: l' =>
      if String.ltb (key y) (key x) then y :: insert x l' else x :: l
  end.

Definition sorted (l : list A) : list A := fold_right insert [] l.
End ByKey.

End PySort.

(** ** extract_metrics_to_csv.py *)

Module ExtractMetrics.
Import Py.

(** What opening and decoding the input file can give. *)
Inductive file_read : Type :=
| Missing
| NotJson
| Json (data : pyval).

(** [load_json_data]: both handled failures end in [sys.exit(1)]; the
    progress line takes [len(data)] outside any handler that would catch
    its [TypeError]. *)
Definition load_json_data (json_file : file_read) : outcome pyval :=
  match json_file with
  | Missing => Raises SystemExit
  | NotJson => Raises SystemExit
  | Json data => bind (len data) (fun _ => Returns data)
  end.

(** The dictionaries [{'timestamp': ..., 'power_watt': ...}]. *)
Record row : Type := { timestamp : pyval; power_watt : pyval }.

(** The state of the loop: [grouped_data], and the records reported as
    incomplete, in the order of their warnings. *)
Definition grouping : Type := (listdict row * list pyval)%type.

Definition complete (device_id timestamp value : pyval) : bool :=
  truthy device_id && truthy timestamp && negb (is_none value).

(** One turn of the loop of [extract_and_group_data]. *)
Definition group_record (st : grouping) (record : pyval) : outcome grouping :=
  bind (get record "device_id") (fun device_id =>
  bind (get record "timestamp") (fun timestamp =>
  bind (get record "value") (fun value =>
  if complete device_id timestamp value then
    bind (key_of device_id) (fun k =>
    Returns (append_at k {| timestamp := timestamp; power_watt := value |} (fst st),
             snd st))
  else Returns (fst st, snd st ++ [record])))).

Fixpoint group_loop (records : list pyval) (st : grouping) : outcome grouping :=
  match records with
  | [] => Returns st
  | record :: rest => bind (group_record st record) (group_loop rest)
  end.

Definition extract_and_group_data (data : pyval) : outcome grouping :=
  bind (iter data) (fun records => group_loop records ([], [])).

Definition str_of (v : pyval) : string :=
  match v with PStr s => s | _ => EmptyString end.

Definition is_str (v : pyval) : bool :=
  match v with PStr _ => true | _ => false end.

(** [records.sort(key=lambda x: x['timestamp'])].  The comparison is
    modelled for string timestamps; [None] marks a list with another
    kind of timestamp, which is outside the model (it does not say
    that Python raises there). *)
Definition sort_records (records : list row) : option (list row) :=
  if forallb (fun r => is_str (timestamp r)) records
  then Some (PySort.sorted (fun r => str_of (timestamp r)) records)
  else None.

(** A written file: the device it is named after and its data rows. *)
Record csv_file : Type := { device : pykey; rows : list row }.

Definition is_number (v : pyval) : bool :=
  match v with PBool _ | PInt _ | PFloat _ => true | _ => false end.

(** The running total of [sum]: an integer, or a float (whose value
    plays no part in what follows). *)
Inductive total : Type := TInt (z : Z) | TFloat.

(** [total + v] for a number [v]: an integer meeting a float is
    converted to a float first. *)
Definition add (t : total) (v : pyval) : outcome total :=
  match t, v with
  | TInt a, PInt b => Returns (TInt (a + b))
  | TInt a, PBool b => Returns (TInt (a + (if b then 1 else 0)))
  | TInt a, PFloat _ => bind (float_of_int a) (fun _ => Returns TFloat)
  | TFloat, PInt b => bind (float_of_int b) (fun _ => Returns TFloat)
  | TFloat, PBool _ => Returns TFloat
  | TFloat, PFloat _ => Returns TFloat
  | _, _ => Raises TypeError
  end.

Fixpoint sum (values : list pyval) (t : total) : outcome total :=
  match values with
  | [] => Returns t
  | v :: rest => bind (add t v) (sum rest)
  end.

(** The exception, if any, raised while the entry of [summary] is built
    from the sorted records (lines 75-83).  With a value that is not a
    number, [min], [max] or [sum] ends in [TypeError].  With numbers,
    [sum] raises when an integer too large for a double has to become a
    float, and so does the division of an integer sum by [len(records)]
    when the quotient rounds beyond the largest double. *)
Definition summary_exn (records : list row) : option exn :=
  match records with
  | [] => None
  | _ =>
      if forallb (fun r => is_number (power_watt r)) records then
        match sum (map power_watt records) (TInt 0) with
        | Raises e => Some e
        | Returns TFloat => None
        | Returns (TInt a) =>
            if ((2 ^ 1024 - 2 ^ 970) * Z.of_nat (List.length records) <=? Z.abs a)%Z
            then Some OverflowError else None
        end
      else Some TypeError
  end.

(** What [write_csv_files] has done when it ends: the files written, in
    the order of the writes, [grouped_data] as the loop leaves it, and
    the exception that ended the loop, if one did. *)
Record written : Type :=
  { files : list csv_file;
    grouped_after : listdict row;
    raised_in_summary : option exn }.

(** The loop of [write_csv_files]: each list of [grouped_data] is sorted
    in place and written, then its summary is computed.  [None] is, as
    in [sort_records], a dictionary outside the model. *)
Fixpoint write_csv_files (grouped_data : listdict row) : option written :=
  match grouped_data with
  | [] => Some {| files := []; grouped_after := []; raised_in_summary := None |}
  | (device_id, records) :: rest =>
      match sort_records records with
      | None => None
      | Some sorted =>
          let file := {| device := device_id; rows := sorted |} in
          match summary_exn sorted with
          | Some e =>
              Some {| files := [file];
                      grouped_after := (device_id, sorted) :: rest;
                      raised_in_summary := Some e |}
          | None =>
              match write_csv_files rest with
              | None => None
              | Some w =>
                  Some {| files := file :: files w;
                          grouped_after := (device_id, sorted) :: grouped_after w;
                          raised_in_summary := raised_in_summary w |}
              end
          end
      end
  end.

(** Steps 1 and 2 of [main]. *)
Definition load_and_group (json_file : file_read) : outcome grouping :=
  bind (load_json_data json_file) extract_and_group_data.

(** [main] up to step 3: load, group, write.  An exception of the
    first two steps ends the run before anything is written.  Step 4
    ([print_summary]) only prints and is not modelled. *)
Definition main (json_file : file_read) : outcome (option written) :=
  bind (load_and_group json_file) (fun st =>
  Returns (write_csv_files (fst st))).

End ExtractMetrics.

(** ** json_to_csv_simple.py *)

Module JsonToCsvSimple.
Import Py.

Definition row : Type := ExtractMetrics.row.

(** The test
    ['device_id' in record and 'timestamp' in record and 'value' in record],
    evaluated left to right. *)
Definition has_fields (record : pyval) : outcome bool :=
  bind (has "device_id" record) (fun a =>
  if a then
    bind (has "timestamp" record) (fun b =>
    if b then has "value" record else Returns false)
  else Returns false).

(** One turn of the grouping loop of [main]. *)
Definition group_record (devices : listdict row) (record : pyval)
  : outcome (listdict row) :=
  bind (has_fields record) (fun ok =>
  if ok then
    bind (getitem record "device_id") (fun device_id =>
    bind (key_of device_id) (fun k =>
    bind (getitem record "timestamp") (fun timestamp =>
    bind (getitem record "value") (fun value =>
    Returns (append_at k {| ExtractMetrics.timestamp := timestamp;
                            ExtractMetrics.power_watt := value |} devices)))))
  else Returns devices).

Fixpoint group_loop (records : list pyval) (devices : listdict row)
  : outcome (listdict row) :=
  match records with
  | [] => Returns devices
  | record :: rest => bind (group_record devices record) (group_loop rest)
  end.

(** Lines 24-31 of [main]: [devices] after the loop. *)
Definition group (data : pyval) : outcome (listdict row) :=
  bind (iter data) (fun records => group_loop records []).

(** Lines 36-44: each file receives [sorted(records, key=...)]; the
    lists of [devices] stay as they are. *)
Fixpoint write (devices : listdict row) : option (list ExtractMetrics.csv_file) :=
  match devices with
  | [] => Some []
  | (device_id, records) :: rest =>
      match ExtractMetrics.sort_records records, write rest with
      | Some sorted, Some files =>
          Some ({| ExtractMetrics.device := device_id;
                   ExtractMetrics.rows := sorted |} :: files)
      | _, _ => None
      end
  end.

Definition main (data : pyval) : outcome (option (list ExtractMetrics.csv_file)) :=
  bind (group data) (fun devices => Returns (write devices)).

End JsonToCsvSimple.

(** ** chirop/json_to_csv.py *)

Module ChiropJsonToCsv.
Import Py.

(** One turn of the grouping loop of [json_to_csv]: the entry itself is
    stored under [entry['device_id']]; nothing is tested. *)
Definition group_entry (devices_data : listdict pyval) (entry : pyval)
  : outcome (listdict pyval) :=
  bind (getitem entry "device_id") (fun device_id =>
  bind (key_of device_id) (fun k =>
  Returns (append_at k entry devices_data))).

Fixpoint group_loop (entries : list pyval) (devices_data : listdict pyval)
  : outcome (listdict pyval) :=
  match entries with
  | [] => Returns devices_data
  | entry :: rest => bind (group_entry devices_data entry) (group_loop rest)
  end.

(** Lines 23-32: [len(data)] for the progress line, then the loop. *)
Definition group (data : pyval) : outcome (listdict pyval) :=
  bind (len data) (fun _ =>
  bind (iter data) (fun entries => group_loop entries [])).

(** A data row [timestamp, device_id, value, value_abs]. *)
Record csv_row : Type :=
  { r_timestamp : pyval; r_device_id : pyval; r_value : pyval; r_value_abs : pyval }.

Definition write_row (entry : pyval) : outcome csv_row :=
  bind (getitem entry "timestamp") (fun t =>
  bind (getitem entry "device_id") (fun d =>
  bind (getitem entry "value") (fun v =>
  bind (py_abs v) (fun a =>
  Returns {| r_timestamp := t; r_device_id := d; r_value := v; r_value_abs := a |})))).

Fixpoint write_rows (entries : list pyval) : outcome (list csv_row) :=
  match entries with
  | [] => Returns []
  | entry :: rest =>
      bind (write_row entry) (fun r =>
      bind (write_rows rest) (fun rs => Returns (r :: rs)))
  end.

Fixpoint write_files (devices_data : listdict pyval)
  : outcome (list (pykey * list csv_row)) :=
  match devices_data with
  | [] => Returns []
  | (device_id, entries) :: rest =>
      bind (write_rows entries) (fun rs =>
      bind (write_files rest) (fun files => Returns ((device_id, rs) :: files)))
  end.

Definition is_kstr (k : pykey) : bool :=
  match k with KStr _ => true | _ => false end.

(** [json_to_csv]: after grouping, [', '.join(devices_data.keys())]
    needs every key to be a string; then one file per device.  The files
    of a run that raises are not part of the result. *)
Definition json_to_csv (data : pyval) : outcome (list (pykey * list csv_row)) :=
  bind (group data) (fun devices_data =>
  if forallb is_kstr (keys devices_data) then write_files devices_data
  else Raises TypeError).

End ChiropJsonToCsv.

(** ** chirop/plot_chirop5_power.py *)

Module PlotChirop5Power.
Import Py.

Section LoadChirop5.
(** [datetime.fromisoformat] belongs to the Python library: it is a
    parameter, [None] standing for its [ValueError]. *)
Variable datetime : Type.
Variable fromisoformat : string -> option datetime.

Definition parse_timestamp (v : pyval) : outcome datetime :=
  match v with
  | PStr s =>
      match fromisoformat s with
      | Some ts => Returns ts
      | None => Raises ValueError
      end
  | _ => Raises TypeError
  end.

(** One turn of the loop of [load_chirop5_data], on the two lists
    [timestamps] and [power_values]. *)
Definition load_entry (acc : list datetime * list pyval) (entry : pyval)
  : outcome (list datetime * list pyval) :=
  bind (getitem entry "device_id") (fun device_id =>
  if eq_str device_id "chirop-5" then
    bind (getitem entry "timestamp") (fun t =>
    bind (parse_timestamp t) (fun ts =>
    bind (getitem entry "value") (fun value =>
    bind (py_abs value) (fun a =>
    Returns (fst acc ++ [ts], snd acc ++ [a])))))
  else Returns acc).

Fixpoint load_loop (entries : list pyval) (acc : list datetime * list pyval)
  : outcome (list datetime * list pyval) :=
  match entries with
  | [] => Returns acc
  | entry :: rest => bind (load_entry acc entry) (load_loop rest)
  end.

(** [load_chirop5_data], from the decoded file on: the pair
    [(timestamps, power_values)]. *)
Definition load_chirop5_data (data : pyval) : outcome (list datetime * list pyval) :=
  bind (iter data) (fun entries => load_loop entries ([], [])).
End LoadChirop5.

Inductive zone : Type := Package | Dram.

(** The dictionary [info]. *)
Record info : Type :=
  { package_limit : option float; dram_limit : option float }.

(** The variables of the scan. *)
Record scan : Type :=
  { current_zone : option zone; in_dram : bool; found : info }.

Definition start : scan :=
  {| current_zone := None; in_dram := false;
     found := {| package_limit := None; dram_limit := None |} |}.

Definition is_package (z : option zone) : bool :=
  match z with Some Package => true | _ => false end.

Definition absent {A : Type} (o : option A) : bool :=
  match o with None => true | Some _ => false end.

(** The zone markers, first statement of the loop body. *)
Definition enter_zone (line : string) (st : scan) : scan :=
  if contains "name: package-" line then
    {| current_zone := Some Package; in_dram := false; found := found st |}
  else if contains "name: dram" line then
    {| current_zone := Some Dram; in_dram := true; found := found st |}
  else st.

(** [int(line.split(':')[1].strip()) / 1e6]. *)
Definition limit_value (line : string) : outcome float :=
  bind (index (split ":"%char line) 1) (fun field =>
  bind (int_of_str (strip field)) (fun n =>
  int_truediv n 1e6%float)).

(** The assignment under the two [is None] guards. *)
Definition store (value : float) (st : scan) : scan :=
  if in_dram st && absent (dram_limit (found st)) then
    {| current_zone := current_zone st; in_dram := in_dram st;
       found := {| package_limit := package_limit (found st);
                   dram_limit := Some value |} |}
  else if is_package (current_zone st) && absent (package_limit (found st)) then
    {| current_zone := current_zone st; in_dram := in_dram st;
       found := {| package_limit := Some value;
                   dram_limit := dram_limit (found st) |} |}
  else st.

(** The loop body at index [i]; an exception leaves with the state as
    it is at that point. *)
Definition step (lines : list string) (i : Z) (line : string) (st : scan)
  : scan * option exn :=
  let st1 := enter_zone line st in
  if contains "power_limit_uw:" line then
    match index lines (i - 1) with
    | Raises e => (st1, Some e)
    | Returns previous =>
        if contains "long_term" previous then
          match limit_value line with
          | Raises e => (st1, Some e)
          | Returns value => (store value st1, None)
          end
        else (st1, None)
    end
  else (st1, None).

(** [for i, line in enumerate(lines)], from index [i] on. *)
Fixpoint scan_from (lines : list string) (i : Z) (rest : list string) (st : scan)
  : scan * option exn :=
  match rest with
  | [] => (st, None)
  | line :: rest' =>
      match step lines i line st with
      | (st', Some e) => (st', Some e)
      | (st', None) => scan_from lines (i + 1) rest' st'
      end
  end.

(** What the function prints: the configuration line, or the warning of
    the handler. *)
Inductive message : Type :=
| Config (i : info)
| Warning (e : exn).

(** [load_config_info]; [None] is a file that cannot be opened.  The
    handler catches every [Exception] and [info] is returned as the
    scan left it. *)
Definition load_config_info (txt_file : option (list string)) : info * list message :=
  match txt_file with
  | None => (found start, [Warning FileNotFoundError])
  | Some lines =>
      match scan_from lines 0 lines start with
      | (st, None) => (found st, [Config (found st)])
      | (st, Some e) => (found st, [Warning e])
      end
  end.

End PlotChirop5Power.

(** ** chirop/plot_chirop5_timewindow.py *)

Module PlotChirop5Timewindow.
Import Py.

(** The function has the same text as in [plot_chirop5_power.py]. *)
Definition load_chirop5_data := PlotChirop5Power.load_chirop5_data.

(** The dictionary [info]. *)
Record info : Type :=
  { time_window_us : option Z; time_window_ms : option float }.

(** The variables of the scan. *)
Record scan : Type :=
  { in_package : bool; found_long_term : bool; found : info }.

Definition start : scan :=
  {| in_package := false; found_long_term := false;
     found := {| time_window_us := None; time_window_ms := None |} |}.

(** How a loop ends: the lines ran out, [break], or an exception. *)
Inductive ending : Type :=
| Exhausted
| Break
| Exception (e : exn).

(** [int(line.split(':')[1].strip())]. *)
Definition window_value (line : string) : outcome Z :=
  bind (index (split ":"%char line) 1) (fun field => int_of_str (strip field)).

(** The loop of [load_timewindow_info] with its [continue] and [break];
    the index of [enumerate] is not used by the body. *)
Fixpoint scan_lines (lines : list string) (st : scan) : scan * ending :=
  match lines with
  | [] => (st, Exhausted)
  | line :: rest =>
      if contains "name: package-0" line then
        scan_lines rest {| in_package := true;
                           found_long_term := found_long_term st;
                           found := found st |}
      else if in_package st && contains "name: long_term" line then
        scan_lines rest {| in_package := in_package st;
                           found_long_term := true;
                           found := found st |}
      else if found_long_term st && contains "time_window_us:" line then
        match window_value line with
        | Raises e => (st, Exception e)
        | Returns time_us =>
            let st1 := {| in_package := in_package st;
                          found_long_term := found_long_term st;
                          found := {| time_window_us := Some time_us;
                                      time_window_ms := time_window_ms (found st) |} |} in
            match int_truediv time_us 1000%float with
            | Raises e => (st1, Exception e)
            | Returns time_ms =>
                ({| in_package := in_package st;
                    found_long_term := found_long_term st;
                    found := {| time_window_us := Some time_us;
                                time_window_ms := Some time_ms |} |}, Break)
            end
        end
      else scan_lines rest st
  end.

Inductive message : Type :=
| TimeWindow (us : Z) (ms : option float)
| NotFound
| Warning (e : exn).

(** The report after the loop: [if info['time_window_us']] is false for
    [None] and for [0]. *)
Definition report (i : info) : message :=
  match time_window_us i with
  | Some us => if (us =? 0)%Z then NotFound else TimeWindow us (time_window_ms i)
  | None => NotFound
  end.

(** [load_timewindow_info]; [None] is a file that cannot be opened. *)
Definition load_timewindow_info (txt_file : option (list string)) : info * list message :=
  match txt_file with
  | None => (found start, [Warning FileNotFoundError])
  | Some lines =>
      match scan_lines lines start with
      | (st, Exception e) => (found st, [Warning e])
      | (st, _) => (found st, [report (found st)])
      end
  end.

End PlotChirop5Timewindow.

(** ** plot_power_curves.py and plot_simple.py *)

Module PlotPowerCurves.
Import Py.

(** The value [{'timestamps': [...], 'power_watts': [...]}] kept for a
    device: two lists filled side by side. *)
Record curve (Timestamp : Type) : Type :=
  { timestamps : list Timestamp; power_watts : list pyval }.
Arguments timestamps {Timestamp} _.
Arguments power_watts {Timestamp} _.

(** [devices_data], in insertion order. *)
Definition devices (Timestamp : Type) : Type := list (pykey * curve Timestamp).

Section LoadDataFromJson.
(** [pd.to_datetime] on one timestamp: the pandas value, or the
    exception raised. *)
Context {Timestamp : Type} (to_datetime : pyval -> outcome Timestamp).

(** [device_id in devices_data]. *)
Definition contains_key (k : pykey) (d : devices Timestamp) : bool :=
  existsb (fun e => key_eqb (fst e) k) d.

(** [devices_data[k] = c]: replaces the value of [k], or enters [k]
    last. *)
Fixpoint setitem (k : pykey) (c : curve Timestamp) (d : devices Timestamp)
  : devices Timestamp :=
  match d with
  | [] => [(k, c)]
  | (k', c') :: rest =>
      if key_eqb k' k then (k', c) :: rest else (k', c') :: setitem k c rest
  end.

(** [devices_data[k]]. *)
Fixpoint lookup (k : pykey) (d : devices Timestamp) : outcome (curve Timestamp) :=
  match d with
  | [] => Raises KeyError
  | (k', c) :: rest => if key_eqb k' k then Returns c else lookup k rest
  end.

(** The dictionary after the value of [k] has been changed in place. *)
Fixpoint update (k : pykey) (f : curve Timestamp -> curve Timestamp)
         (d : devices Timestamp) : devices Timestamp :=
  match d with
  | [] => []
  | (k', c) :: rest =>
      if key_eqb k' k then (k', f c) :: rest else (k', c) :: update k f rest
  end.

Definition append_timestamp (ts : Timestamp) (c : curve Timestamp) : curve Timestamp :=
  {| timestamps := timestamps c ++ [ts]; power_watts := power_watts c |}.

Definition append_power (value : pyval) (c : curve Timestamp) : curve Timestamp :=
  {| timestamps := timestamps c; power_watts := power_watts c ++ [value] |}.

(** One turn of the loop of [load_data_from_json] (lines 27-37).  In
    line 36 the list [devices_data[device_id]['timestamps']] is looked
    up before [pd.to_datetime] is called, and extended after; in line 37
    the other list is looked up and extended. *)
Definition load_record (devices_data : devices Timestamp) (record : pyval)
  : outcome (devices Timestamp) :=
  bind (get record "device_id") (fun device_id =>
  bind (get record "timestamp") (fun timestamp =>
  bind (get record "value") (fun value =>
  if ExtractMetrics.complete device_id timestamp value then
    bind (key_of device_id) (fun k =>
    let devices_data :=
      if contains_key k devices_data then devices_data
      else setitem k {| timestamps := []; power_watts := [] |} devices_data in
    bind (lookup k devices_data) (fun _ =>
    bind (to_datetime timestamp) (fun ts =>
    let devices_data := update k (append_timestamp ts) devices_data in
    bind (lookup k devices_data) (fun _ =>
    Returns (update k (append_power value) devices_data)))))
  else Returns devices_data))).

Fixpoint load_loop (records : list pyval) (devices_data : devices Timestamp)
  : outcome (devices Timestamp) :=
  match records with
  | [] => Returns devices_data
  | record :: rest => bind (load_record devices_data record) (load_loop rest)
  end.

(** [load_data_from_json] on the decoded file. *)
Definition load_data_from_json (data : pyval) : outcome (devices Timestamp) :=
  bind (iter data) (fun records => load_loop records []).

End LoadDataFromJson.

End PlotPowerCurves.

(** [plot_simple.py]: the loop of [main] (lines 23-32), on a
    [defaultdict] whose missing keys are entered with two empty lists
    when they are looked up.  The lists are named [timestamps] and
    [power] there. *)
Module PlotSimple.
Import Py.

Section Group.
Context {Timestamp : Type} (to_datetime : pyval -> outcome Timestamp).

(** [devices[k]] on the [defaultdict]: the dictionary after the
    look-up. *)
Definition missing (k : pykey) (d : PlotPowerCurves.devices Timestamp)
  : PlotPowerCurves.devices Timestamp :=
  if PlotPowerCurves.contains_key k d then d
  else PlotPowerCurves.setitem k {| PlotPowerCurves.timestamps := [];
                                    PlotPowerCurves.power_watts := [] |} d.

Definition group_record (devices : PlotPowerCurves.devices Timestamp)
           (record : pyval) : outcome (PlotPowerCurves.devices Timestamp) :=
  bind (get record "device_id") (fun device_id =>
  bind (get record "timestamp") (fun timestamp =>
  bind (get record "value") (fun value =>
  if ExtractMetrics.complete device_id timestamp value then
    bind (key_of device_id) (fun k =>
    let devices := missing k devices in
    bind (to_datetime timestamp) (fun ts =>
    let devices := PlotPowerCurves.update k (PlotPowerCurves.append_timestamp ts)
                                          devices in
    let devices := missing k devices in
    Returns (PlotPowerCurves.update k (PlotPowerCurves.append_power value) devices)))
  else Returns devices))).

Fixpoint group_loop (records : list pyval)
         (devices : PlotPowerCurves.devices Timestamp)
  : outcome (PlotPowerCurves.devices Timestamp) :=
  match records with
  | [] => Returns devices
  | record :: rest => bind (group_record devices record) (group_loop rest)
  end.

Definition group (data : pyval) : outcome (PlotPowerCurves.devices Timestamp) :=
  bind (iter data) (fun records => group_loop records []).

End Group.

End PlotSimple.

(** ** chirop/json_to_csv.py: all the files of a directory *)

Module ProcessAllJsonFiles.
Import Py.

(** [s.startswith(p)] and [s.endswith(p)]. *)
Definition startswith (p s : string) : bool := String.prefix p s.

Fixpoint endswith (p s : string) : bool :=
  String.eqb s p
  || match s with
     | EmptyString => false
     | String _ s' => endswith p s'
     end.

(** The test of line 80 on a name of the directory. *)
Definition selected (filename : string) : bool :=
  startswith "metrics_powercap_" filename && endswith ".json" filename.

(** [os.path.join(directory, filename)] of [posixpath]. *)
Definition join (directory filename : string) : string :=
  if startswith "/" filename then filename
  else if String.eqb directory EmptyString || endswith "/" directory
       then (directory ++ filename)%string
       else (directory ++ "/" ++ filename)%string.

(** Lines 78-83: the paths of the selected names of [os.listdir], in
    the order of the listing, then sorted. *)
Definition json_files (directory : string) (listing : list string) : list string :=
  PySort.sorted (fun path => path) (map (join directory) (filter selected listing)).

Section Convert.
(** [json_to_csv] on a path: the CSV files it returns, or the exception
    it raises.  A conversion reads one selected file and writes files
    named [..._<device>.csv], which are not selected, so that it does
    not depend on the conversions before it. *)
Variable json_to_csv : string -> outcome (list string).

(** Lines 91-94. *)
Fixpoint convert (files all_csv_files : list string) : outcome (list string) :=
  match files with
  | [] => Returns all_csv_files
  | json_file :: rest =>
      bind (json_to_csv json_file) (fun csv_files =>
      convert rest (all_csv_files ++ csv_files))
  end.

(** [process_all_json_files] on the listing of its directory: [None]
    when no name is selected, else [all_csv_files] as the loop of lines
    92-94 leaves it.  The sizes printed afterwards ([os.path.getsize])
    are not modelled. *)
Definition process_all_json_files (directory : string) (listing : list string)
  : outcome (option (list string)) :=
  match json_files directory listing with
  | [] => Returns None
  | files => bind (convert files []) (fun all_csv_files => Returns (Some all_csv_files))
  end.

End Convert.

End ProcessAllJsonFiles.

(** ** enoslib/add_machine_profile.py *)

Module AddMachineProfile.
Import Py.

(** The dictionary [info] of [get_cpu_info], key by key; [None] is a
    key that has not been set. *)
Record cpu_info : Type :=
  { cpu_threads : option Z;
    threads_per_core : option Z;
    cores_per_socket : option Z;
    sockets : option Z;
    cpu_model : option string;
    cpu_max_mhz : option Z;
    cpu_min_mhz : option Z;
    cpu_cores : option Z }.

Definition empty_info : cpu_info :=
  {| cpu_threads := None; threads_per_core := None; cores_per_socket := None;
     sockets := None; cpu_model := None; cpu_max_mhz := None; cpu_min_mhz := None;
     cpu_cores := None |}.

(** [line.split(':')[1].strip()]. *)
Definition value_text (line : string) : outcome string :=
  bind (index (split ":"%char line) 1) (fun text => Returns (strip text)).

Section GetCpuInfo.
(** [int(float(text))]: the integer, or the exception of [float] or of
    [int]. *)
Variable int_of_float_text : string -> outcome Z.

(** The body of the loop of [get_cpu_info]: the first test that holds
    decides which key is set. *)
Definition read_line (info : cpu_info) (line : string) : outcome cpu_info :=
  if contains "CPU(s):" line && negb (contains "NUMA" line)
     && negb (contains "On-line" line) then
    bind (value_text line) (fun text => bind (int_of_str text) (fun n =>
    Returns {| cpu_threads := Some n; threads_per_core := threads_per_core info;
               cores_per_socket := cores_per_socket info; sockets := sockets info;
               cpu_model := cpu_model info; cpu_max_mhz := cpu_max_mhz info;
               cpu_min_mhz := cpu_min_mhz info; cpu_cores := cpu_cores info |}))
  else if contains "Thread(s) per core:" line then
    bind (value_text line) (fun text => bind (int_of_str text) (fun n =>
    Returns {| cpu_threads := cpu_threads info; threads_per_core := Some n;
               cores_per_socket := cores_per_socket info; sockets := sockets info;
               cpu_model := cpu_model info; cpu_max_mhz := cpu_max_mhz info;
               cpu_min_mhz := cpu_min_mhz info; cpu_cores := cpu_cores info |}))
  else if contains "Core(s) per socket:" line then
    bind (value_text line) (fun text => bind (int_of_str text) (fun n =>
    Returns {| cpu_threads := cpu_threads info; threads_per_core := threads_per_core info;
               cores_per_socket := Some n; sockets := sockets info;
               cpu_model := cpu_model info; cpu_max_mhz := cpu_max_mhz info;
               cpu_min_mhz := cpu_min_mhz info; cpu_cores := cpu_cores info |}))
  else if contains "Socket(s):" line then
    bind (value_text line) (fun text => bind (int_of_str text) (fun n =>
    Returns {| cpu_threads := cpu_threads info; threads_per_core := threads_per_core info;
               cores_per_socket := cores_per_socket info; sockets := Some n;
               cpu_model := cpu_model info; cpu_max_mhz := cpu_max_mhz info;
               cpu_min_mhz := cpu_min_mhz info; cpu_cores := cpu_cores info |}))
  else if contains "Model name:" line then
    bind (value_text line) (fun text =>
    Returns {| cpu_threads := cpu_threads info; threads_per_core := threads_per_core info;
               cores_per_socket := cores_per_socket info; sockets := sockets info;
               cpu_model := Some text; cpu_max_mhz := cpu_max_mhz info;
               cpu_min_mhz := cpu_min_mhz info; cpu_cores := cpu_cores info |})
  else if contains "CPU max MHz:" line then
    bind (value_text line) (fun text => bind (int_of_float_text text) (fun n =>
    Returns {| cpu_threads := cpu_threads info; threads_per_core := threads_per_core info;
               cores_per_socket := cores_per_socket info; sockets := sockets info;
               cpu_model := cpu_model info; cpu_max_mhz := Some n;
               cpu_min_mhz := cpu_min_mhz info; cpu_cores := cpu_cores info |}))
  else if contains "CPU min MHz:" line then
    bind (value_text line) (fun text => bind (int_of_float_text text) (fun n =>
    Returns {| cpu_threads := cpu_threads info; threads_per_core := threads_per_core info;
               cores_per_socket := cores_per_socket info; sockets := sockets info;
               cpu_model := cpu_model info; cpu_max_mhz := cpu_max_mhz info;
               cpu_min_mhz := Some n; cpu_cores := cpu_cores info |}))
  else Returns info.

Fixpoint read_lines (lines : list string) (info : cpu_info) : outcome cpu_info :=
  match lines with
  | [] => Returns info
  | line :: rest => bind (read_line info line) (read_lines rest)
  end.

(** [info[key]]. *)
Definition item {A : Type} (entry : option A) : outcome A :=
  match entry with Some a => Returns a | None => Raises KeyError end.

(** [get_cpu_info] on the output of [lscpu]. *)
Definition get_cpu_info (stdout : string) : outcome cpu_info :=
  bind (read_lines (split "010"%char stdout) empty_info) (fun info =>
  bind (item (cores_per_socket info)) (fun cores =>
  bind (item (sockets info)) (fun n =>
  Returns {| cpu_threads := cpu_threads info; threads_per_core := threads_per_core info;
             cores_per_socket := cores_per_socket info; sockets := sockets info;
             cpu_model := cpu_model info; cpu_max_mhz := cpu_max_mhz info;
             cpu_min_mhz := cpu_min_mhz info; cpu_cores := Some (cores * n)%Z |}))).

End GetCpuInfo.

(** The dictionary [profile]. *)
Record profile : Type :=
  { cluster : string;
    site : string;
    profile_cpu_threads : Z;
    profile_cpu_cores : Z;
    profile_sockets : Z;
    profile_threads_per_core : Z;
    memory_gb : Z;
    profile_cpu_model : string;
    cpu_base_mhz : Z;
    profile_cpu_max_mhz : Z;
    stress_cpu_threads : Z;
    stress_vm_workers : Z;
    stress_vm_memory : string;
    cpu_method : string }.

(** [cpu_info.get(key, default)]. *)
Definition get_or {A : Type} (entry : option A) (default : A) : A :=
  match entry with Some a => a | None => default end.

(** [create_profile], with an integer [memory_gb] as [get_memory_info]
    returns. *)
Definition create_profile (cluster_name site_name : string) (info : cpu_info)
           (memory : Z) : outcome profile :=
  bind (item (cpu_threads info)) (fun threads =>
  bind (item (cpu_cores info)) (fun cores =>
  let workers := (cores / 2)%Z in
  let vm_memory :=
    if (500 <=? memory)%Z then "80%"
    else if (300 <=? memory)%Z then "75%" else "70%" in
  bind (item (sockets info)) (fun n =>
  bind (item (threads_per_core info)) (fun per_core =>
  Returns {| cluster := cluster_name;
             site := site_name;
             profile_cpu_threads := threads;
             profile_cpu_cores := cores;
             profile_sockets := n;
             profile_threads_per_core := per_core;
             memory_gb := memory;
             profile_cpu_model := get_or (cpu_model info) "Unknown";
             cpu_base_mhz := get_or (cpu_min_mhz info) 2000%Z;
             profile_cpu_max_mhz := get_or (cpu_max_mhz info) 3000%Z;
             stress_cpu_threads := threads;
             stress_vm_workers := workers;
             stress_vm_memory := vm_memory;
             cpu_method := "matrixprod" |})))).

End AddMachineProfile.

(** ** extract_metrics_to_csv.py: the period of a summary *)

Module SummaryPeriod.
Import Py.

(** Lines 76-78 of [write_csv_files], on the list of a device after it
    has been sorted. *)
Definition records_count (records : list ExtractMetrics.row) : Z :=
  Z.of_nat (List.length records).

Definition first_timestamp (records : list ExtractMetrics.row) : outcome pyval :=
  match records with
  | [] => Returns (PStr "N/A")
  | _ => bind (index records 0) (fun r => Returns (ExtractMetrics.timestamp r))
  end.

Definition last_timestamp (records : list ExtractMetrics.row) : outcome pyval :=
  match records with
  | [] => Returns (PStr "N/A")
  | _ => bind (index records (-1)) (fun r => Returns (ExtractMetrics.timestamp r))
  end.

End SummaryPeriod.

(** ** Vocabulary of the statements *)

Import Py.

Definition fmap {A B : Type} (f : A -> B) (m : outcome A) : outcome B :=
  bind m (fun a => Returns (f a)).

(** [record.get(k)] as a value: [None] for a missing key. *)
Definition field (record : pyval) (k : string) : pyval :=
  match record with
  | PDict kvs => match assoc k kvs with Some v => v | None => PNone end
  | _ => PNone
  end.

Definition is_dict (v : pyval) : bool :=
  match v with PDict _ => true | _ => false end.

Definition has_key (record : pyval) (k : string) : bool :=
  match record with
  | PDict kvs => match assoc k kvs with Some _ => true | None => false end
  | _ => false
  end.

(** A record that lacks one of the three fields. *)
Definition lacks_field (record : pyval) : bool :=
  is_dict record &&
  negb (has_key record "device_id" && has_key record "timestamp"
        && has_key record "value").

Definition hashable (v : pyval) : bool := negb (raised (key_of v)).

(** The device of a record is [k]. *)
Definition device_is (k : pykey) (record : pyval) : bool :=
  match key_of (field record "device_id") with
  | Returns k' => key_eqb k' k
  | Raises _ => false
  end.

Definition row_of (record : pyval) : ExtractMetrics.row :=
  {| ExtractMetrics.timestamp := field record "timestamp";
     ExtractMetrics.power_watt := field record "value" |}.

(** The test of [extract_and_group_data] on a record. *)
Definition kept (record : pyval) : bool :=
  ExtractMetrics.complete (field record "device_id") (field record "timestamp")
                          (field record "value").

(** The test of [json_to_csv_simple.py] on a record. *)
Definition kept_simple (record : pyval) : bool :=
  has_key record "device_id" && has_key record "timestamp" && has_key record "value".

(** A record that [extract_and_group_data] can process: a dictionary
    whose device, when the record is kept, can be a dictionary key. *)
Definition groupable (record : pyval) : bool :=
  is_dict record && (negb (kept record) || hashable (field record "device_id")).

(** The same for [json_to_csv_simple.py], on dictionaries. *)
Definition groupable_simple (record : pyval) : bool :=
  is_dict record && (negb (kept_simple record) || hashable (field record "device_id")).

(** The records reported as incomplete. *)
Definition skipped (data : pyval) : list pyval :=
  match data with
  | PList records => filter (fun r => negb (kept r)) records
  | _ => []
  end.

Definition nonempty_str (v : pyval) : bool :=
  match v with PStr s => negb (String.eqb s EmptyString) | _ => false end.

Definition str_or_none (v : pyval) : bool :=
  match v with PStr _ | PNone => true | _ => false end.

(** The timestamp a row is sorted by. *)
Definition time_of (r : ExtractMetrics.row) : string :=
  ExtractMetrics.str_of (ExtractMetrics.timestamp r).

(** Rows in non-decreasing order of timestamp. *)
Definition in_time_order (rows : list ExtractMetrics.row) : Prop :=
  StronglySorted (fun a b => String.leb (time_of a) (time_of b) = true) rows.

Definition at_time (t : string) (r : ExtractMetrics.row) : bool :=
  String.eqb (time_of r) t.

(** [rows'] is [rows] rearranged without changing the relative order of
    rows of equal timestamp. *)
Definition stable_rearrangement (rows rows' : list ExtractMetrics.row) : Prop :=
  Permutation rows rows' /\
  forall t, filter (at_time t) rows' = filter (at_time t) rows.

(** *** Timestamps written in one layout

    Two strings have the same layout when they have digits at the same
    positions and the same characters elsewhere, as two timestamps
    [YYYY-MM-DDTHH:MM:SS] have.  [instant] reads the digits of a string
    as one number, the leading field being the most significant: on one
    layout, that is the order of the instants written. *)
Fixpoint same_layout (s t : string) : bool :=
  match s, t with
  | EmptyString, EmptyString => true
  | String a s', String b t' =>
      match digit_val a, digit_val b with
      | Some _, Some _ => same_layout s' t'
      | None, None => Ascii.eqb a b && same_layout s' t'
      | _, _ => false
      end
  | _, _ => false
  end.

Fixpoint read_digits (s : string) (acc : Z) : Z :=
  match s with
  | EmptyString => acc
  | String a s' =>
      match digit_val a with
      | Some d => read_digits s' (10 * acc + d)
      | None => read_digits s' acc
      end
  end.

Definition instant (s : string) : Z := read_digits s 0.

(** Rows whose timestamps are all in one layout, and rows in
    non-decreasing order of instant. *)
Definition one_layout (rows : list ExtractMetrics.row) : Prop :=
  forall a b, In a rows -> In b rows -> same_layout (time_of a) (time_of b) = true.

Definition chronological (rows : list ExtractMetrics.row) : Prop :=
  StronglySorted (fun a b => (instant (time_of a) <= instant (time_of b))%Z) rows.

(** An entry of [grouped_data] with its list sorted, and the file
    written for it. *)
Definition sort_entry (d : pykey * list ExtractMetrics.row)
  : pykey * list ExtractMetrics.row :=
  (fst d, PySort.sorted time_of (snd d)).

Definition file_of (d : pykey * list ExtractMetrics.row) : ExtractMetrics.csv_file :=
  {| ExtractMetrics.device := fst d;
     ExtractMetrics.rows := PySort.sorted time_of (snd d) |}.

(** Three rows of one device: the second and third have the same
    timestamp, earlier than that of the first. *)
Definition three_rows : list ExtractMetrics.row :=
  [ {| ExtractMetrics.timestamp := PStr "2024-01-01T00:00:02";
       ExtractMetrics.power_watt := PFloat 1%float |};
    {| ExtractMetrics.timestamp := PStr "2024-01-01T00:00:01";
       ExtractMetrics.power_watt := PFloat (-2)%float |};
    {| ExtractMetrics.timestamp := PStr "2024-01-01T00:00:01";
       ExtractMetrics.power_watt := PFloat 3%float |} ].

(** Power values that are all floats, as JSON readings such as [42.5]
    are. *)
Definition float_values (d : listdict ExtractMetrics.row) : Prop :=
  forall k rows r, In (k, rows) d -> In r rows ->
                   exists f, ExtractMetrics.power_watt r = PFloat f.

Definition string_timestamps (d : listdict ExtractMetrics.row) : Prop :=
  forall k rows r, In (k, rows) d -> In r rows ->
                   ExtractMetrics.is_str (ExtractMetrics.timestamp r) = true.

(** The entries [load_chirop5_data] selects. *)
Definition is_chirop5 (entry : pyval) : bool :=
  eq_str (field entry "device_id") "chirop-5".

(** [p] is the pair (parsed timestamp, absolute value) of [entry]. *)
Definition pair_of {datetime : Type} (fromisoformat : string -> option datetime)
           (entry : pyval) (p : datetime * pyval) : Prop :=
  exists s, field entry "timestamp" = PStr s
            /\ fromisoformat s = Some (fst p)
            /\ py_abs (field entry "value") = Returns (snd p).

(** An entry [load_chirop5_data] can process: it has a [device_id],
    and when that is ["chirop-5"] a timestamp that parses and a number
    as value. *)
Definition loadable {datetime : Type} (fromisoformat : string -> option datetime)
           (entry : pyval) : Prop :=
  has_key entry "device_id" = true
  /\ (is_chirop5 entry = true -> exists p, pair_of fromisoformat entry p).

(** The example input of the specification. *)
Definition example_entries : list pyval :=
  [PDict [("device_id", PStr "chirop-5");
          ("timestamp", PStr "2024-01-01T00:00:00");
          ("value", PFloat (-42.5)%float)];
   PDict [("device_id", PStr "chirop-5");
          ("timestamp", PStr "2024-01-01T00:00:01");
          ("value", PFloat 10%float)]].

Definition example_records : pyval := PList example_entries.

(** The result of an outcome, if any. *)
Definition value_of {A : Type} (m : outcome A) : option A :=
  match m with Returns a => Some a | Raises _ => None end.

(** *** The time-window scan as the specification words it

    Three states; a line containing [name: package-0] enters the package
    zone; in the zone a line containing [name: long_term] sets the
    found-long-term state; in that state the next line containing
    [time_window_us:] is taken and the machine stops.  The three rules
    are tried in that order, one per line. *)
Module TimeWindowMachine.

Inductive state : Type := Outside | InPackageZone | FoundLongTerm.

Inductive move : Type :=
| Next (s : state)
| Take.

Definition react (s : state) (line : string) : move :=
  if contains "name: package-0" line then
    Next (match s with Outside => InPackageZone | _ => s end)
  else
    match s with
    | Outside => Next Outside
    | InPackageZone =>
        if contains "name: long_term" line then Next FoundLongTerm
        else Next InPackageZone
    | FoundLongTerm =>
        if contains "name: long_term" line then Next FoundLongTerm
        else if contains "time_window_us:" line then Take
        else Next FoundLongTerm
    end.

(** The line the machine takes, if it takes one. *)
Fixpoint run (s : state) (lines : list string) : option string :=
  match lines with
  | [] => None
  | line :: rest =>
      match react s line with
      | Next s' => run s' rest
      | Take => Some line
      end
  end.

(** The fields reported for a taken line: the integer after the first
    colon as microseconds, and that value divided by [1000.0]. *)
Definition reported (taken : option string) : PlotChirop5Timewindow.info :=
  match taken with
  | None => PlotChirop5Timewindow.found PlotChirop5Timewindow.start
  | Some line =>
      match PlotChirop5Timewindow.window_value line with
      | Raises _ => PlotChirop5Timewindow.found PlotChirop5Timewindow.start
      | Returns us =>
          {| PlotChirop5Timewindow.time_window_us := Some us;
             PlotChirop5Timewindow.time_window_ms := value_of (int_truediv us 1000%float) |}
      end
  end.

End TimeWindowMachine.

(** The state of the machine that the variables of the scan stand for. *)
Definition machine_state (st : PlotChirop5Timewindow.scan) : TimeWindowMachine.state :=
  if PlotChirop5Timewindow.found_long_term st then TimeWindowMachine.FoundLongTerm
  else if PlotChirop5Timewindow.in_package st then TimeWindowMachine.InPackageZone
  else TimeWindowMachine.Outside.

(** The flag is only set inside the zone. *)
Definition flag_in_zone (st : PlotChirop5Timewindow.scan) : Prop :=
  PlotChirop5Timewindow.found_long_term st = true ->
  PlotChirop5Timewindow.in_package st = true.

(** How the scan ends on the line it takes, from the fields [i]. *)
Definition take_line (i : PlotChirop5Timewindow.info) (line : string)
  : PlotChirop5Timewindow.info * PlotChirop5Timewindow.ending :=
  match PlotChirop5Timewindow.window_value line with
  | Raises e => (i, PlotChirop5Timewindow.Exception e)
  | Returns us =>
      match int_truediv us 1000%float with
      | Raises e =>
          ({| PlotChirop5Timewindow.time_window_us := Some us;
              PlotChirop5Timewindow.time_window_ms := PlotChirop5Timewindow.time_window_ms i |},
           PlotChirop5Timewindow.Exception e)
      | Returns ms =>
          ({| PlotChirop5Timewindow.time_window_us := Some us;
              PlotChirop5Timewindow.time_window_ms := Some ms |},
           PlotChirop5Timewindow.Break)
      end
  end.

(** A line that cannot be taken. *)
Definition quiet (line : string) : Prop :=
  contains "time_window_us:" line = false.

Definition example_config : list string :=
  ["name: package-0"; "name: long_term"; "time_window_us: 8000"].

(** The decoded documents on which loading and grouping go through. *)
Definition groupable_document (data : pyval) : bool :=
  match data with
  | PList records => forallb groupable records
  | PDict [] => true
  | PStr EmptyString => true
  | _ => false
  end.

(** *** More vocabulary: what a grouping holds *)

(** The number of rows held by a dictionary of lists. *)
Definition total_rows {A : Type} (d : listdict A) : nat :=
  List.length (List.concat (map snd d)).

(** No key twice, no empty list, and every entry is the one its key
    reads. *)
Definition well_grouped {A : Type} (d : listdict A) : Prop :=
  NoDup (keys d)
  /\ Forall (fun e => snd e <> []) d
  /\ forall k xs, In (k, xs) d -> series d k = xs.

(** *** More vocabulary: [chirop/json_to_csv.py] *)

(** An entry [json_to_csv] can convert: a dictionary with a string as
    [device_id], a [timestamp], and a number as [value]. *)
Definition convertible (entry : pyval) : bool :=
  ExtractMetrics.is_str (field entry "device_id")
  && has_key entry "timestamp"
  && ExtractMetrics.is_number (field entry "value").

Definition abs_value (v : pyval) : pyval :=
  match py_abs v with Returns a => a | Raises _ => PNone end.

(** The row written for an entry. *)
Definition csv_row_of (entry : pyval) : ChiropJsonToCsv.csv_row :=
  {| ChiropJsonToCsv.r_timestamp := field entry "timestamp";
     ChiropJsonToCsv.r_device_id := field entry "device_id";
     ChiropJsonToCsv.r_value := field entry "value";
     ChiropJsonToCsv.r_value_abs := abs_value (field entry "value") |}.

(** What the grouping loop needs of an entry, and what writing a row
    needs. *)
Definition keyed (entry : pyval) : bool :=
  has_key entry "device_id" && hashable (field entry "device_id").

Definition writable (entry : pyval) : bool :=
  has_key entry "timestamp" && has_key entry "device_id"
  && ExtractMetrics.is_number (field entry "value").

Definition key_error_or_type_error (e : exn) : Prop :=
  e = KeyError \/ e = TypeError.

(** *** More vocabulary: the two scans *)

(** The exceptions of a number that cannot be read. *)
Definition bad_number (e : exn) : Prop := e = ValueError \/ e = OverflowError.

(** Config lines with two package zones of different limits. *)
Definition two_packages : list string :=
  ["name: package-0"; "  name: long_term"; "  power_limit_uw: 15000000";
   "name: package-1"; "  name: long_term"; "  power_limit_uw: 20000000"].

(** *** More vocabulary: values that are not negative *)

(** An integer that is at least [0], or a float that is not below
    [0.0] (a NaN is not). *)
Definition not_negative (v : pyval) : Prop :=
  match v with
  | PInt z => (0 <= z)%Z
  | PFloat f => (f <? 0)%float = false
  | _ => False
  end.

(** *** More vocabulary: a whole run of [extract_metrics_to_csv.py] *)

Definition is_float (v : pyval) : bool :=
  match v with PFloat _ => true | _ => false end.

(** A record with a string as timestamp and a float as value, as the
    readings of a metrics file are. *)
Definition float_reading (record : pyval) : bool :=
  ExtractMetrics.is_str (field record "timestamp")
  && is_float (field record "value").

(** The rows of device [k] among [records], in time order. *)
Definition rows_in_time_order (k : pykey) (records : list pyval)
  : list ExtractMetrics.row :=
  PySort.sorted time_of
    (map row_of (filter (fun r => kept r && device_is k r) records)).

(** Readings of two devices, the second device read first, and one
    record without a value. *)
Definition two_devices : list pyval :=
  [PDict [("device_id", PStr "b"); ("timestamp", PStr "2024-01-01T00:00:03");
          ("value", PFloat 7%float)];
   PDict [("device_id", PStr "a"); ("timestamp", PStr "2024-01-01T00:00:02");
          ("value", PFloat 1%float)];
   PDict [("device_id", PStr "a"); ("timestamp", PStr "2024-01-01T00:00:04")];
   PDict [("device_id", PStr "a"); ("timestamp", PStr "2024-01-01T00:00:01");
          ("value", PFloat (-2)%float)]].

(** *** More vocabulary: the points of the plots *)

(** A point [(ts, v)] added to the curve of device [k]: at the end of
    both lists of [k], or as a new last device. *)
Fixpoint add_point {Timestamp : Type} (k : pykey) (ts : Timestamp) (v : pyval)
         (d : PlotPowerCurves.devices Timestamp) : PlotPowerCurves.devices Timestamp :=
  match d with
  | [] => [(k, {| PlotPowerCurves.timestamps := [ts];
                  PlotPowerCurves.power_watts := [v] |})]
  | (k', c) :: rest =>
      if key_eqb k' k
      then (k', {| PlotPowerCurves.timestamps := PlotPowerCurves.timestamps c ++ [ts];
                   PlotPowerCurves.power_watts := PlotPowerCurves.power_watts c ++ [v] |})
           :: rest
      else (k', c) :: add_point k ts v rest
  end.

(** The curve [c] holds the rows [rows], one point per row in the same
    order: the values as they are, the timestamps converted. *)
Definition points_of {Timestamp : Type} (to_datetime : pyval -> outcome Timestamp)
           (rows : list ExtractMetrics.row) (c : PlotPowerCurves.curve Timestamp)
  : Prop :=
  PlotPowerCurves.power_watts c = map ExtractMetrics.power_watt rows
  /\ Forall2 (fun r t => to_datetime (ExtractMetrics.timestamp r) = Returns t)
             rows (PlotPowerCurves.timestamps c).

(** The same devices in the same order, each curve holding the rows of
    its device. *)
Definition same_points {Timestamp : Type} (to_datetime : pyval -> outcome Timestamp)
           (d : PlotPowerCurves.devices Timestamp) (g : listdict ExtractMetrics.row)
  : Prop :=
  Forall2 (fun e e' => fst e = fst e' /\ points_of to_datetime (snd e') (snd e)) d g.

(** A conversion that takes strings as they are and nothing else. *)
Definition read_string (v : pyval) : outcome string :=
  match v with PStr s => Returns s | _ => Raises TypeError end.

(** The curves of the two devices of the example. *)
Definition two_curves : PlotPowerCurves.devices string :=
  [(KStr "b", {| PlotPowerCurves.timestamps := ["2024-01-01T00:00:03"];
                 PlotPowerCurves.power_watts := [PFloat 7%float] |});
   (KStr "a", {| PlotPowerCurves.timestamps :=
                   ["2024-01-01T00:00:02"; "2024-01-01T00:00:01"];
                 PlotPowerCurves.power_watts :=
                   [PFloat 1%float; PFloat (-2)%float] |})].

(** *** More vocabulary: the files of a directory *)

(** Paths in ascending order, as [list.sort] leaves strings. *)
Definition ascending (paths : list string) : Prop :=
  StronglySorted (fun a b => String.leb a b = true) paths.

(** A conversion that names one CSV file after its input. *)
Definition one_csv (json_file : string) : outcome (list string) :=
  Returns [(json_file ++ ".csv")%string].

(** *** More vocabulary: the machine profile *)

(** The profile detected from the output of [lscpu], steps 1 and 3 of
    [main] of [add_machine_profile.py]. *)
Definition detected_profile (int_of_float_text : string -> outcome Z)
           (cluster_name site_name stdout : string) (memory : Z)
  : outcome AddMachineProfile.profile :=
  bind (AddMachineProfile.get_cpu_info int_of_float_text stdout)
       (fun info => AddMachineProfile.create_profile cluster_name site_name info memory).

(** The lines of [lscpu] the profile cannot do without. *)
Definition needed_markers : list string :=
  ["CPU(s):"; "Thread(s) per core:"; "Core(s) per socket:"; "Socket(s):"].

Definition lines_of (stdout : string) : list string := split "010"%char stdout.

(** A conversion that reads no text. *)
Definition reads_nothing (text : string) : outcome Z := Raises ValueError.

(** An output of [lscpu] without its lines of frequencies. *)
Definition example_lscpu : string :=
  String.concat (String "010"%char EmptyString)
    ["Architecture:                    x86_64";
     "CPU(s):                          32";
     "On-line CPU(s) list:             0-31";
     "Model name:                      Intel(R) Xeon(R) Gold 5218";
     "Thread(s) per core:              2";
     "Core(s) per socket:              8";
     "Socket(s):                       2";
     "NUMA node0 CPU(s):               0-7,16-23"].

(** An output of [lscpu] that counts the cores per cluster. *)
Definition example_lscpu_clusters : string :=
  String.concat (String "010"%char EmptyString)
    ["CPU(s): 8"; "Thread(s) per core: 2"; "Core(s) per cluster: 4"; "Socket(s): 1"].

(* ================================================================== *)
(** * Part II. Properties                                              *)
(* ================================================================== *)

(** ** The outcome monad and dictionary keys *)

Lemma key_eqb_eq (a b : pykey) : key_eqb a b = true <-> a = b.
Proof.
  destruct a, b; simpl; split; intros H;
    try discriminate; try reflexivity; try congruence.
  - apply String.eqb_eq in H; congruence.
  - injection H as ->; apply String.eqb_refl.
  - apply andb_true_iff in H as [H1 H2].
    apply Z.eqb_eq in H1, H2; congruence.
  - injection H as -> ->; rewrite !Z.eqb_refl; reflexivity.
  - apply Bool.eqb_prop in H; congruence.
  - injection H as ->; apply Bool.eqb_reflx.
Qed.

Lemma key_eqb_refl (a : pykey) : key_eqb a a = true.
Proof. apply key_eqb_eq; reflexivity. Qed.

Lemma key_eqb_trans_l (a b c : pykey) :
  key_eqb a b = true -> key_eqb a c = key_eqb b c.
Proof. intros H; apply key_eqb_eq in H; subst; reflexivity. Qed.

(** Appending under [k] extends the list read under [k] and no other. *)
Lemma series_append_at {A : Type} (k k' : pykey) (x : A) (d : listdict A) :
  series (append_at k x d) k' =
  if key_eqb k k' then series d k' ++ [x] else series d k'.
Proof.
  induction d as [|[k0 xs] d IH]; simpl.
  - destruct (key_eqb k k'); reflexivity.
  - destruct (key_eqb k0 k) eqn:E0; simpl.
    + rewrite <- (key_eqb_trans_l _ _ k' E0).
      destruct (key_eqb k0 k'); reflexivity.
    + destruct (key_eqb k0 k') eqn:E1; [|exact IH].
      destruct (key_eqb k k') eqn:E2; [|reflexivity].
      apply key_eqb_eq in E1, E2; subst.
      rewrite key_eqb_refl in E0; discriminate.
Qed.

(** ** Grouping in [extract_metrics_to_csv.py] *)

(** One turn on a dictionary, in terms of [kept]. *)
Lemma group_record_dict (st : ExtractMetrics.grouping) (kvs : list (string * pyval)) :
  ExtractMetrics.group_record st (PDict kvs) =
  if kept (PDict kvs) then
    bind (key_of (field (PDict kvs) "device_id")) (fun k =>
      Returns (append_at k (row_of (PDict kvs)) (fst st), snd st))
  else Returns (fst st, snd st ++ [PDict kvs]).
Proof. reflexivity. Qed.

(** A record lacking a field fails the test. *)
Lemma lacks_field_not_kept (record : pyval) :
  lacks_field record = true -> kept record = false.
Proof.
  unfold lacks_field, kept, ExtractMetrics.complete.
  destruct record as [| | | | | |kvs]; simpl; try discriminate.
  destruct (assoc "device_id" kvs); simpl; [|reflexivity].
  destruct (assoc "timestamp" kvs); simpl;
    [|intros _; rewrite andb_false_r; reflexivity].
  destruct (assoc "value" kvs); simpl; [discriminate|].
  intros _; apply andb_false_r.
Qed.

Lemma group_loop_app (pre post : list pyval) (st : ExtractMetrics.grouping) :
  ExtractMetrics.group_loop (pre ++ post) st =
  bind (ExtractMetrics.group_loop pre st) (ExtractMetrics.group_loop post).
Proof.
  revert st; induction pre as [|r pre IH]; intros st; simpl; [reflexivity|].
  destruct (ExtractMetrics.group_record st r); simpl; [apply IH | reflexivity].
Qed.

(** The dictionary built does not depend on the warnings issued. *)
Lemma group_loop_grouped (records : list pyval) (g : listdict ExtractMetrics.row)
      (w w' : list pyval) :
  fmap fst (ExtractMetrics.group_loop records (g, w)) =
  fmap fst (ExtractMetrics.group_loop records (g, w')).
Proof.
  revert g w w'; induction records as [|r records IH]; intros g w w'; simpl;
    [reflexivity|].
  unfold ExtractMetrics.group_record; simpl.
  destruct (get r "device_id") as [d|]; simpl; [|reflexivity].
  destruct (get r "timestamp") as [t|]; simpl; [|reflexivity].
  destruct (get r "value") as [v|]; simpl; [|reflexivity].
  destruct (ExtractMetrics.complete d t v); simpl; [|apply IH].
  destruct (key_of d); simpl; [apply IH | reflexivity].
Qed.

(** What the loop computes on processable records, from any state. *)
Lemma group_loop_spec (records : list pyval) (g : listdict ExtractMetrics.row)
      (w : list pyval) :
  forallb groupable records = true ->
  exists g',
    ExtractMetrics.group_loop records (g, w) =
      Returns (g', w ++ filter (fun r => negb (kept r)) records) /\
    forall k, series g' k =
      series g k ++ map row_of (filter (fun r => kept r && device_is k r) records).
Proof.
  revert g w; induction records as [|r records IH]; intros g w H.
  - exists g; split; [simpl; rewrite app_nil_r; reflexivity|].
    intros k; simpl; rewrite app_nil_r; reflexivity.
  - cbn [forallb] in H; apply andb_true_iff in H as [Hr H].
    unfold groupable in Hr; apply andb_true_iff in Hr as [Hd Hk].
    destruct r as [| | | | | |kvs]; try discriminate.
    cbn [ExtractMetrics.group_loop filter].
    rewrite group_record_dict.
    destruct (kept (PDict kvs)) eqn:K; cbn [negb orb andb] in Hk |- *.
    + unfold hashable in Hk.
      destruct (key_of (field (PDict kvs) "device_id")) as [k0|e] eqn:EK;
        [|discriminate].
      cbn [bind fst snd].
      destruct (IH (append_at k0 (row_of (PDict kvs)) g) w H) as (g' & E & S).
      exists g'; split; [exact E|].
      intros k; rewrite S, series_append_at.
      replace (device_is k (PDict kvs)) with (key_eqb k0 k)
        by (unfold device_is; rewrite EK; reflexivity).
      destruct (key_eqb k0 k); cbn [map]; [rewrite <- app_assoc|]; reflexivity.
    + cbn [bind fst snd].
      destruct (IH g (w ++ [PDict kvs]) H) as (g' & E & S).
      exists g'; split; [rewrite E, <- app_assoc; reflexivity | exact S].
Qed.

(** The loop raises as soon as a record cannot be processed. *)
Lemma group_loop_raises (records : list pyval) (st : ExtractMetrics.grouping) :
  forallb groupable records = false ->
  exists e, ExtractMetrics.group_loop records st = Raises e /\
            (e = TypeError \/ e = AttributeError).
Proof.
  revert st; induction records as [|r records IH]; intros st H;
    cbn [forallb] in H; [discriminate|].
  cbn [ExtractMetrics.group_loop].
  destruct (groupable r) eqn:G; cbn [andb] in H.
  - unfold groupable in G; apply andb_true_iff in G as [Hd Hk].
    destruct r as [| | | | | |kvs]; try discriminate.
    rewrite group_record_dict.
    destruct (kept (PDict kvs)); cbn [negb orb] in Hk; [|apply IH, H].
    unfold hashable in Hk.
    destruct (key_of (field (PDict kvs) "device_id")); [|discriminate].
    apply IH, H.
  - clear H IH. unfold groupable in G.
    destruct r as [| | | | | |kvs];
      try (exists AttributeError; split; [reflexivity | right; reflexivity]).
    rewrite group_record_dict. cbn [is_dict andb] in G.
    destruct (kept (PDict kvs)); [|discriminate]. cbn [negb orb] in G.
    unfold hashable in G.
    destruct (key_of (field (PDict kvs) "device_id")) as [k|e] eqn:EK;
      [discriminate|].
    exists e; split; [reflexivity|].
    destruct (field (PDict kvs) "device_id"); simpl in EK;
      try discriminate; left; congruence.
Qed.

(** ** Grouping in [json_to_csv_simple.py] *)

Lemma simple_group_record_dict (devices : listdict JsonToCsvSimple.row)
      (kvs : list (string * pyval)) :
  JsonToCsvSimple.group_record devices (PDict kvs) =
  if kept_simple (PDict kvs) then
    bind (key_of (field (PDict kvs) "device_id")) (fun k =>
      Returns (append_at k (row_of (PDict kvs)) devices))
  else Returns devices.
Proof.
  unfold JsonToCsvSimple.group_record, JsonToCsvSimple.has_fields, kept_simple,
    row_of, field, has_key, getitem, has.
  destruct (assoc "device_id" kvs) as [d|]; cbn [bind andb]; [|reflexivity].
  destruct (assoc "timestamp" kvs) as [t|]; cbn [bind andb]; [|reflexivity].
  destruct (assoc "value" kvs) as [v|]; cbn [bind andb]; [|reflexivity].
  destruct (key_of d); reflexivity.
Qed.

Lemma simple_group_loop_app (pre post : list pyval) (g : listdict JsonToCsvSimple.row) :
  JsonToCsvSimple.group_loop (pre ++ post) g =
  bind (JsonToCsvSimple.group_loop pre g) (JsonToCsvSimple.group_loop post).
Proof.
  revert g; induction pre as [|r pre IH]; intros g; simpl; [reflexivity|].
  destruct (JsonToCsvSimple.group_record g r); simpl; [apply IH | reflexivity].
Qed.

Lemma simple_group_loop_spec (records : list pyval) (g : listdict JsonToCsvSimple.row) :
  forallb groupable_simple records = true ->
  exists g',
    JsonToCsvSimple.group_loop records g = Returns g' /\
    forall k, series g' k =
      series g k ++ map row_of (filter (fun r => kept_simple r && device_is k r) records).
Proof.
  revert g; induction records as [|r records IH]; intros g H.
  - exists g; split; [reflexivity|].
    intros k; simpl; rewrite app_nil_r; reflexivity.
  - cbn [forallb] in H; apply andb_true_iff in H as [Hr H].
    unfold groupable_simple in Hr; apply andb_true_iff in Hr as [Hd Hk].
    destruct r as [| | | | | |kvs]; try discriminate.
    cbn [JsonToCsvSimple.group_loop filter].
    rewrite simple_group_record_dict.
    destruct (kept_simple (PDict kvs)) eqn:K; cbn [negb orb andb] in Hk |- *.
    + unfold hashable in Hk.
      destruct (key_of (field (PDict kvs) "device_id")) as [k0|e] eqn:EK;
        [|discriminate].
      cbn [bind].
      destruct (IH (append_at k0 (row_of (PDict kvs)) g) H) as (g' & E & S).
      exists g'; split; [exact E|].
      intros k; rewrite S, series_append_at.
      replace (device_is k (PDict kvs)) with (key_eqb k0 k)
        by (unfold device_is; rewrite EK; reflexivity).
      destruct (key_eqb k0 k); cbn [map]; [rewrite <- app_assoc|]; reflexivity.
    + cbn [bind]. exact (IH g H).
Qed.

Lemma lacks_field_not_kept_simple (record : pyval) :
  lacks_field record = true -> kept_simple record = false.
Proof.
  unfold lacks_field. intros H; apply andb_true_iff in H as [_ H].
  apply negb_true_iff in H. exact H.
Qed.

(** ** Records lacking a field (C1) *)

(** C1, amended.  In [extract_and_group_data] and in the grouping loop of
    [json_to_csv_simple.py], a record (a JSON object) that lacks
    [device_id], [timestamp] or [value] is dropped and is never the
    cause of an exception: the loop turn on it changes nothing but the
    list of warnings, the outcome of the whole grouping is the one
    obtained without the record, and when the other records can be
    processed the grouping returns, with the record among those reported
    and with every series made of the kept records only.
    ([chirop/json_to_csv.py] tests nothing and is not covered.) *)
Theorem incomplete_record_is_dropped (pre post : list pyval) (record : pyval) :
  lacks_field record = true ->
  (forall st, ExtractMetrics.group_record st record
              = Returns (fst st, snd st ++ [record]))
  /\ fmap fst (ExtractMetrics.extract_and_group_data (PList (pre ++ record :: post)))
     = fmap fst (ExtractMetrics.extract_and_group_data (PList (pre ++ post)))
  /\ JsonToCsvSimple.group (PList (pre ++ record :: post))
     = JsonToCsvSimple.group (PList (pre ++ post))
  /\ (forallb groupable (pre ++ post) = true ->
      exists g w,
        ExtractMetrics.extract_and_group_data (PList (pre ++ record :: post))
          = Returns (g, w)
        /\ In record w
        /\ forall k, series g k =
             map row_of (filter (fun r => kept r && device_is k r) (pre ++ post))).
Proof.
  intros L.
  assert (D : exists kvs, record = PDict kvs).
  { unfold lacks_field in L. destruct record; try discriminate. eauto. }
  destruct D as [kvs ->].
  pose proof (lacks_field_not_kept _ L) as K.
  pose proof (lacks_field_not_kept_simple _ L) as K'.
  assert (T : forall st, ExtractMetrics.group_record st (PDict kvs)
                         = Returns (fst st, snd st ++ [PDict kvs])).
  { intros st. rewrite group_record_dict, K. reflexivity. }
  split; [exact T|]. split; [|split].
  - unfold ExtractMetrics.extract_and_group_data. cbn [iter bind].
    rewrite !group_loop_app.
    destruct (ExtractMetrics.group_loop pre ([], [])) as [[g w]|e];
      cbn [bind ExtractMetrics.group_loop]; [|reflexivity].
    rewrite T. cbn [bind fst snd]. apply group_loop_grouped.
  - unfold JsonToCsvSimple.group. cbn [iter bind].
    rewrite !simple_group_loop_app.
    destruct (JsonToCsvSimple.group_loop pre []) as [g|e];
      cbn [bind JsonToCsvSimple.group_loop]; [|reflexivity].
    rewrite simple_group_record_dict, K'. reflexivity.
  - intros G.
    assert (G' : forallb groupable (pre ++ PDict kvs :: post) = true).
    { rewrite forallb_app in G |- *. cbn [forallb].
      apply andb_true_iff in G as [-> ->].
      unfold groupable. rewrite K. reflexivity. }
    destruct (group_loop_spec _ [] [] G') as (g & E & S).
    exists g, (filter (fun r => negb (kept r)) (pre ++ PDict kvs :: post)).
    split; [exact E|]. split.
    + apply filter_In. split; [apply in_elt|]. rewrite K; reflexivity.
    + intros k. rewrite S. cbn [series app].
      rewrite !filter_app. cbn [filter]. rewrite K. reflexivity.
Qed.

(** The theorem at a record without [timestamp], between two complete
    records. *)
Lemma incomplete_record_is_dropped_witness :
  fmap fst (ExtractMetrics.extract_and_group_data
    (PList ([PDict [("device_id", PStr "a"); ("timestamp", PStr "t1"); ("value", PInt 1)]]
            ++ PDict [("device_id", PStr "a"); ("value", PInt 2)]
            :: [PDict [("device_id", PStr "a"); ("timestamp", PStr "t3"); ("value", PInt 0)]])))
  = fmap fst (ExtractMetrics.extract_and_group_data
    (PList ([PDict [("device_id", PStr "a"); ("timestamp", PStr "t1"); ("value", PInt 1)]]
            ++ [PDict [("device_id", PStr "a"); ("timestamp", PStr "t3"); ("value", PInt 0)]]))).
Proof.
  refine (proj1 (proj2 (incomplete_record_is_dropped _ _ _ _))).
  reflexivity.
Defined.

(** In [chirop/json_to_csv.py] a record without [device_id] ends the
    run with [KeyError], and a record without [timestamp] is kept by the
    grouping. *)
Lemma json_to_csv_missing_device_id_is_fatal :
  lacks_field (PDict [("timestamp", PStr "2024-01-01T00:00:00"); ("value", PInt 1)]) = true
  /\ ChiropJsonToCsv.group
       (PList [PDict [("timestamp", PStr "2024-01-01T00:00:00"); ("value", PInt 1)]])
     = Raises KeyError
  /\ ChiropJsonToCsv.json_to_csv
       (PList [PDict [("timestamp", PStr "2024-01-01T00:00:00"); ("value", PInt 1)]])
     = Raises KeyError
  /\ ChiropJsonToCsv.group
       (PList [PDict [("device_id", PStr "chirop-5"); ("value", PInt 1)]])
     = Returns [(KStr "chirop-5", [PDict [("device_id", PStr "chirop-5"); ("value", PInt 1)]])].
Proof. repeat split; reflexivity. Qed.

(** ** When loading and grouping fail (C4) *)

Lemma load_and_group_list (records : list pyval) :
  ExtractMetrics.load_and_group (ExtractMetrics.Json (PList records)) =
  ExtractMetrics.group_loop records ([], []).
Proof. reflexivity. Qed.

(** C4, amended.  There is no dedicated error for malformed input.
    Loading and grouping raise exactly on the decoded documents that are
    not [groupable_document]: a number, a boolean, [null], a non-empty
    string, a non-empty object, or an array with an element that is not
    an object or with a kept record whose [device_id] is an array or an
    object.  The exception is then a [TypeError] or an [AttributeError]
    and [main] ends with it before any file is written.  On every other
    document (the empty object and the empty string included) grouping
    returns and reports the incomplete records. *)
Theorem grouping_fails_exactly_when (data : pyval) :
  if groupable_document data then
    exists g, ExtractMetrics.load_and_group (ExtractMetrics.Json data)
              = Returns (g, skipped data)
  else
    exists e, ExtractMetrics.load_and_group (ExtractMetrics.Json data) = Raises e
              /\ (e = TypeError \/ e = AttributeError)
              /\ ExtractMetrics.main (ExtractMetrics.Json data) = Raises e.
Proof.
  destruct (groupable_document data) eqn:G.
  - destruct data as [| | | |s|records|kvs]; try discriminate.
    + destruct s; [|discriminate]. exists []; reflexivity.
    + cbn [groupable_document] in G.
      destruct (group_loop_spec records [] [] G) as (g & E & _).
      exists g. rewrite load_and_group_list. exact E.
    + destruct kvs; [|discriminate]. exists []; reflexivity.
  - assert (R : exists e,
        ExtractMetrics.load_and_group (ExtractMetrics.Json data) = Raises e
        /\ (e = TypeError \/ e = AttributeError)).
    { destruct data as [| | | |s|records|kvs];
        try (exists TypeError; split; [reflexivity | left; reflexivity]).
      - destruct s; [discriminate|].
        exists AttributeError; split; [reflexivity | right; reflexivity].
      - rewrite load_and_group_list. apply group_loop_raises, G.
      - destruct kvs as [|[k v] kvs]; [discriminate|].
        exists AttributeError; split; [reflexivity | right; reflexivity]. }
    destruct R as (e & E & He). exists e. split; [exact E|]. split; [exact He|].
    unfold ExtractMetrics.main. rewrite E. reflexivity.
Qed.

(** An object at top level does not make grouping fail when it is
    empty, and an array of complete records does when a [device_id] is
    an array. *)
Lemma grouping_failure_is_not_top_level_shape :
  ExtractMetrics.load_and_group (ExtractMetrics.Json (PDict [])) = Returns ([], [])
  /\ ExtractMetrics.main (ExtractMetrics.Json (PDict []))
     = Returns (Some {| ExtractMetrics.files := [];
                        ExtractMetrics.grouped_after := [];
                        ExtractMetrics.raised_in_summary := None |})
  /\ ExtractMetrics.load_and_group (ExtractMetrics.Json
       (PList [PDict [("device_id", PList [PStr "chirop-5"]);
                      ("timestamp", PStr "2024-01-01T00:00:00");
                      ("value", PInt 1)]]))
     = Raises TypeError.
Proof. repeat split; reflexivity. Qed.

(** ** Which records are kept (C6) *)

(** C6, amended.  [extract_and_group_data] keeps a record exactly when
    its [device_id] and [timestamp] are true values and its [value] is
    not [None] (missing or [null]): the series of a device is the list
    of the rows of those records, in input order, and the others are
    reported.  For [device_id] and [timestamp] that are strings or
    [null] the test reads non-empty and non-null.  A [value] of [0] does
    not exclude a record.  The loop of [json_to_csv_simple.py] keeps a
    record exactly when the three keys are present, whatever is stored
    under them. *)
Theorem kept_records_characterised (records : list pyval) :
  (forallb groupable records = true ->
   exists g,
     ExtractMetrics.extract_and_group_data (PList records)
       = Returns (g, filter (fun r => negb (kept r)) records)
     /\ forall k, series g k =
          map row_of (filter (fun r => kept r && device_is k r) records))
  /\ (forallb groupable_simple records = true ->
      exists g,
        JsonToCsvSimple.group (PList records) = Returns g
        /\ forall k, series g k =
             map row_of (filter (fun r => kept_simple r && device_is k r) records))
  /\ (forall r, str_or_none (field r "device_id") = true ->
                str_or_none (field r "timestamp") = true ->
      kept r = nonempty_str (field r "device_id")
               && nonempty_str (field r "timestamp")
               && negb (is_none (field r "value")))
  /\ (forall r, field r "value" = PInt 0 ->
      kept r = truthy (field r "device_id") && truthy (field r "timestamp"))
  /\ (forall r, kept_simple r =
                has_key r "device_id" && has_key r "timestamp" && has_key r "value").
Proof.
  split; [|split; [|split; [|split]]].
  - intros G. destruct (group_loop_spec records [] [] G) as (g & E & S).
    exists g; split; [exact E | exact S].
  - intros G. destruct (simple_group_loop_spec records [] G) as (g & E & S).
    exists g; split; [exact E | exact S].
  - intros r Hd Ht. unfold kept, ExtractMetrics.complete.
    destruct (field r "device_id"); try discriminate;
      destruct (field r "timestamp"); try discriminate; reflexivity.
  - intros r Hv. unfold kept, ExtractMetrics.complete. rewrite Hv.
    apply andb_true_r.
  - reflexivity.
Qed.

(** The theorem on three records of one device: the second has an empty
    [timestamp], the third a [value] of [0]. *)
Lemma kept_records_characterised_witness :
  exists g,
    ExtractMetrics.extract_and_group_data
      (PList [PDict [("device_id", PStr "a"); ("timestamp", PStr "t1"); ("value", PInt 5)];
              PDict [("device_id", PStr "a"); ("timestamp", PStr ""); ("value", PInt 6)];
              PDict [("device_id", PStr "a"); ("timestamp", PStr "t3"); ("value", PInt 0)]])
    = Returns (g, [PDict [("device_id", PStr "a"); ("timestamp", PStr ""); ("value", PInt 6)]])
    /\ series g (KStr "a")
       = [ {| ExtractMetrics.timestamp := PStr "t1"; ExtractMetrics.power_watt := PInt 5 |};
           {| ExtractMetrics.timestamp := PStr "t3"; ExtractMetrics.power_watt := PInt 0 |} ].
Proof.
  destruct (proj1 (kept_records_characterised
      [PDict [("device_id", PStr "a"); ("timestamp", PStr "t1"); ("value", PInt 5)];
       PDict [("device_id", PStr "a"); ("timestamp", PStr ""); ("value", PInt 6)];
       PDict [("device_id", PStr "a"); ("timestamp", PStr "t3"); ("value", PInt 0)]])
      eq_refl) as (g & E & S).
  exists g. split; [exact E | exact (S (KStr "a"))].
Defined.

(** [json_to_csv_simple.py] keeps a record whose [device_id] is the
    empty string, and one whose [device_id] is [null]. *)
Lemma simple_keeps_empty_device_id :
  JsonToCsvSimple.group
    (PList [PDict [("device_id", PStr ""); ("timestamp", PStr "2024-01-01T00:00:00");
                   ("value", PInt 1)]])
  = Returns [(KStr "", [ {| ExtractMetrics.timestamp := PStr "2024-01-01T00:00:00";
                            ExtractMetrics.power_watt := PInt 1 |} ])]
  /\ JsonToCsvSimple.group
    (PList [PDict [("device_id", PNone); ("timestamp", PStr "2024-01-01T00:00:00");
                   ("value", PInt 1)]])
  = Returns [(KNone, [ {| ExtractMetrics.timestamp := PStr "2024-01-01T00:00:00";
                          ExtractMetrics.power_watt := PInt 1 |} ])].
Proof. split; reflexivity. Qed.

(** ** The order of strings *)

Lemma string_leb_trans (a b c : string) :
  String.leb a b = true -> String.leb b c = true -> String.leb a c = true.
Proof.
  revert b c; induction a as [|x a IH]; intros [|y b] [|z c];
    unfold String.leb; simpl;
    try (intros; reflexivity); try (intros; discriminate).
  specialize (IH b c). unfold String.leb in IH.
  unfold Ascii.compare.
  destruct (N.compare_spec (N_of_ascii x) (N_of_ascii y));
    destruct (N.compare_spec (N_of_ascii y) (N_of_ascii z));
    destruct (N.compare_spec (N_of_ascii x) (N_of_ascii z));
    try lia; try (intros; reflexivity); try (intros; discriminate); exact IH.
Qed.

Lemma string_ltb_leb (a b : string) : String.ltb a b = true -> String.leb a b = true.
Proof. unfold String.ltb, String.leb. destruct (String.compare a b); congruence. Qed.

Lemma string_ltb_false_leb (a b : string) :
  String.ltb a b = false <-> String.leb b a = true.
Proof.
  unfold String.ltb, String.leb. rewrite (String.compare_antisym a b).
  destruct (String.compare b a); simpl; split; congruence.
Qed.

Lemma string_ltb_irrefl (a : string) : String.ltb a a = false.
Proof.
  apply string_ltb_false_leb. destruct (String.leb_total a a); assumption.
Qed.

(** ** The stable sort *)

Section SortFacts.
Context {A : Type} (key : A -> string).

Let le (a b : A) : Prop := String.leb (key a) (key b) = true.

Lemma insert_perm (x : A) (l : list A) :
  Permutation (x :: l) (PySort.insert key x l).
Proof.
  induction l as [|y l IH]; simpl; [reflexivity|].
  destruct (String.ltb (key y) (key x)); [|reflexivity].
  rewrite perm_swap. apply perm_skip, IH.
Qed.

Lemma sorted_perm (l : list A) : Permutation l (PySort.sorted key l).
Proof.
  induction l as [|x l IH]; simpl; [reflexivity|].
  rewrite <- insert_perm. apply perm_skip, IH.
Qed.

Lemma insert_sorted (x : A) (l : list A) :
  StronglySorted le l -> StronglySorted le (PySort.insert key x l).
Proof.
  induction 1 as [|y l S IH F]; simpl.
  - constructor; constructor.
  - destruct (String.ltb (key y) (key x)) eqn:E.
    + constructor; [exact IH|].
      apply (Permutation_Forall (insert_perm x l)).
      constructor; [apply string_ltb_leb, E | exact F].
    + apply string_ltb_false_leb in E.
      constructor; [constructor; assumption|].
      constructor; [exact E|].
      eapply Forall_impl; [|exact F].
      intros z Hz. eapply string_leb_trans; [exact E | exact Hz].
Qed.

Lemma sorted_sorted (l : list A) : StronglySorted le (PySort.sorted key l).
Proof.
  induction l as [|x l IH]; simpl; [constructor | apply insert_sorted, IH].
Qed.

(** Inserting leaves the rows of every key in their order, the new
    row first among those of its key. *)
Lemma insert_filter (t : string) (x : A) (l : list A) :
  filter (fun a => String.eqb (key a) t) (PySort.insert key x l) =
  filter (fun a => String.eqb (key a) t) (x :: l).
Proof.
  induction l as [|y l IH]; [reflexivity|].
  cbn [PySort.insert].
  destruct (String.ltb (key y) (key x)) eqn:E; [|reflexivity].
  cbn [filter] in IH |- *. rewrite IH.
  destruct (String.eqb (key y) t) eqn:Ey; [|reflexivity].
  destruct (String.eqb (key x) t) eqn:Ex; [|reflexivity].
  apply String.eqb_eq in Ex, Ey. rewrite Ex, Ey, string_ltb_irrefl in E.
  discriminate.
Qed.

Lemma sorted_stable (t : string) (l : list A) :
  filter (fun a => String.eqb (key a) t) (PySort.sorted key l) =
  filter (fun a => String.eqb (key a) t) l.
Proof.
  induction l as [|x l IH]; [reflexivity|].
  cbn [PySort.sorted fold_right]. rewrite insert_filter.
  cbn [filter]. fold (PySort.sorted key l). rewrite IH. reflexivity.
Qed.

(** A list already in order is left as it is. *)
Lemma sorted_fixpoint (l : list A) :
  StronglySorted le l -> PySort.sorted key l = l.
Proof.
  induction 1 as [|x l S IH F]; [reflexivity|].
  cbn [PySort.sorted fold_right]. fold (PySort.sorted key l). rewrite IH.
  destruct l as [|y l]; [reflexivity|].
  cbn [PySort.insert]. inversion F as [|? ? Hxy _]; subst.
  apply string_ltb_false_leb in Hxy. rewrite Hxy. reflexivity.
Qed.

Lemma sorted_idempotent (l : list A) :
  PySort.sorted key (PySort.sorted key l) = PySort.sorted key l.
Proof. apply sorted_fixpoint, sorted_sorted. Qed.
(** A list in order is determined by the rows of each key taken in
    their order: two stable sorts of one list agree. *)
Lemma sorted_unique (a b : list A) :
  StronglySorted le a -> StronglySorted le b ->
  (forall t, filter (fun x => String.eqb (key x) t) a
             = filter (fun x => String.eqb (key x) t) b) ->
  a = b.
Proof.
  revert b; induction a as [|x a IH]; intros b Sa Sb F.
  - destruct b as [|y b]; [reflexivity|].
    specialize (F (key y)). cbn [filter] in F.
    rewrite String.eqb_refl in F. discriminate.
  - destruct b as [|y b].
    { specialize (F (key x)). cbn [filter] in F.
      rewrite String.eqb_refl in F. discriminate. }
    inversion Sa as [|? ? Sa' Fa]; subst. inversion Sb as [|? ? Sb' Fb]; subst.
    assert (Lxy : le x y).
    { pose proof (F (key y)) as Fy. cbn [filter] in Fy.
      rewrite (String.eqb_refl (key y)) in Fy.
      assert (I : In y (x :: a)).
      { assert (I' : In y (y :: filter (fun x0 => String.eqb (key x0) (key y)) b))
          by (left; reflexivity).
        rewrite <- Fy in I'.
        destruct (String.eqb (key x) (key y)).
        - destruct I' as [<-|I']; [left; reflexivity|].
          right. apply filter_In in I'. exact (proj1 I').
        - right. apply filter_In in I'. exact (proj1 I'). }
      destruct I as [<-|I].
      - unfold le. destruct (String.leb_total (key x) (key x)); assumption.
      - exact (proj1 (Forall_forall _ _) Fa y I). }
    assert (Lyx : le y x).
    { pose proof (F (key x)) as Fx. cbn [filter] in Fx.
      rewrite (String.eqb_refl (key x)) in Fx.
      assert (I : In x (y :: b)).
      { assert (I' : In x (x :: filter (fun x0 => String.eqb (key x0) (key x)) a))
          by (left; reflexivity).
        rewrite Fx in I'.
        destruct (String.eqb (key y) (key x)).
        - destruct I' as [<-|I']; [left; reflexivity|].
          right. apply filter_In in I'. exact (proj1 I').
        - right. apply filter_In in I'. exact (proj1 I'). }
      destruct I as [<-|I].
      - unfold le. destruct (String.leb_total (key y) (key y)); assumption.
      - exact (proj1 (Forall_forall _ _) Fb x I). }
    assert (K : key x = key y) by (apply String.leb_antisym; assumption).
    pose proof (F (key x)) as Fx. cbn [filter] in Fx.
    rewrite <- K, (String.eqb_refl (key x)) in Fx. injection Fx as <- Fx.
    f_equal. apply IH; try assumption.
    intros t. specialize (F t). cbn [filter] in F.
    destruct (String.eqb (key x) t) eqn:E; [|exact F].
    apply String.eqb_eq in E. subst t. exact Fx.
Qed.

(** Any list that is in order and keeps the rows of each key in their
    order is the one [PySort.sorted] builds. *)
Lemma stable_sort_unique (l l' : list A) :
  StronglySorted le l' ->
  (forall t, filter (fun x => String.eqb (key x) t) l'
             = filter (fun x => String.eqb (key x) t) l) ->
  l' = PySort.sorted key l.
Proof.
  intros S F. apply sorted_unique; [exact S | apply sorted_sorted|].
  intros t. rewrite sorted_stable. apply F.
Qed.
End SortFacts.

(** ** Lexical order and the order of instants *)

Lemma digit_val_range (a : ascii) (d : Z) :
  digit_val a = Some d -> (0 <= d <= 9)%Z /\ d = (Z.of_N (N_of_ascii a) - 48)%Z.
Proof.
  unfold digit_val.
  destruct ((48 <=? N_of_ascii a)%N && (N_of_ascii a <=? 57)%N) eqn:E; [|discriminate].
  intros H; injection H as <-.
  apply andb_true_iff in E as [E1 E2].
  apply N.leb_le in E1, E2. lia.
Qed.

Lemma ascii_compare_refl (a : ascii) : Ascii.compare a a = Eq.
Proof. unfold Ascii.compare. apply N.compare_refl. Qed.

Lemma ascii_compare_digits (a b : ascii) (d d' : Z) :
  digit_val a = Some d -> digit_val b = Some d' ->
  Ascii.compare a b = Z.compare d d'.
Proof.
  intros Ha Hb. apply digit_val_range in Ha as [_ ->], Hb as [_ ->].
  unfold Ascii.compare. rewrite <- N2Z.inj_compare.
  destruct (Z.compare_spec (Z.of_N (N_of_ascii a)) (Z.of_N (N_of_ascii b)));
    symmetry; [apply Z.compare_eq_iff | apply Z.compare_lt_iff | apply Z.compare_gt_iff];
    lia.
Qed.

(** On one layout, a smaller number read so far stays smaller. *)
Lemma read_digits_lt (s t : string) (a b : Z) :
  same_layout s t = true -> (a < b)%Z -> (read_digits s a < read_digits t b)%Z.
Proof.
  revert t a b; induction s as [|x s IH]; intros [|y t] a b L H;
    try discriminate; [exact H|].
  cbn [same_layout read_digits] in L |- *.
  destruct (digit_val x) as [d|] eqn:Dx, (digit_val y) as [d'|] eqn:Dy;
    try discriminate.
  - apply digit_val_range in Dx as [Dx _], Dy as [Dy _].
    apply IH; [exact L | lia].
  - apply andb_true_iff in L as [_ L]. apply IH; assumption.
Qed.

Lemma compare_read_digits (s t : string) (a : Z) :
  same_layout s t = true ->
  String.compare s t = Z.compare (read_digits s a) (read_digits t a).
Proof.
  revert t a; induction s as [|x s IH]; intros [|y t] a L; try discriminate.
  - symmetry; apply Z.compare_refl.
  - cbn [same_layout read_digits String.compare] in L |- *.
    destruct (digit_val x) as [d|] eqn:Dx, (digit_val y) as [d'|] eqn:Dy;
      try discriminate.
    + rewrite (ascii_compare_digits _ _ _ _ Dx Dy).
      destruct (Z.compare_spec d d') as [->|Hlt|Hgt].
      * apply IH, L.
      * symmetry. apply Z.compare_lt_iff. apply read_digits_lt; [exact L | lia].
      * symmetry. apply Z.compare_gt_iff. apply read_digits_lt; [|lia].
        clear -L. revert t L; induction s as [|x s IH]; intros [|y t] L;
          try discriminate; [reflexivity|].
        cbn [same_layout] in L |- *.
        destruct (digit_val x), (digit_val y); try discriminate.
        -- apply IH, L.
        -- apply andb_true_iff in L as [E L].
           rewrite Ascii.eqb_sym, E. apply IH, L.
    + apply andb_true_iff in L as [E L]. apply Ascii.eqb_eq in E. subst y.
      rewrite ascii_compare_refl. apply IH, L.
Qed.

(** For two timestamps in one layout, the order of the strings is the
    order of the instants. *)
Lemma lexical_order_is_chronological (s t : string) :
  same_layout s t = true ->
  (String.leb s t = true <-> (instant s <= instant t)%Z).
Proof.
  intros L. unfold String.leb, instant, Z.le.
  rewrite (compare_read_digits s t 0 L).
  destruct (Z.compare (read_digits s 0) (read_digits t 0)); split; congruence.
Qed.

(** ** Sorting the series (C8) *)

Lemma in_time_order_chronological (rows : list ExtractMetrics.row) :
  one_layout rows -> in_time_order rows -> chronological rows.
Proof.
  intros L H; induction H as [|r rows S IH F]; [constructor|].
  constructor.
  - apply IH. intros a b Ha Hb. apply L; right; assumption.
  - apply Forall_forall. intros x Hx.
    apply lexical_order_is_chronological.
    + apply L; [left; reflexivity | right; exact Hx].
    + exact (proj1 (Forall_forall _ _) F x Hx).
Qed.

Lemma sort_records_strings (rows : list ExtractMetrics.row) :
  (forall r, In r rows -> ExtractMetrics.is_str (ExtractMetrics.timestamp r) = true) ->
  ExtractMetrics.sort_records rows = Some (PySort.sorted time_of rows).
Proof.
  intros H. unfold ExtractMetrics.sort_records.
  replace (forallb _ rows) with true; [reflexivity|].
  symmetry. apply forallb_forall. exact H.
Qed.

Lemma sort_records_some (rows sorted : list ExtractMetrics.row) :
  ExtractMetrics.sort_records rows = Some sorted ->
  sorted = PySort.sorted time_of rows
  /\ forall r, In r rows -> ExtractMetrics.is_str (ExtractMetrics.timestamp r) = true.
Proof.
  unfold ExtractMetrics.sort_records.
  destruct (forallb _ rows) eqn:E; [|discriminate].
  intros H; injection H as <-. split; [reflexivity|].
  apply forallb_forall. exact E.
Qed.

(** Sorting a sorted list gives it back. *)
Lemma sort_records_again (rows sorted : list ExtractMetrics.row) :
  ExtractMetrics.sort_records rows = Some sorted ->
  ExtractMetrics.sort_records sorted = Some sorted.
Proof.
  intros H. apply sort_records_some in H as [-> H].
  rewrite sort_records_strings.
  - rewrite sorted_idempotent. reflexivity.
  - intros r Hr. apply H.
    eapply Permutation_in; [symmetry; apply (sorted_perm time_of) | exact Hr].
Qed.

Lemma string_timestamps_cons (k : pykey) (rows : list ExtractMetrics.row)
      (d : listdict ExtractMetrics.row) :
  string_timestamps ((k, rows) :: d) ->
  (forall r, In r rows -> ExtractMetrics.is_str (ExtractMetrics.timestamp r) = true)
  /\ string_timestamps d.
Proof.
  intros H; split.
  - intros r Hr. apply (H k rows r); [left; reflexivity | exact Hr].
  - intros k' rows' r Hd Hr. apply (H k' rows' r); [right; exact Hd | exact Hr].
Qed.

(** With string timestamps the loop is inside the model. *)
Lemma write_csv_files_defined (d : listdict ExtractMetrics.row) :
  string_timestamps d -> exists w, ExtractMetrics.write_csv_files d = Some w.
Proof.
  induction d as [|[k rows] d IH]; intros H; [eexists; reflexivity|].
  apply string_timestamps_cons in H as [Hr Hd].
  cbn [ExtractMetrics.write_csv_files].
  rewrite (sort_records_strings rows Hr).
  destruct (ExtractMetrics.summary_exn _); [eexists; reflexivity|].
  destruct (IH Hd) as [w ->]. eexists; reflexivity.
Qed.

(** The loop goes through the devices in order and stops after the
    first one whose summary raises: the files are the sorted lists of
    the devices gone through, which are sorted in [grouped_data] too. *)
Lemma write_csv_files_progress (d : listdict ExtractMetrics.row)
      (w : ExtractMetrics.written) :
  ExtractMetrics.write_csv_files d = Some w ->
  exists done todo,
    d = done ++ todo
    /\ ExtractMetrics.files w = map file_of done
    /\ ExtractMetrics.grouped_after w = map sort_entry done ++ todo
    /\ (ExtractMetrics.raised_in_summary w = None -> todo = []).
Proof.
  revert w; induction d as [|[k rows] d IH]; intros w H.
  - injection H as <-. exists [], []. repeat split.
  - cbn [ExtractMetrics.write_csv_files] in H.
    destruct (ExtractMetrics.sort_records rows) as [sorted|] eqn:E; [|discriminate].
    apply sort_records_some in E as [-> _].
    destruct (ExtractMetrics.summary_exn _) as [e|].
    + injection H as <-. exists [(k, rows)], d.
      repeat split. discriminate.
    + destruct (ExtractMetrics.write_csv_files d) as [w'|]; [|discriminate].
      injection H as <-.
      destruct (IH w' eq_refl) as (done & todo & -> & F & G & N).
      exists ((k, rows) :: done), todo.
      cbn [ExtractMetrics.files ExtractMetrics.grouped_after
           ExtractMetrics.raised_in_summary map app].
      rewrite F, G. repeat split. exact N.
Qed.

(** A second run on the dictionary the first one leaves does the same. *)
Lemma write_csv_files_again (d : listdict ExtractMetrics.row)
      (w : ExtractMetrics.written) :
  ExtractMetrics.write_csv_files d = Some w ->
  ExtractMetrics.write_csv_files (ExtractMetrics.grouped_after w) = Some w.
Proof.
  revert w; induction d as [|[k rows] d IH]; intros w H.
  - injection H as <-. reflexivity.
  - cbn [ExtractMetrics.write_csv_files] in H.
    destruct (ExtractMetrics.sort_records rows) as [sorted|] eqn:E; [|discriminate].
    apply sort_records_again in E.
    destruct (ExtractMetrics.summary_exn sorted) as [e|] eqn:X.
    + injection H as <-.
      cbn [ExtractMetrics.grouped_after ExtractMetrics.write_csv_files].
      rewrite E, X. reflexivity.
    + destruct (ExtractMetrics.write_csv_files d) as [w'|]; [|discriminate].
      injection H as <-.
      cbn [ExtractMetrics.grouped_after ExtractMetrics.write_csv_files].
      rewrite E, X, (IH w' eq_refl). reflexivity.
Qed.

Lemma sum_floats (values : list pyval) :
  (forall v, In v values -> exists f, v = PFloat f) ->
  ExtractMetrics.sum values ExtractMetrics.TFloat = Returns ExtractMetrics.TFloat.
Proof.
  induction values as [|v values IH]; intros H; [reflexivity|].
  destruct (H v (or_introl eq_refl)) as [f ->].
  cbn [ExtractMetrics.sum ExtractMetrics.add bind].
  apply IH. intros v' Hv'. apply H. right; exact Hv'.
Qed.

(** The summary of float readings raises nothing. *)
Lemma summary_exn_floats (records : list ExtractMetrics.row) :
  (forall r, In r records -> exists f, ExtractMetrics.power_watt r = PFloat f) ->
  ExtractMetrics.summary_exn records = None.
Proof.
  intros H. unfold ExtractMetrics.summary_exn.
  destruct records as [|r records]; [reflexivity|].
  replace (forallb _ (r :: records)) with true.
  - destruct (H r (or_introl eq_refl)) as [f E].
    cbn [map ExtractMetrics.sum]. rewrite E.
    cbn [ExtractMetrics.add]. unfold float_of_int.
    cbn [binary_normalize]. cbn [bind].
    rewrite sum_floats; [reflexivity|].
    intros v Hv. apply in_map_iff in Hv as (r' & <- & Hr').
    apply H. right; exact Hr'.
  - symmetry. apply forallb_forall. intros x Hx.
    destruct (H x Hx) as [f ->]. reflexivity.
Qed.

Lemma write_csv_files_floats (d : listdict ExtractMetrics.row)
      (w : ExtractMetrics.written) :
  float_values d ->
  ExtractMetrics.write_csv_files d = Some w ->
  ExtractMetrics.raised_in_summary w = None.
Proof.
  revert w; induction d as [|[k rows] d IH]; intros w F H.
  - injection H as <-. reflexivity.
  - cbn [ExtractMetrics.write_csv_files] in H.
    destruct (ExtractMetrics.sort_records rows) as [sorted|] eqn:E; [|discriminate].
    apply sort_records_some in E as [-> _].
    rewrite summary_exn_floats in H.
    + destruct (ExtractMetrics.write_csv_files d) as [w'|]; [|discriminate].
      injection H as <-. cbn [ExtractMetrics.raised_in_summary].
      apply (IH w'); [|reflexivity].
      intros k' rows' r Hd Hr. apply (F k' rows' r); [right; exact Hd | exact Hr].
    + intros r Hr. apply (F k rows r); [left; reflexivity|].
      eapply Permutation_in; [symmetry; apply (sorted_perm time_of) | exact Hr].
Qed.

Lemma simple_write_sorts (d : listdict ExtractMetrics.row) :
  string_timestamps d -> JsonToCsvSimple.write d = Some (map file_of d).
Proof.
  induction d as [|[k rows] d IH]; intros H; [reflexivity|].
  apply string_timestamps_cons in H as [Hr Hd].
  cbn [JsonToCsvSimple.write].
  rewrite (sort_records_strings rows Hr), (IH Hd). reflexivity.
Qed.

Lemma string_timestamps_sorted (d : listdict ExtractMetrics.row) :
  string_timestamps d -> string_timestamps (map sort_entry d).
Proof.
  intros H k rows r Hd Hr.
  apply in_map_iff in Hd as ([k0 rows0] & E & Hd).
  unfold sort_entry in E; cbn [fst snd] in E. injection E as <- <-.
  apply (H k0 rows0 r Hd).
  eapply Permutation_in; [symmetry; apply sorted_perm | exact Hr].
Qed.

Lemma file_of_sort_entry (d : listdict ExtractMetrics.row) :
  map file_of (map sort_entry d) = map file_of d.
Proof.
  rewrite map_map. apply map_ext. intros [k rows].
  unfold sort_entry, file_of; cbn [fst snd].
  rewrite sorted_idempotent. reflexivity.
Qed.

(** The rows written for a series, against the series. *)
Lemma file_of_sorted (d : pykey * list ExtractMetrics.row) :
  ExtractMetrics.device (file_of d) = fst d
  /\ in_time_order (ExtractMetrics.rows (file_of d))
  /\ (one_layout (snd d) -> chronological (ExtractMetrics.rows (file_of d)))
  /\ stable_rearrangement (snd d) (ExtractMetrics.rows (file_of d)).
Proof.
  destruct d as [k rows]. cbn [file_of ExtractMetrics.device ExtractMetrics.rows fst snd].
  split; [reflexivity|]. split; [apply sorted_sorted|]. split.
  - intros L. apply in_time_order_chronological; [|apply sorted_sorted].
    intros a b Ha Hb.
    apply L; eapply Permutation_in;
      try (symmetry; apply (sorted_perm time_of)); assumption.
  - split; [apply sorted_perm | intros t; apply (sorted_stable time_of)].
Qed.



Example sort_example :
  option_map ExtractMetrics.files
    (ExtractMetrics.write_csv_files [(KStr "a", three_rows)])
  = Some [ {| ExtractMetrics.device := KStr "a";
              ExtractMetrics.rows :=
        [ {| ExtractMetrics.timestamp := PStr "2024-01-01T00:00:01";
             ExtractMetrics.power_watt := PFloat (-2)%float |};
          {| ExtractMetrics.timestamp := PStr "2024-01-01T00:00:01";
             ExtractMetrics.power_watt := PFloat 3%float |};
          {| ExtractMetrics.timestamp := PStr "2024-01-01T00:00:02";
             ExtractMetrics.power_watt := PFloat 1%float |} ] |} ].
Proof. vm_compute. reflexivity. Qed.

(** ** One device, absolute values (C9) *)

Section Chirop5Facts.
Variable datetime : Type.
Variable fromisoformat : string -> option datetime.

Let load_entry := PlotChirop5Power.load_entry datetime fromisoformat.
Let load_loop := PlotChirop5Power.load_loop datetime fromisoformat.

(** A turn on an entry of another device changes nothing. *)
Lemma load_entry_other (acc : list datetime * list pyval) (entry : pyval) :
  has_key entry "device_id" = true -> is_chirop5 entry = false ->
  load_entry acc entry = Returns acc.
Proof.
  unfold load_entry, PlotChirop5Power.load_entry, is_chirop5, has_key, field, getitem.
  destruct entry as [| | | | | |kvs]; try discriminate.
  destruct (assoc "device_id" kvs) as [d|]; [|discriminate].
  intros _ E. cbn [bind]. rewrite E. reflexivity.
Qed.

(** A turn on an entry of the device appends its pair. *)
Lemma load_entry_chirop5 (acc : list datetime * list pyval) (entry : pyval)
      (p : datetime * pyval) :
  has_key entry "device_id" = true -> is_chirop5 entry = true ->
  pair_of fromisoformat entry p ->
  load_entry acc entry = Returns (fst acc ++ [fst p], snd acc ++ [snd p]).
Proof.
  unfold load_entry, PlotChirop5Power.load_entry, is_chirop5, has_key, pair_of,
    field, getitem.
  destruct entry as [| | | | | |kvs]; try discriminate.
  destruct (assoc "device_id" kvs) as [d|]; [|discriminate].
  intros _ E (s & Ht & Hf & Ha). cbn [bind]. rewrite E.
  destruct (assoc "timestamp" kvs) as [t|]; [|discriminate]. subst t.
  cbn [bind PlotChirop5Power.parse_timestamp]. rewrite Hf. cbn [bind].
  destruct (assoc "value" kvs) as [v|]; [|discriminate].
  cbn [bind]. rewrite Ha. reflexivity.
Qed.

Lemma load_loop_spec (entries : list pyval) (acc : list datetime * list pyval) :
  Forall (loadable fromisoformat) entries ->
  exists timestamps power_values,
    load_loop entries acc = Returns (fst acc ++ timestamps, snd acc ++ power_values)
    /\ List.length timestamps = List.length power_values
    /\ Forall2 (pair_of fromisoformat) (filter is_chirop5 entries)
               (combine timestamps power_values).
Proof.
  intros H; revert acc; induction H as [|entry entries [Hk Hp] _ IH]; intros acc.
  - exists [], []. rewrite !app_nil_r. destruct acc. repeat split. constructor.
  - cbn [load_loop PlotChirop5Power.load_loop filter].
    fold (PlotChirop5Power.load_loop datetime fromisoformat). fold load_loop.
    change (PlotChirop5Power.load_entry datetime fromisoformat) with load_entry.
    destruct (is_chirop5 entry) eqn:E.
    + destruct (Hp eq_refl) as [p P].
      rewrite (load_entry_chirop5 acc entry p Hk E P). cbn [bind].
      destruct (IH (fst acc ++ [fst p], snd acc ++ [snd p]))
        as (ts & vs & E' & L & F).
      exists (fst p :: ts), (snd p :: vs). cbn [fst snd] in E'.
      rewrite E', <- !app_assoc. split; [reflexivity|].
      split; [simpl; congruence|].
      cbn [combine]. constructor; [destruct p; exact P | exact F].
    + rewrite (load_entry_other acc entry Hk E). cbn [bind]. apply IH.
Qed.

End Chirop5Facts.


(** ** The time-window scan (C3, C10) *)

Import PlotChirop5Timewindow.

Lemma scan_lines_machine (lines : list string) (st : scan) :
  flag_in_zone st ->
  (found (fst (scan_lines lines st)), snd (scan_lines lines st)) =
  match TimeWindowMachine.run (machine_state st) lines with
  | None => (found st, Exhausted)
  | Some line => take_line (found st) line
  end.
Proof.
  revert st; induction lines as [|line rest IH]; intros st I; [reflexivity|].
  destruct st as [p f i]. unfold flag_in_zone in I. cbn [in_package found_long_term] in I.
  cbn [scan_lines TimeWindowMachine.run in_package found_long_term found].
  unfold TimeWindowMachine.react, machine_state.
  cbn [in_package found_long_term].
  destruct (contains "name: package-0" line).
  - rewrite IH by (intros _; reflexivity).
    unfold machine_state; cbn [in_package found_long_term found].
    destruct f, p; reflexivity.
  - destruct f.
    + assert (Hp : p = true) by exact (I eq_refl). subst p. cbn [andb].
      destruct (contains "name: long_term" line).
      * rewrite IH by (intros _; reflexivity). reflexivity.
      * destruct (contains "time_window_us:" line).
        -- unfold take_line. destruct (window_value line) as [us|e]; [|reflexivity].
           destruct (int_truediv us 1000%float); reflexivity.
        -- rewrite IH by (intros _; reflexivity). reflexivity.
    + cbn [andb]. destruct p; cbn [andb].
      * destruct (contains "name: long_term" line);
          rewrite IH by (intros H; try reflexivity; discriminate); reflexivity.
      * rewrite IH by (intros H; discriminate). reflexivity.
Qed.

(** The fields returned are those the machine's line yields; only an
    overflow of the division can leave the microseconds alone. *)
Lemma load_timewindow_info_machine (lines : list string) :
  fst (load_timewindow_info (Some lines)) =
  match TimeWindowMachine.run TimeWindowMachine.Outside lines with
  | None => found start
  | Some line => fst (take_line (found start) line)
  end.
Proof.
  pose proof (scan_lines_machine lines start) as H.
  unfold load_timewindow_info.
  destruct (scan_lines lines start) as [st en]. cbn [fst snd] in H.
  change (machine_state start) with TimeWindowMachine.Outside in H.
  assert (E : fst (match en with
                   | Exception e => (found st, [Warning e])
                   | _ => (found st, [report (found st)])
                   end) = found st) by (destruct en; reflexivity).
  rewrite E.
  specialize (H ltac:(intros H'; discriminate)).
  change (found st) with (fst (found st, en)). rewrite H.
  destruct (TimeWindowMachine.run TimeWindowMachine.Outside lines); reflexivity.
Qed.

Lemma take_line_reported (line : string) :
  fst (take_line (found start) line) = TimeWindowMachine.reported (Some line).
Proof.
  unfold take_line, TimeWindowMachine.reported.
  destruct (window_value line) as [us|e]; [|reflexivity].
  destruct (int_truediv us 1000%float); reflexivity.
Qed.

Lemma scan_lines_app_stopped (lines more : list string) (st : scan) :
  snd (scan_lines lines st) <> Exhausted ->
  scan_lines (lines ++ more) st = scan_lines lines st.
Proof.
  revert st; induction lines as [|line rest IH]; intros st H;
    [contradiction H; reflexivity|].
  cbn [scan_lines app] in H |- *.
  destruct (contains "name: package-0" line); [apply IH, H|].
  destruct (in_package st && contains "name: long_term" line); [apply IH, H|].
  destruct (found_long_term st && contains "time_window_us:" line); [reflexivity|].
  apply IH, H.
Qed.



Lemma in_package_kept (lines : list string) (st : scan) :
  in_package st = true -> in_package (fst (scan_lines lines st)) = true.
Proof.
  revert st; induction lines as [|line rest IH]; intros st H; [exact H|].
  cbn [scan_lines].
  destruct (contains "name: package-0" line); [apply IH; reflexivity|].
  destruct (in_package st && contains "name: long_term" line); [apply IH; exact H|].
  destruct (found_long_term st && contains "time_window_us:" line); [|apply IH, H].
  destruct (window_value line) as [us|e]; [|exact H].
  destruct (int_truediv us 1000%float); exact H.
Qed.

Lemma in_package_after_header (lines : list string) (st : scan) :
  flag_in_zone st ->
  Exists (fun line => contains "name: package-0" line = true) lines ->
  in_package (fst (scan_lines lines st)) = true.
Proof.
  revert st; induction lines as [|line rest IH]; intros st I E;
    [inversion E|].
  cbn [scan_lines].
  destruct (contains "name: package-0" line) eqn:P;
    [apply in_package_kept; reflexivity|].
  assert (E' : Exists (fun l => contains "name: package-0" l = true) rest).
  { inversion E as [? ? H|]; [congruence | assumption]. }
  destruct (in_package st && contains "name: long_term" line) eqn:L.
  - apply andb_true_iff in L as [L _]. apply in_package_kept. exact L.
  - destruct (found_long_term st && contains "time_window_us:" line) eqn:T;
      [|apply IH; assumption].
    apply andb_true_iff in T as [T _].
    destruct (window_value line) as [us|e]; [|exact (I T)].
    destruct (int_truediv us 1000%float); exact (I T).
Qed.

(** Lines that cannot be taken leave the fields alone and clear no
    variable of the scan. *)
Lemma scan_lines_quiet (ls rest : list string) (st : scan) :
  Forall quiet ls ->
  exists st',
    scan_lines (ls ++ rest) st = scan_lines rest st'
    /\ (in_package st = true -> in_package st' = true)
    /\ (found_long_term st = true -> found_long_term st' = true).
Proof.
  intros Q; revert st; induction Q as [|line ls Hq _ IH]; intros st.
  - exists st; repeat split; auto.
  - cbn [app scan_lines]. unfold quiet in Hq. rewrite Hq, andb_false_r.
    destruct (contains "name: package-0" line).
    + destruct (IH {| in_package := true; found_long_term := found_long_term st;
                      found := found st |}) as (st' & E & Hp & Hf).
      exists st'; split; [exact E|]. split; [intros _; apply Hp; reflexivity | exact Hf].
    + destruct (in_package st && contains "name: long_term" line).
      * destruct (IH {| in_package := in_package st; found_long_term := true;
                        found := found st |}) as (st' & E & Hp & Hf).
        exists st'; split; [exact E|]. split; [exact Hp | intros _; apply Hf; reflexivity].
      * apply IH.
Qed.

(** C10.  The scan never leaves the package zone: [in_package], once
    true, is true in every later state, so after any input with a line
    containing [name: package-0] it is true, whatever zone headers
    follow.  Hence a [name: long_term] line met after later headers
    still sets the flag and the next [time_window_us:] line is the one
    extracted. *)
Theorem package_zone_is_never_left :
  (forall lines st, in_package st = true ->
                    in_package (fst (scan_lines lines st)) = true)
  /\ (forall pre header rest,
        contains "name: package-0" header = true ->
        in_package (fst (scan_lines (pre ++ header :: rest) start)) = true)
  /\ (forall pre header later long_term gap window post us ms,
        contains "name: package-0" header = true ->
        Forall quiet pre -> Forall quiet later -> Forall quiet gap ->
        contains "name: package-0" long_term = false ->
        contains "name: long_term" long_term = true ->
        contains "name: package-0" window = false ->
        contains "name: long_term" window = false ->
        contains "time_window_us:" window = true ->
        window_value window = Returns us ->
        int_truediv us 1000%float = Returns ms ->
        fst (load_timewindow_info
               (Some (pre ++ header :: later ++ long_term :: gap ++ window :: post)))
        = {| time_window_us := Some us; time_window_ms := Some ms |})
  /\ fst (load_timewindow_info
            (Some ["name: package-0"; "name: dram"; "name: long_term";
                   "time_window_us: 8000"]))
     = {| time_window_us := Some 8000%Z; time_window_ms := Some 8%float |}.
Proof.
  split; [exact in_package_kept|]. split; [|split].
  - intros pre header rest H. apply in_package_after_header.
    + intros H'; discriminate.
    + apply Exists_app. right. left. exact H.
  - intros pre header later long_term gap window post us ms
           Hh Qpre Qlater Qgap Lp Ll Wp Wl Wt Wv Wd.
    unfold load_timewindow_info.
    destruct (scan_lines_quiet pre
                (header :: later ++ long_term :: gap ++ window :: post) start Qpre)
      as (st1 & -> & _ & _).
    cbn [scan_lines]. rewrite Hh.
    match goal with |- context [scan_lines _ ?s] => set (st2 := s) end.
    destruct (scan_lines_quiet later (long_term :: gap ++ window :: post) st2 Qlater)
      as (st3 & -> & P3 & _).
    specialize (P3 eq_refl).
    cbn [scan_lines]. rewrite Lp, P3, Ll. cbn [andb].
    match goal with |- context [scan_lines _ ?s] => set (st4 := s) end.
    destruct (scan_lines_quiet gap (window :: post) st4 Qgap)
      as (st5 & -> & P5 & F5).
    specialize (P5 eq_refl). specialize (F5 eq_refl).
    cbn [scan_lines]. rewrite Wp, Wl, F5, Wt, andb_false_r. cbn [andb].
    rewrite Wv, Wd. reflexivity.
  - vm_compute. reflexivity.
Qed.

(** The theorem with a [name: dram] header and a blank line between the
    package header and the long-term block. *)
Lemma package_zone_is_never_left_witness :
  fst (load_timewindow_info
         (Some ([] ++ "name: package-0" :: ["name: dram"; ""] ++ "  name: long_term"
                   :: ["  power_limit_uw: 15000000"] ++ "  time_window_us: 8000"
                   :: ["name: core"])))
  = {| time_window_us := Some 8000%Z; time_window_ms := Some 8%float |}.
Proof.
  refine (proj1 (proj2 (proj2 package_zone_is_never_left))
            [] _ _ _ _ _ _ 8000%Z 8%float _ _ _ _ _ _ _ _ _ _ _);
    try reflexivity; repeat constructor.
Defined.

(** ** The power-limit scan (C2, C7) *)

Lemma index_after (pre : list string) (previous : string) (rest : list string) :
  index (pre ++ previous :: rest) (Z.of_nat (List.length pre) + 1 - 1) = Returns previous.
Proof.
  unfold index.
  replace (Z.of_nat (List.length pre) + 1 - 1)%Z with (Z.of_nat (List.length pre)) by lia.
  assert (E : (Z.of_nat (List.length pre) <? 0)%Z = false) by (apply Z.ltb_ge; lia).
  cbv zeta. rewrite E, E.
  rewrite Nat2Z.id, nth_error_app2, Nat.sub_diag by apply Nat.le_refl.
  reflexivity.
Qed.

(** From the second line on, a line whose predecessor does not contain
    [long_term] changes at most the zone. *)
Lemma limit_not_after_long_term_is_ignored
      (pre : list string) (previous line : string) (post : list string)
      (st : PlotChirop5Power.scan) :
  contains "long_term" previous = false ->
  PlotChirop5Power.step (pre ++ previous :: line :: post)
                        (Z.of_nat (List.length pre) + 1) line st
  = (PlotChirop5Power.enter_zone line st, None)
  /\ PlotChirop5Power.found (PlotChirop5Power.enter_zone line st)
     = PlotChirop5Power.found st.
Proof.
  intros H. split.
  - unfold PlotChirop5Power.step. rewrite index_after, H.
    destruct (contains "power_limit_uw:" line); reflexivity.
  - unfold PlotChirop5Power.enter_zone.
    destruct (contains "name: package-" line); [reflexivity|].
    destruct (contains "name: dram" line); reflexivity.
Qed.

(** C2: the example of the specification, and a file of one line.  With
    a single line, [lines[i-1]] at [i = 0] is the line itself: a limit is
    read from a line that has no preceding line. *)
Theorem power_limit_read_without_preceding_line :
  PlotChirop5Power.load_config_info
    (Some ["name: package-0"; "  name: long_term"; "  power_limit_uw: 15000000"])
  = ({| PlotChirop5Power.package_limit := Some 15%float;
        PlotChirop5Power.dram_limit := None |},
     [PlotChirop5Power.Config {| PlotChirop5Power.package_limit := Some 15%float;
                                 PlotChirop5Power.dram_limit := None |}])
  /\ fst (PlotChirop5Power.load_config_info
            (Some ["power_limit_uw: 15000000 :name: package-0 long_term"]))
     = {| PlotChirop5Power.package_limit := Some 15%float;
          PlotChirop5Power.dram_limit := None |}.
Proof. split; vm_compute; reflexivity. Qed.

(** C7: a [power_limit_uw:] line at the head of the file is not preceded
    by any line, yet its value is extracted when the last line of the
    file contains [long_term], and not otherwise. *)
Theorem first_line_limit_depends_on_last_line :
  fst (PlotChirop5Power.load_config_info
         (Some ["power_limit_uw: 15000000 :name: package-0"; "name: long_term"]))
  = {| PlotChirop5Power.package_limit := Some 15%float;
       PlotChirop5Power.dram_limit := None |}
  /\ fst (PlotChirop5Power.load_config_info
            (Some ["power_limit_uw: 15000000 :name: package-0"; "name: short_term"]))
     = {| PlotChirop5Power.package_limit := None;
          PlotChirop5Power.dram_limit := None |}.
Proof. split; vm_compute; reflexivity. Qed.

(** ** Exceptions in the two parsers (C5) *)

Lemma step_exception_found (lines : list string) (i : Z) (line : string)
      (st st' : PlotChirop5Power.scan) (e : exn) :
  PlotChirop5Power.step lines i line st = (st', Some e) ->
  PlotChirop5Power.found st' = PlotChirop5Power.found st.
Proof.
  unfold PlotChirop5Power.step. intros H.
  assert (Z : PlotChirop5Power.found (PlotChirop5Power.enter_zone line st)
              = PlotChirop5Power.found st).
  { unfold PlotChirop5Power.enter_zone.
    destruct (contains "name: package-" line); [reflexivity|].
    destruct (contains "name: dram" line); reflexivity. }
  destruct (contains "power_limit_uw:" line); [|discriminate].
  destruct (index lines (i - 1)) as [previous|e'];
    [|injection H as <- _; exact Z].
  destruct (contains "long_term" previous); [|discriminate].
  destruct (PlotChirop5Power.limit_value line); [discriminate|].
  injection H as <- _; exact Z.
Qed.

(** A scan that ends in an exception went through the lines before the
    failing one without exception, and holds the fields it had then. *)
Lemma scan_from_exception (lines rest : list string) (i : Z)
      (st st' : PlotChirop5Power.scan) (e : exn) :
  PlotChirop5Power.scan_from lines i rest st = (st', Some e) ->
  exists pre line post st0,
    rest = pre ++ line :: post
    /\ PlotChirop5Power.scan_from lines i pre st = (st0, None)
    /\ snd (PlotChirop5Power.step lines (i + Z.of_nat (List.length pre)) line st0) = Some e
    /\ PlotChirop5Power.found st' = PlotChirop5Power.found st0.
Proof.
  revert i st; induction rest as [|line rest IH]; intros i st H;
    [discriminate|].
  cbn [PlotChirop5Power.scan_from] in H.
  destruct (PlotChirop5Power.step lines i line st) as [st1 [e1|]] eqn:Hs.
  - injection H as <- <-.
    exists [], line, rest, st. cbn [List.length app PlotChirop5Power.scan_from].
    rewrite Z.add_0_r, Hs. repeat split.
    apply (step_exception_found _ _ _ _ _ _ Hs).
  - destruct (IH _ _ H) as (pre & l & post & st0 & -> & E & F & G).
    exists (line :: pre), l, post, st0.
    cbn [app PlotChirop5Power.scan_from List.length]. rewrite Hs.
    replace (i + Z.of_nat (S (List.length pre)))%Z
      with (i + 1 + Z.of_nat (List.length pre))%Z by lia.
    repeat split; assumption.
Qed.

(** C5, amended.  Neither parser lets an exception out: for a file
    that cannot be opened, and for every list of lines, it returns its
    fields and exactly one message.  A file that cannot be opened gives
    all fields absent.  After an exception in the scan the fields are
    those assigned before it: in [load_config_info] the limits stored on
    the lines before the failing one, in [load_timewindow_info] none,
    except that the microseconds stay when it is their conversion to
    milliseconds that overflows. *)
Theorem config_parsers_return_what_was_found :
  PlotChirop5Power.load_config_info None
    = ({| PlotChirop5Power.package_limit := None; PlotChirop5Power.dram_limit := None |},
       [PlotChirop5Power.Warning FileNotFoundError])
  /\ load_timewindow_info None
     = ({| time_window_us := None; time_window_ms := None |}, [Warning FileNotFoundError])
  /\ (forall txt_file, exists i m, PlotChirop5Power.load_config_info txt_file = (i, [m]))
  /\ (forall txt_file, exists i m, load_timewindow_info txt_file = (i, [m]))
  /\ (forall lines i e,
        PlotChirop5Power.load_config_info (Some lines)
          = (i, [PlotChirop5Power.Warning e]) ->
        exists pre line post st,
          lines = pre ++ line :: post
          /\ PlotChirop5Power.scan_from lines 0 pre PlotChirop5Power.start = (st, None)
          /\ snd (PlotChirop5Power.step lines (Z.of_nat (List.length pre)) line st) = Some e
          /\ i = PlotChirop5Power.found st)
  /\ (forall lines i e,
        load_timewindow_info (Some lines) = (i, [Warning e]) ->
        time_window_ms i = None
        /\ (time_window_us i = None
            \/ exists us, time_window_us i = Some us
                          /\ float_of_int us = Raises e /\ e = OverflowError)).
Proof.
  split; [reflexivity|]. split; [reflexivity|]. split; [|split; [|split]].
  - intros [lines|]; [|eexists; eexists; reflexivity].
    unfold PlotChirop5Power.load_config_info.
    destruct (PlotChirop5Power.scan_from lines 0 lines PlotChirop5Power.start)
      as [st [e|]]; eexists; eexists; reflexivity.
  - intros [lines|]; [|eexists; eexists; reflexivity].
    unfold load_timewindow_info.
    destruct (scan_lines lines start) as [st [| |e]]; eexists; eexists; reflexivity.
  - intros lines i e H. unfold PlotChirop5Power.load_config_info in H.
    destruct (PlotChirop5Power.scan_from lines 0 lines PlotChirop5Power.start)
      as [st' [e'|]] eqn:S; [|discriminate].
    injection H as <- <-.
    destruct (scan_from_exception _ _ _ _ _ _ S) as (pre & line & post & st & -> & E & F & G).
    exists pre, line, post, st. rewrite Z.add_0_l in F. repeat split; assumption.
  - intros lines i e H. unfold load_timewindow_info in H.
    pose proof (scan_lines_machine lines start ltac:(intros H'; discriminate)) as M.
    destruct (scan_lines lines start) as [st en]. cbn [fst snd] in M.
    destruct en as [| |e'];
      try (exfalso; injection H as _ R; unfold report in R;
           destruct (time_window_us (found st)) as [u|];
           [destruct (u =? 0)%Z|]; discriminate).
    injection H as <- <-.
    destruct (TimeWindowMachine.run (machine_state start) lines) as [line|];
      [|discriminate].
    unfold take_line in M.
    destruct (window_value line) as [us|e0].
    + unfold int_truediv in M.
      destruct (float_of_int us) as [x|e1] eqn:F; cbn [bind] in M; [discriminate|].
      injection M as -> <-. split; [reflexivity|]. right. exists us.
      split; [reflexivity|]. split; [exact F|].
      unfold float_of_int in F.
      destruct (binary_normalize prec emax us 0 false); congruence.
    + injection M as -> _. split; [reflexivity | left; reflexivity].
Qed.

(** The theorem on a file whose second limit is not a number. *)
Lemma config_parsers_return_what_was_found_witness :
  exists pre line post st,
    ["name: package-0"; "  name: long_term"; "  power_limit_uw: 15000000";
     "name: dram"; "  name: long_term"; "  power_limit_uw: unknown"]
      = pre ++ line :: post
    /\ snd (PlotChirop5Power.step
              ["name: package-0"; "  name: long_term"; "  power_limit_uw: 15000000";
               "name: dram"; "  name: long_term"; "  power_limit_uw: unknown"]
              (Z.of_nat (List.length pre)) line st) = Some ValueError
    /\ {| PlotChirop5Power.package_limit := Some 15%float;
          PlotChirop5Power.dram_limit := None |} = PlotChirop5Power.found st.
Proof.
  destruct (proj1 (proj2 (proj2 (proj2 (proj2 config_parsers_return_what_was_found))))
    ["name: package-0"; "  name: long_term"; "  power_limit_uw: 15000000";
     "name: dram"; "  name: long_term"; "  power_limit_uw: unknown"]
    {| PlotChirop5Power.package_limit := Some 15%float;
       PlotChirop5Power.dram_limit := None |}
    ValueError)
    as (pre & line & post & st & E & _ & F & G).
  - vm_compute. reflexivity.
  - exists pre, line, post, st. repeat split; assumption.
Defined.

(** A malformed second limit leaves the first one in the result, and a
    time window too large for a double leaves the microseconds. *)
Lemma exception_does_not_clear_fields :
  PlotChirop5Power.load_config_info
    (Some ["name: package-0"; "  name: long_term"; "  power_limit_uw: 15000000";
           "name: dram"; "  name: long_term"; "  power_limit_uw: unknown"])
  = ({| PlotChirop5Power.package_limit := Some 15%float;
        PlotChirop5Power.dram_limit := None |},
     [PlotChirop5Power.Warning ValueError])
  /\ load_timewindow_info
       (Some ["name: package-0"; "name: long_term";
              "time_window_us: 200000000000000000000000000000000000000000000000000000000000000000000000000000000000000000000000000000000000000000000000000000000000000000000000000000000000000000000000000000000000000000000000000000000000000000000000000000000000000000000000000000000000000000000000000000000000000000000000000000000000000000000"])
     = ({| time_window_us := Some 200000000000000000000000000000000000000000000000000000000000000000000000000000000000000000000000000000000000000000000000000000000000000000000000000000000000000000000000000000000000000000000000000000000000000000000000000000000000000000000000000000000000000000000000000000000000000000000000000000000000000000000%Z;
           time_window_ms := None |},
        [Warning OverflowError]).
Proof. split; vm_compute; reflexivity. Qed.

(* ================================================================== *)
(** * Part III. Further properties of the scripts                      *)
(* ================================================================== *)

(** ** What every grouping is like *)

Lemma keys_append_at {A : Type} (k : pykey) (x : A) (d : listdict A) :
  keys (append_at k x d) = if existsb (fun k' => key_eqb k' k) (keys d)
                           then keys d else keys d ++ [k].
Proof.
  unfold keys. induction d as [|[k0 xs] d IH]; [reflexivity|].
  cbn [append_at map fst existsb].
  destruct (key_eqb k0 k); cbn [orb map fst]; [reflexivity|].
  rewrite IH. destruct (existsb _ (map fst d)); reflexivity.
Qed.

Lemma nodup_append_at {A : Type} (k : pykey) (x : A) (d : listdict A) :
  NoDup (keys d) -> NoDup (keys (append_at k x d)).
Proof.
  intros H. rewrite keys_append_at.
  destruct (existsb _ (keys d)) eqn:E; [exact H|].
  apply NoDup_app; [exact H | repeat constructor; intros [] |].
  intros a Ha [E'|[]]. subst a.
  assert (existsb (fun k' => key_eqb k' k) (keys d) = true); [|congruence].
  apply existsb_exists. exists k. split; [exact Ha | apply key_eqb_refl].
Qed.

Lemma nonempty_append_at {A : Type} (k : pykey) (x : A) (d : listdict A) :
  Forall (fun e => snd e <> []) d ->
  Forall (fun e => snd e <> []) (append_at k x d).
Proof.
  induction 1 as [|[k0 xs] d H F IH]; cbn [append_at].
  - constructor; [discriminate | constructor].
  - destruct (key_eqb k0 k).
    + constructor; [|exact F]. cbn [snd]. intros E.
      apply app_eq_nil in E as [_ E]. discriminate.
    + constructor; assumption.
Qed.

Lemma total_rows_append_at {A : Type} (k : pykey) (x : A) (d : listdict A) :
  total_rows (append_at k x d) = S (total_rows d).
Proof.
  unfold total_rows. induction d as [|[k0 xs] d IH]; [reflexivity|].
  cbn [append_at]. destruct (key_eqb k0 k); cbn [map snd List.concat].
  - repeat rewrite length_app. cbn [List.length]. lia.
  - rewrite !length_app, IH. lia.
Qed.

(** In a dictionary without repeated keys, an entry is what its key
    reads. *)
Lemma series_of_entry {A : Type} (d : listdict A) (k : pykey) (xs : list A) :
  NoDup (keys d) -> In (k, xs) d -> series d k = xs.
Proof.
  unfold keys. induction d as [|[k0 ys] d IH]; intros N H; [contradiction|].
  cbn [map fst] in N. inversion N as [|? ? N1 N2]; subst.
  cbn [series]. destruct H as [H|H].
  - injection H as -> ->. rewrite key_eqb_refl. reflexivity.
  - destruct (key_eqb k0 k) eqn:E; [|apply IH; assumption].
    apply key_eqb_eq in E. subst k0. contradiction N1.
    apply in_map_iff. exists (k, xs). split; [reflexivity | exact H].
Qed.

Lemma well_grouped_intro {A : Type} (d : listdict A) :
  NoDup (keys d) -> Forall (fun e => snd e <> []) d -> well_grouped d.
Proof.
  intros N F. split; [exact N|]. split; [exact F|].
  intros k xs. apply series_of_entry, N.
Qed.

Lemma group_record_invariant (st st' : ExtractMetrics.grouping) (record : pyval) :
  ExtractMetrics.group_record st record = Returns st' ->
  NoDup (keys (fst st)) -> Forall (fun e => snd e <> []) (fst st) ->
  NoDup (keys (fst st')) /\ Forall (fun e => snd e <> []) (fst st')
  /\ total_rows (fst st') + List.length (snd st')
     = S (total_rows (fst st) + List.length (snd st)).
Proof.
  unfold ExtractMetrics.group_record. intros H N F.
  destruct (get record "device_id") as [d|]; [|discriminate].
  destruct (get record "timestamp") as [t|]; [|discriminate].
  destruct (get record "value") as [v|]; [|discriminate].
  cbn [bind] in H.
  destruct (ExtractMetrics.complete d t v).
  - destruct (key_of d) as [k|]; [|discriminate]. cbn [bind] in H.
    injection H as <-. cbn [fst snd].
    split; [apply nodup_append_at, N|]. split; [apply nonempty_append_at, F|].
    rewrite total_rows_append_at. reflexivity.
  - injection H as <-. cbn [fst snd].
    split; [exact N|]. split; [exact F|].
    rewrite length_app. cbn [List.length]. lia.
Qed.

Lemma group_loop_invariant (records : list pyval) (st st' : ExtractMetrics.grouping) :
  ExtractMetrics.group_loop records st = Returns st' ->
  NoDup (keys (fst st)) -> Forall (fun e => snd e <> []) (fst st) ->
  NoDup (keys (fst st')) /\ Forall (fun e => snd e <> []) (fst st')
  /\ total_rows (fst st') + List.length (snd st')
     = List.length records + (total_rows (fst st) + List.length (snd st)).
Proof.
  revert st; induction records as [|r records IH]; intros st H N F.
  - injection H as <-. repeat split; assumption.
  - cbn [ExtractMetrics.group_loop] in H.
    destruct (ExtractMetrics.group_record st r) as [st1|] eqn:E; [|discriminate].
    cbn [bind] in H.
    destruct (group_record_invariant _ _ _ E N F) as (N1 & F1 & T1).
    destruct (IH _ H N1 F1) as (N2 & F2 & T2).
    split; [exact N2|]. split; [exact F2|].
    cbn [List.length]. lia.
Qed.

(** X1.  Whatever [extract_and_group_data] returns has no device twice
    and no device with an empty series, every entry being the series
    read under its key; and no record is lost or counted twice: the
    rows of all the series and the records reported as incomplete are
    together as many as the records iterated over. *)
Theorem grouping_is_a_partition (data : pyval) (g : listdict ExtractMetrics.row)
        (w : list pyval) :
  ExtractMetrics.extract_and_group_data data = Returns (g, w) ->
  well_grouped g
  /\ exists records, iter data = Returns records
                     /\ total_rows g + List.length w = List.length records.
Proof.
  unfold ExtractMetrics.extract_and_group_data. intros H.
  destruct (iter data) as [records|]; [|discriminate]. cbn [bind] in H.
  destruct (group_loop_invariant records ([], []) (g, w) H) as (N & F & T).
  - constructor.
  - constructor.
  - cbn [fst snd] in *. split; [apply well_grouped_intro; assumption|].
    exists records. split; [reflexivity|].
    unfold total_rows in T at 2. cbn in T. lia.
Qed.

(** The theorem on three records of two devices, one of them without
    [value]. *)
Lemma grouping_is_a_partition_witness :
  well_grouped
    [(KStr "a", [ {| ExtractMetrics.timestamp := PStr "t1"; ExtractMetrics.power_watt := PInt 1 |} ]);
     (KStr "b", [ {| ExtractMetrics.timestamp := PStr "t3"; ExtractMetrics.power_watt := PInt 0 |} ])].
Proof.
  exact (proj1 (grouping_is_a_partition
    (PList [PDict [("device_id", PStr "a"); ("timestamp", PStr "t1"); ("value", PInt 1)];
            PDict [("device_id", PStr "a"); ("timestamp", PStr "t2")];
            PDict [("device_id", PStr "b"); ("timestamp", PStr "t3"); ("value", PInt 0)]])
    _ _ eq_refl)).
Defined.

(** ** The conversion of [chirop/json_to_csv.py] *)

Lemma series_in {A : Type} (d : listdict A) (k : pykey) (x : A) :
  In x (series d k) -> In (k, series d k) d.
Proof.
  induction d as [|[k0 xs] d IH]; [contradiction|].
  cbn [series]. destruct (key_eqb k0 k) eqn:E.
  - apply key_eqb_eq in E. subst k0. intros _. left; reflexivity.
  - intros H. right. apply IH, H.
Qed.

Lemma chirop_group_entry_keyed (g : listdict pyval) (entry : pyval) :
  keyed entry = true ->
  exists k, key_of (field entry "device_id") = Returns k
            /\ ChiropJsonToCsv.group_entry g entry = Returns (append_at k entry g).
Proof.
  unfold keyed, hashable, has_key, field, ChiropJsonToCsv.group_entry, getitem.
  destruct entry as [| | | | | |kvs]; try discriminate.
  destruct (assoc "device_id" kvs) as [d|]; [|discriminate].
  cbn [andb bind]. destruct (key_of d) as [k|]; [|discriminate].
  intros _. exists k. split; reflexivity.
Qed.

Lemma chirop_group_entry_returns (g g' : listdict pyval) (entry : pyval) :
  ChiropJsonToCsv.group_entry g entry = Returns g' -> keyed entry = true.
Proof.
  unfold keyed, hashable, has_key, field, ChiropJsonToCsv.group_entry, getitem.
  destruct entry as [| | | | | |kvs]; try discriminate.
  destruct (assoc "device_id" kvs) as [d|]; [|discriminate].
  cbn [andb bind]. destruct (key_of d) as [k|]; [reflexivity | discriminate].
Qed.

Lemma chirop_group_entry_raises (g : listdict pyval) (entry : pyval) (e : exn) :
  ChiropJsonToCsv.group_entry g entry = Raises e -> key_error_or_type_error e.
Proof.
  unfold ChiropJsonToCsv.group_entry, getitem, key_error_or_type_error.
  destruct entry as [| | | | | |kvs]; cbn [bind];
    try (intros H; injection H as <-; right; reflexivity).
  destruct (assoc "device_id" kvs) as [d|]; cbn [bind];
    [|intros H; injection H as <-; left; reflexivity].
  destruct d; cbn [key_of bind]; try discriminate;
    intros H; injection H as <-; right; reflexivity.
Qed.

Lemma chirop_group_loop_returns (entries : list pyval) (g0 g : listdict pyval) :
  ChiropJsonToCsv.group_loop entries g0 = Returns g ->
  forallb keyed entries = true
  /\ (forall k, series g k = series g0 k ++ filter (device_is k) entries)
  /\ (NoDup (keys g0) -> NoDup (keys g)).
Proof.
  revert g0; induction entries as [|entry entries IH]; intros g0 H.
  - injection H as <-. split; [reflexivity|]. split; [|auto].
    intros k. cbn [filter]. rewrite app_nil_r. reflexivity.
  - cbn [ChiropJsonToCsv.group_loop] in H.
    destruct (ChiropJsonToCsv.group_entry g0 entry) as [g1|] eqn:E; [|discriminate].
    cbn [bind] in H.
    pose proof (chirop_group_entry_returns _ _ _ E) as K.
    destruct (chirop_group_entry_keyed g0 entry K) as (k0 & Ek & E').
    rewrite E' in E. injection E as <-.
    destruct (IH _ H) as (F & S & N).
    cbn [forallb]. rewrite K, F. split; [reflexivity|]. split.
    + intros k. rewrite S, series_append_at. cbn [filter].
      unfold device_is at 2. rewrite Ek.
      destruct (key_eqb k0 k); [rewrite <- app_assoc|]; reflexivity.
    + intros N0. apply N, nodup_append_at, N0.
Qed.

Lemma chirop_group_loop_keyed (entries : list pyval) (g0 : listdict pyval) :
  forallb keyed entries = true ->
  exists g, ChiropJsonToCsv.group_loop entries g0 = Returns g.
Proof.
  revert g0; induction entries as [|entry entries IH]; intros g0 H;
    [eexists; reflexivity|].
  cbn [forallb] in H. apply andb_true_iff in H as [K H].
  destruct (chirop_group_entry_keyed g0 entry K) as (k0 & _ & E).
  cbn [ChiropJsonToCsv.group_loop]. rewrite E. cbn [bind]. apply IH, H.
Qed.

Lemma chirop_group_loop_raises (entries : list pyval) (g0 : listdict pyval) (e : exn) :
  ChiropJsonToCsv.group_loop entries g0 = Raises e -> key_error_or_type_error e.
Proof.
  revert g0; induction entries as [|entry entries IH]; intros g0 H; [discriminate|].
  cbn [ChiropJsonToCsv.group_loop] in H.
  destruct (ChiropJsonToCsv.group_entry g0 entry) as [g1|e1] eqn:E; cbn [bind] in H.
  - apply (IH _ H).
  - injection H as <-. apply (chirop_group_entry_raises _ _ _ E).
Qed.

Lemma write_row_cases (entry : pyval) :
  if writable entry then ChiropJsonToCsv.write_row entry = Returns (csv_row_of entry)
  else exists e, ChiropJsonToCsv.write_row entry = Raises e
                 /\ key_error_or_type_error e.
Proof.
  unfold writable, has_key, field, ChiropJsonToCsv.write_row, csv_row_of,
    key_error_or_type_error, abs_value, getitem.
  destruct entry as [| | | | | |kvs];
    try (cbn [andb]; exists TypeError; split; [reflexivity | right; reflexivity]).
  unfold field.
  destruct (assoc "timestamp" kvs) as [t|]; cbn [andb bind];
    [|exists KeyError; split; [reflexivity | left; reflexivity]].
  destruct (assoc "device_id" kvs) as [d|]; cbn [andb bind];
    [|exists KeyError; split; [reflexivity | left; reflexivity]].
  destruct (assoc "value" kvs) as [v|]; cbn [andb bind ExtractMetrics.is_number];
    [|exists KeyError; split; [reflexivity | left; reflexivity]].
  destruct v; cbn [ExtractMetrics.is_number py_abs bind]; try reflexivity;
    exists TypeError; split; try reflexivity; right; reflexivity.
Qed.

Lemma write_rows_cases (entries : list pyval) :
  if forallb writable entries
  then ChiropJsonToCsv.write_rows entries = Returns (map csv_row_of entries)
  else exists e, ChiropJsonToCsv.write_rows entries = Raises e
                 /\ key_error_or_type_error e.
Proof.
  induction entries as [|entry entries IH]; [reflexivity|].
  cbn [forallb ChiropJsonToCsv.write_rows map].
  pose proof (write_row_cases entry) as W.
  destruct (writable entry); cbn [andb].
  - rewrite W. cbn [bind].
    destruct (forallb writable entries).
    + rewrite IH. reflexivity.
    + destruct IH as (e & -> & He). exists e. split; [reflexivity | exact He].
  - destruct W as (e & -> & He). exists e. split; [reflexivity | exact He].
Qed.

(** The files written for a dictionary of entries. *)
Lemma write_files_cases (g : listdict pyval) :
  if forallb (fun d => forallb writable (snd d)) g
  then ChiropJsonToCsv.write_files g
       = Returns (map (fun d => (fst d, map csv_row_of (snd d))) g)
  else exists e, ChiropJsonToCsv.write_files g = Raises e
                 /\ key_error_or_type_error e.
Proof.
  induction g as [|[k es] g IH]; [reflexivity|].
  cbn [forallb ChiropJsonToCsv.write_files map fst snd].
  pose proof (write_rows_cases es) as W.
  destruct (forallb writable es); cbn [andb].
  - rewrite W. cbn [bind].
    destruct (forallb _ g).
    + rewrite IH. reflexivity.
    + destruct IH as (e & -> & He). exists e. split; [reflexivity | exact He].
  - destruct W as (e & -> & He). exists e. split; [reflexivity | exact He].
Qed.

Lemma series_map_rows (g : listdict pyval) (k : pykey) :
  series (map (fun d => (fst d, map csv_row_of (snd d))) g) k
  = map csv_row_of (series g k).
Proof.
  induction g as [|[k0 es] g IH]; [reflexivity|].
  cbn [map series fst snd]. destruct (key_eqb k0 k); [reflexivity | exact IH].
Qed.

Lemma key_of_kstr (v : pyval) (s : string) :
  key_of v = Returns (KStr s) -> v = PStr s.
Proof.
  destruct v as [| |z|f|t| |]; cbn [key_of]; try discriminate.
  - destruct b; discriminate.
  - unfold knum. destruct z; [discriminate| |];
      destruct (odd_part p 0); discriminate.
  - destruct (Prim2SF f) as [| | |sg m e]; try discriminate.
    unfold knum. destruct sg; destruct (odd_part m e); discriminate.
  - intros H; injection H as ->. reflexivity.
Qed.


Lemma json_to_csv_list (entries : list pyval) :
  ChiropJsonToCsv.json_to_csv (PList entries) =
  bind (ChiropJsonToCsv.group_loop entries []) (fun g =>
    if forallb ChiropJsonToCsv.is_kstr (keys g) then ChiropJsonToCsv.write_files g
    else Raises TypeError).
Proof. reflexivity. Qed.

Lemma convertible_keyed (entry : pyval) : convertible entry = true -> keyed entry = true.
Proof.
  unfold convertible, keyed, hashable, has_key, field.
  destruct entry as [| | | | | |kvs]; try discriminate.
  destruct (assoc "device_id" kvs) as [d|]; [|discriminate].
  destruct d; try discriminate. reflexivity.
Qed.

Lemma convertible_writable (entry : pyval) :
  convertible entry = true -> writable entry = true.
Proof.
  unfold convertible, writable, has_key, field.
  destruct entry as [| | | | | |kvs]; try discriminate.
  destruct (assoc "device_id" kvs) as [d|]; [|discriminate].
  destruct (assoc "timestamp" kvs); [|rewrite andb_false_r; discriminate].
  destruct d; try discriminate. cbn [ExtractMetrics.is_str andb]. auto.
Qed.

(** The keys of a grouping are [device_id]s of entries. *)
Lemma chirop_group_loop_keys (entries : list pyval) (g0 g : listdict pyval) (k : pykey) :
  ChiropJsonToCsv.group_loop entries g0 = Returns g ->
  In k (keys g) ->
  In k (keys g0) \/ exists entry, In entry entries
                                  /\ key_of (field entry "device_id") = Returns k.
Proof.
  revert g0; induction entries as [|entry entries IH]; intros g0 H I.
  - injection H as <-. left; exact I.
  - cbn [ChiropJsonToCsv.group_loop] in H.
    destruct (ChiropJsonToCsv.group_entry g0 entry) as [g1|] eqn:E; [|discriminate].
    cbn [bind] in H.
    pose proof (chirop_group_entry_returns _ _ _ E) as K.
    destruct (chirop_group_entry_keyed g0 entry K) as (k0 & Ek & E').
    rewrite E' in E. injection E as <-.
    destruct (IH _ H I) as [I0|(e' & Ie & Ke)].
    + rewrite keys_append_at in I0.
      destruct (existsb _ (keys g0)); [left; exact I0|].
      apply in_app_or in I0 as [I0|[<-|[]]]; [left; exact I0|].
      right. exists entry. split; [left; reflexivity | exact Ek].
    + right. exists e'. split; [right; exact Ie | exact Ke].
Qed.


Example json_to_csv_example :
  ChiropJsonToCsv.json_to_csv example_records
  = Returns [(KStr "chirop-5",
      [ {| ChiropJsonToCsv.r_timestamp := PStr "2024-01-01T00:00:00";
           ChiropJsonToCsv.r_device_id := PStr "chirop-5";
           ChiropJsonToCsv.r_value := PFloat (-42.5)%float;
           ChiropJsonToCsv.r_value_abs := PFloat 42.5%float |};
        {| ChiropJsonToCsv.r_timestamp := PStr "2024-01-01T00:00:01";
           ChiropJsonToCsv.r_device_id := PStr "chirop-5";
           ChiropJsonToCsv.r_value := PFloat 10%float;
           ChiropJsonToCsv.r_value_abs := PFloat 10%float |} ])].
Proof. reflexivity. Qed.

(** ** Strings cut at a separator *)

Lemma split_nonempty (c : ascii) (s : string) : split c s <> [].
Proof.
  destruct s as [|a s]; cbn [split]; [discriminate|].
  destruct (Ascii.eqb a c); [discriminate|].
  destruct (split c s); discriminate.
Qed.

(** A string in which the separator occurs is cut in two pieces at
    least. *)
Lemma split_two (c : ascii) (s : string) :
  In c (list_ascii_of_string s) -> exists a b rest, split c s = a :: b :: rest.
Proof.
  induction s as [|x s IH]; [contradiction|].
  cbn [list_ascii_of_string split]. intros H.
  destruct (Ascii.eqb x c) eqn:E.
  - destruct (split c s) as [|b rest] eqn:S; [exfalso; exact (split_nonempty c s S)|].
    exists EmptyString, b, rest. reflexivity.
  - destruct H as [H|H]; [subst x; rewrite Ascii.eqb_refl in E; discriminate|].
    destruct (IH H) as (a & b & rest & ->).
    exists (String x a), b, rest. reflexivity.
Qed.

Lemma prefix_chars (n s : string) (c : ascii) :
  prefix n s = true -> In c (list_ascii_of_string n) -> In c (list_ascii_of_string s).
Proof.
  revert n; induction s as [|b s IH]; intros [|a n]; cbn [prefix list_ascii_of_string];
    try contradiction; try discriminate.
  destruct (ascii_dec a b) as [->|]; [|discriminate].
  intros P [H|H]; [left; exact H | right; exact (IH n P H)].
Qed.

Lemma contains_chars (n s : string) (c : ascii) :
  contains n s = true -> In c (list_ascii_of_string n) -> In c (list_ascii_of_string s).
Proof.
  induction s as [|b s IH]; cbn [contains]; intros H I.
  - rewrite orb_false_r in H. exact (prefix_chars _ _ _ H I).
  - apply orb_true_iff in H as [H|H]; [exact (prefix_chars _ _ _ H I)|].
    right. exact (IH H I).
Qed.

(** The field after the first colon exists in every line that contains
    a marker with a colon. *)
Lemma field_after_colon (marker line : string) :
  In ":"%char (list_ascii_of_string marker) -> contains marker line = true ->
  exists field, index (split ":"%char line) 1 = Returns field.
Proof.
  intros M C. destruct (split_two _ _ (contains_chars _ _ _ C M)) as (a & b & rest & ->).
  exists b. reflexivity.
Qed.

Lemma index_in_range {A : Type} (xs : list A) (i : Z) :
  (- Z.of_nat (List.length xs) <= i < Z.of_nat (List.length xs))%Z ->
  exists x, index xs i = Returns x.
Proof.
  intros H. unfold index. cbv zeta.
  set (j := if (i <? 0)%Z then (i + Z.of_nat (List.length xs))%Z else i).
  assert (J : (0 <= j < Z.of_nat (List.length xs))%Z).
  { unfold j. destruct (Z.ltb_spec i 0); lia. }
  destruct (Z.ltb_spec j 0); [lia|].
  destruct (nth_error xs (Z.to_nat j)) as [x|] eqn:E; [exists x; reflexivity|].
  apply nth_error_None in E. lia.
Qed.

(** ** Numbers that cannot be read *)

Lemma checked_digits_raises (s : string) (e : exn) :
  checked_digits s = Raises e -> e = ValueError.
Proof.
  unfold checked_digits.
  destruct (int_digits s 0 0 true) as [[z n]|]; [|congruence].
  destruct (max_str_digits <? n)%N; congruence.
Qed.

Lemma int_of_str_raises (s : string) (e : exn) :
  int_of_str s = Raises e -> e = ValueError.
Proof.
  unfold int_of_str.
  destruct (strip s) as [|a ds]; [apply checked_digits_raises|].
  destruct (Ascii.eqb a "+"%char) eqn:Ep.
  - apply Ascii.eqb_eq in Ep. subst a. apply checked_digits_raises.
  - destruct (Ascii.eqb a "-"%char) eqn:Em.
    + apply Ascii.eqb_eq in Em. subst a.
      destruct (checked_digits ds) eqn:C; cbn [bind]; [discriminate|].
      intros H; injection H as <-. exact (checked_digits_raises _ _ C).
    + intros H.
      assert (G : checked_digits (String a ds) = Raises e).
      { destruct a as [[] [] [] [] [] [] [] []]; try exact H;
          cbn in Ep, Em; discriminate. }
      exact (checked_digits_raises _ _ G).
Qed.

Lemma int_truediv_raises (z : Z) (d : float) (e : exn) :
  int_truediv z d = Raises e -> e = OverflowError.
Proof.
  unfold int_truediv, float_of_int.
  destruct (binary_normalize prec emax z 0 false); cbn [bind]; congruence.
Qed.

(** ** More on the power-limit scan *)

Lemma limit_value_raises (line : string) (e : exn) :
  contains "power_limit_uw:" line = true ->
  PlotChirop5Power.limit_value line = Raises e -> bad_number e.
Proof.
  intros C. unfold PlotChirop5Power.limit_value.
  destruct (field_after_colon "power_limit_uw:" line) as [f ->];
    [cbn; tauto | exact C |].
  cbn [bind]. destruct (int_of_str (strip f)) as [n|e1] eqn:I; cbn [bind].
  - intros H. right. exact (int_truediv_raises _ _ _ H).
  - intros H; injection H as <-. left. exact (int_of_str_raises _ _ I).
Qed.

Lemma step_raises (done rest : list string) (line : string)
      (st st' : PlotChirop5Power.scan) (e : exn) :
  PlotChirop5Power.step (done ++ line :: rest) (Z.of_nat (List.length done)) line st
    = (st', Some e) -> bad_number e.
Proof.
  unfold PlotChirop5Power.step.
  destruct (contains "power_limit_uw:" line) eqn:C; [|discriminate].
  destruct (index_in_range (done ++ line :: rest) (Z.of_nat (List.length done) - 1))
    as [previous ->].
  { rewrite length_app. cbn [List.length]. lia. }
  destruct (contains "long_term" previous); [|discriminate].
  destruct (PlotChirop5Power.limit_value line) eqn:V; [discriminate|].
  intros H; injection H as _ <-. exact (limit_value_raises _ _ C V).
Qed.

Lemma scan_from_raises (done rest : list string)
      (st st' : PlotChirop5Power.scan) (e : exn) :
  PlotChirop5Power.scan_from (done ++ rest) (Z.of_nat (List.length done)) rest st
    = (st', Some e) -> bad_number e.
Proof.
  revert done st; induction rest as [|line rest IH]; intros done st H; [discriminate|].
  cbn [PlotChirop5Power.scan_from] in H.
  destruct (PlotChirop5Power.step (done ++ line :: rest) (Z.of_nat (List.length done)) line st)
    as [st1 [e1|]] eqn:S.
  - injection H as _ <-. exact (step_raises _ _ _ _ _ _ S).
  - apply (IH (done ++ [line]) st1).
    rewrite <- app_assoc, length_app. cbn [app List.length].
    replace (Z.of_nat (List.length done + 1)) with (Z.of_nat (List.length done) + 1)%Z by lia.
    exact H.
Qed.

Lemma window_value_raises (line : string) (e : exn) :
  contains "time_window_us:" line = true ->
  window_value line = Raises e -> e = ValueError.
Proof.
  intros C. unfold window_value.
  destruct (field_after_colon "time_window_us:" line) as [f ->];
    [cbn; tauto | exact C |].
  cbn [bind]. apply int_of_str_raises.
Qed.

Lemma scan_lines_raises (lines : list string) (st st' : scan) (e : exn) :
  scan_lines lines st = (st', Exception e) -> bad_number e.
Proof.
  revert st; induction lines as [|line rest IH]; intros st H; [discriminate|].
  cbn [scan_lines] in H.
  destruct (contains "name: package-0" line); [exact (IH _ H)|].
  destruct (in_package st && contains "name: long_term" line); [exact (IH _ H)|].
  destruct (found_long_term st && contains "time_window_us:" line) eqn:T;
    [|exact (IH _ H)].
  apply andb_true_iff in T as [_ T].
  destruct (window_value line) as [us|e1] eqn:W.
  - destruct (int_truediv us 1000%float) eqn:D; [discriminate|].
    injection H as _ <-. right. exact (int_truediv_raises _ _ _ D).
  - injection H as _ <-. left. exact (window_value_raises _ _ T W).
Qed.

(** X3.  Once a config file is open, the only exceptions either parser
    can meet, and so warn about, are those of a number that cannot be
    read: [ValueError] for text that is not an integer and
    [OverflowError] for an integer too large for a double.  The look at
    the previous line and the field after the colon never fail. *)
Theorem config_warnings_are_bad_numbers (lines : list string) (e : exn) :
  (forall i, PlotChirop5Power.load_config_info (Some lines)
             = (i, [PlotChirop5Power.Warning e]) -> bad_number e)
  /\ (forall i, load_timewindow_info (Some lines) = (i, [Warning e]) -> bad_number e).
Proof.
  split; intros i H.
  - unfold PlotChirop5Power.load_config_info in H.
    destruct (PlotChirop5Power.scan_from lines 0 lines PlotChirop5Power.start)
      as [st [e'|]] eqn:S; [|discriminate].
    injection H as _ <-.
    exact (scan_from_raises [] lines _ _ _ S).
  - unfold load_timewindow_info in H.
    destruct (scan_lines lines start) as [st en] eqn:S.
    destruct en as [| |e'];
      try (exfalso; injection H as _ R; unfold report in R;
           destruct (time_window_us (found st)) as [u|];
           [destruct (u =? 0)%Z|]; discriminate).
    injection H as _ <-. exact (scan_lines_raises _ _ _ _ S).
Qed.

(** The theorem on a file whose limit is not a number. *)
Lemma config_warnings_are_bad_numbers_witness : bad_number ValueError.
Proof.
  exact (proj1 (config_warnings_are_bad_numbers
                  ["name: package-0"; "  name: long_term"; "  power_limit_uw: unknown"]
                  ValueError) _ eq_refl).
Defined.

(** *** First match wins *)

Lemma store_latched (value : float) (st : PlotChirop5Power.scan) :
  (forall v, PlotChirop5Power.package_limit (PlotChirop5Power.found st) = Some v ->
             PlotChirop5Power.package_limit
               (PlotChirop5Power.found (PlotChirop5Power.store value st)) = Some v)
  /\ (forall v, PlotChirop5Power.dram_limit (PlotChirop5Power.found st) = Some v ->
                PlotChirop5Power.dram_limit
                  (PlotChirop5Power.found (PlotChirop5Power.store value st)) = Some v).
Proof.
  unfold PlotChirop5Power.store.
  destruct st as [z d [p q]]. cbn [PlotChirop5Power.found PlotChirop5Power.in_dram
    PlotChirop5Power.current_zone PlotChirop5Power.package_limit
    PlotChirop5Power.dram_limit].
  split; intros v H; subst.
  - destruct (d && PlotChirop5Power.absent q); [reflexivity|].
    rewrite andb_false_r. reflexivity.
  - cbn [PlotChirop5Power.absent]. rewrite andb_false_r.
    destruct (PlotChirop5Power.is_package z && PlotChirop5Power.absent p); reflexivity.
Qed.

Lemma enter_zone_found (line : string) (st : PlotChirop5Power.scan) :
  PlotChirop5Power.found (PlotChirop5Power.enter_zone line st) = PlotChirop5Power.found st.
Proof.
  unfold PlotChirop5Power.enter_zone.
  destruct (contains "name: package-" line); [reflexivity|].
  destruct (contains "name: dram" line); reflexivity.
Qed.

Lemma step_latched (lines : list string) (i : Z) (line : string)
      (st : PlotChirop5Power.scan) :
  (forall v, PlotChirop5Power.package_limit (PlotChirop5Power.found st) = Some v ->
             PlotChirop5Power.package_limit
               (PlotChirop5Power.found (fst (PlotChirop5Power.step lines i line st))) = Some v)
  /\ (forall v, PlotChirop5Power.dram_limit (PlotChirop5Power.found st) = Some v ->
                PlotChirop5Power.dram_limit
                  (PlotChirop5Power.found (fst (PlotChirop5Power.step lines i line st))) = Some v).
Proof.
  unfold PlotChirop5Power.step.
  pose proof (enter_zone_found line st) as Z.
  pose proof (store_latched) as L.
  destruct (contains "power_limit_uw:" line);
    [|cbn [fst]; rewrite Z; split; auto].
  destruct (index lines (i - 1)) as [previous|];
    [|cbn [fst]; rewrite Z; split; auto].
  destruct (contains "long_term" previous);
    [|cbn [fst]; rewrite Z; split; auto].
  destruct (PlotChirop5Power.limit_value line) as [value|];
    [|cbn [fst]; rewrite Z; split; auto].
  cbn [fst]. destruct (L value (PlotChirop5Power.enter_zone line st)) as [L1 L2].
  rewrite Z in L1, L2. split; assumption.
Qed.

Lemma scan_from_latched (lines rest : list string) (i : Z) (st : PlotChirop5Power.scan) :
  (forall v, PlotChirop5Power.package_limit (PlotChirop5Power.found st) = Some v ->
             PlotChirop5Power.package_limit
               (PlotChirop5Power.found (fst (PlotChirop5Power.scan_from lines i rest st)))
             = Some v)
  /\ (forall v, PlotChirop5Power.dram_limit (PlotChirop5Power.found st) = Some v ->
                PlotChirop5Power.dram_limit
                  (PlotChirop5Power.found (fst (PlotChirop5Power.scan_from lines i rest st)))
                = Some v).
Proof.
  revert i st; induction rest as [|line rest IH]; intros i st; [split; auto|].
  cbn [PlotChirop5Power.scan_from].
  destruct (step_latched lines i line st) as [S1 S2].
  destruct (PlotChirop5Power.step lines i line st) as [st1 [e|]]; cbn [fst] in *.
  - split; assumption.
  - destruct (IH (i + 1)%Z st1) as [I1 I2]. split; intros v H; auto.
Qed.

Lemma scan_from_app (lines pre post : list string) (i : Z) (st : PlotChirop5Power.scan) :
  PlotChirop5Power.scan_from lines i (pre ++ post) st =
  match PlotChirop5Power.scan_from lines i pre st with
  | (st', None) =>
      PlotChirop5Power.scan_from lines (i + Z.of_nat (List.length pre)) post st'
  | r => r
  end.
Proof.
  revert i st; induction pre as [|line pre IH]; intros i st.
  - cbn [app PlotChirop5Power.scan_from List.length]. rewrite Z.add_0_r. reflexivity.
  - cbn [app PlotChirop5Power.scan_from List.length].
    destruct (PlotChirop5Power.step lines i line st) as [st1 [e|]]; [reflexivity|].
    rewrite IH.
    replace (i + 1 + Z.of_nat (List.length pre))%Z
      with (i + Z.of_nat (S (List.length pre)))%Z by lia.
    reflexivity.
Qed.

(** X4.  First match wins in [load_config_info]: a limit stored while
    the first lines of a file are read is the one returned, whatever
    the rest of the file holds, another limit of the same kind, a
    malformed one, or nothing. *)
Theorem first_limit_wins (pre post : list string) (st : PlotChirop5Power.scan) :
  PlotChirop5Power.scan_from (pre ++ post) 0 pre PlotChirop5Power.start = (st, None) ->
  (forall v, PlotChirop5Power.package_limit (PlotChirop5Power.found st) = Some v ->
             PlotChirop5Power.package_limit
               (fst (PlotChirop5Power.load_config_info (Some (pre ++ post)))) = Some v)
  /\ (forall v, PlotChirop5Power.dram_limit (PlotChirop5Power.found st) = Some v ->
                PlotChirop5Power.dram_limit
                  (fst (PlotChirop5Power.load_config_info (Some (pre ++ post)))) = Some v).
Proof.
  intros H.
  assert (E : fst (PlotChirop5Power.load_config_info (Some (pre ++ post)))
              = PlotChirop5Power.found
                  (fst (PlotChirop5Power.scan_from (pre ++ post)
                          (0 + Z.of_nat (List.length pre)) post st))).
  { unfold PlotChirop5Power.load_config_info. rewrite scan_from_app, H.
    destruct (PlotChirop5Power.scan_from _ _ post st) as [st' [e|]]; reflexivity. }
  rewrite E. apply scan_from_latched.
Qed.

(** The theorem on two package zones: the limit of the first is
    returned. *)
Lemma first_limit_wins_witness :
  PlotChirop5Power.package_limit
    (fst (PlotChirop5Power.load_config_info (Some two_packages))) = Some 15%float.
Proof.
  refine (proj1 (first_limit_wins (firstn 3 two_packages) (skipn 3 two_packages)
                   _ _) _ _).
  - vm_compute. reflexivity.
  - reflexivity.
Defined.

(** *** Limits belong to zones *)

Lemma step_without_dram (lines : list string) (i : Z) (line : string)
      (st : PlotChirop5Power.scan) :
  contains "name: dram" line = false ->
  PlotChirop5Power.in_dram st = false ->
  PlotChirop5Power.dram_limit (PlotChirop5Power.found st) = None ->
  PlotChirop5Power.in_dram (fst (PlotChirop5Power.step lines i line st)) = false
  /\ PlotChirop5Power.dram_limit
       (PlotChirop5Power.found (fst (PlotChirop5Power.step lines i line st))) = None.
Proof.
  intros C D L.
  assert (Z : PlotChirop5Power.in_dram (PlotChirop5Power.enter_zone line st) = false).
  { unfold PlotChirop5Power.enter_zone. rewrite C.
    destruct (contains "name: package-" line); [reflexivity | exact D]. }
  pose proof (enter_zone_found line st) as F.
  unfold PlotChirop5Power.step.
  destruct (contains "power_limit_uw:" line);
    [|cbn [fst]; rewrite F; split; assumption].
  destruct (index lines (i - 1)) as [previous|];
    [|cbn [fst]; rewrite F; split; assumption].
  destruct (contains "long_term" previous);
    [|cbn [fst]; rewrite F; split; assumption].
  destruct (PlotChirop5Power.limit_value line) as [value|];
    [|cbn [fst]; rewrite F; split; assumption].
  cbn [fst]. unfold PlotChirop5Power.store. rewrite Z. cbn [andb].
  destruct (PlotChirop5Power.is_package _ && _);
    cbn [PlotChirop5Power.in_dram PlotChirop5Power.found PlotChirop5Power.dram_limit];
    rewrite ?F; split; first [assumption | reflexivity].
Qed.

Lemma scan_without_dram (lines rest : list string) (i : Z) (st : PlotChirop5Power.scan) :
  Forall (fun line => contains "name: dram" line = false) rest ->
  PlotChirop5Power.in_dram st = false ->
  PlotChirop5Power.dram_limit (PlotChirop5Power.found st) = None ->
  PlotChirop5Power.dram_limit
    (PlotChirop5Power.found (fst (PlotChirop5Power.scan_from lines i rest st))) = None.
Proof.
  intros H; revert i st; induction H as [|line rest C _ IH]; intros i st D L; [exact L|].
  cbn [PlotChirop5Power.scan_from].
  destruct (step_without_dram lines i line st C D L) as [D1 L1].
  destruct (PlotChirop5Power.step lines i line st) as [st1 [e|]]; cbn [fst] in *;
    [exact L1 | apply IH; assumption].
Qed.

Lemma step_without_package (lines : list string) (i : Z) (line : string)
      (st : PlotChirop5Power.scan) :
  contains "name: package-" line = false ->
  PlotChirop5Power.is_package (PlotChirop5Power.current_zone st) = false ->
  PlotChirop5Power.package_limit (PlotChirop5Power.found st) = None ->
  PlotChirop5Power.is_package
    (PlotChirop5Power.current_zone (fst (PlotChirop5Power.step lines i line st))) = false
  /\ PlotChirop5Power.package_limit
       (PlotChirop5Power.found (fst (PlotChirop5Power.step lines i line st))) = None.
Proof.
  intros C D L.
  assert (Z : PlotChirop5Power.is_package
                (PlotChirop5Power.current_zone (PlotChirop5Power.enter_zone line st)) = false).
  { unfold PlotChirop5Power.enter_zone. rewrite C.
    destruct (contains "name: dram" line); [reflexivity | exact D]. }
  pose proof (enter_zone_found line st) as F.
  unfold PlotChirop5Power.step.
  destruct (contains "power_limit_uw:" line);
    [|cbn [fst]; rewrite F; split; assumption].
  destruct (index lines (i - 1)) as [previous|];
    [|cbn [fst]; rewrite F; split; assumption].
  destruct (contains "long_term" previous);
    [|cbn [fst]; rewrite F; split; assumption].
  destruct (PlotChirop5Power.limit_value line) as [value|];
    [|cbn [fst]; rewrite F; split; assumption].
  cbn [fst]. unfold PlotChirop5Power.store. rewrite Z. cbn [andb].
  destruct (PlotChirop5Power.in_dram _ && _);
    cbn [PlotChirop5Power.current_zone PlotChirop5Power.found
         PlotChirop5Power.package_limit];
    rewrite ?F; split; first [assumption | reflexivity].
Qed.

Lemma scan_without_package (lines rest : list string) (i : Z) (st : PlotChirop5Power.scan) :
  Forall (fun line => contains "name: package-" line = false) rest ->
  PlotChirop5Power.is_package (PlotChirop5Power.current_zone st) = false ->
  PlotChirop5Power.package_limit (PlotChirop5Power.found st) = None ->
  PlotChirop5Power.package_limit
    (PlotChirop5Power.found (fst (PlotChirop5Power.scan_from lines i rest st))) = None.
Proof.
  intros H; revert i st; induction H as [|line rest C _ IH]; intros i st D L; [exact L|].
  cbn [PlotChirop5Power.scan_from].
  destruct (step_without_package lines i line st C D L) as [D1 L1].
  destruct (PlotChirop5Power.step lines i line st) as [st1 [e|]]; cbn [fst] in *;
    [exact L1 | apply IH; assumption].
Qed.

Lemma load_config_info_found (lines : list string) :
  fst (PlotChirop5Power.load_config_info (Some lines))
  = PlotChirop5Power.found
      (fst (PlotChirop5Power.scan_from lines 0 lines PlotChirop5Power.start)).
Proof.
  unfold PlotChirop5Power.load_config_info.
  destruct (PlotChirop5Power.scan_from lines 0 lines PlotChirop5Power.start)
    as [st [e|]]; reflexivity.
Qed.

(** X5.  A limit is only ever stored for a zone whose header has been
    read: a file with no line containing [name: dram] gives no DRAM
    limit, and a file with no line containing [name: package-] gives no
    package limit, whatever [power_limit_uw:] lines it holds. *)
Theorem no_zone_header_no_limit (lines : list string) :
  (Forall (fun line => contains "name: dram" line = false) lines ->
   PlotChirop5Power.dram_limit (fst (PlotChirop5Power.load_config_info (Some lines)))
   = None)
  /\ (Forall (fun line => contains "name: package-" line = false) lines ->
      PlotChirop5Power.package_limit (fst (PlotChirop5Power.load_config_info (Some lines)))
      = None).
Proof.
  rewrite load_config_info_found. split; intros H.
  - apply scan_without_dram; [exact H | reflexivity | reflexivity].
  - apply scan_without_package; [exact H | reflexivity | reflexivity].
Qed.

(** The theorem on a file with a limit outside any zone. *)
Lemma no_zone_header_no_limit_witness :
  PlotChirop5Power.package_limit
    (fst (PlotChirop5Power.load_config_info
            (Some ["  name: long_term"; "  power_limit_uw: 15000000"]))) = None.
Proof.
  refine (proj2 (no_zone_header_no_limit
                   ["  name: long_term"; "  power_limit_uw: 15000000"]) _).
  repeat constructor.
Defined.

(** ** More on the time-window scan *)

Lemma run_never_takes (marker : string) (s : TimeWindowMachine.state)
      (lines : list string) :
  (marker = "name: package-0" /\ s = TimeWindowMachine.Outside
   \/ marker = "name: long_term" /\ s <> TimeWindowMachine.FoundLongTerm
   \/ marker = "time_window_us:") ->
  Forall (fun line => contains marker line = false) lines ->
  TimeWindowMachine.run s lines = None.
Proof.
  intros M H; revert s M; induction H as [|line rest C _ IH]; intros s M; [reflexivity|].
  cbn [TimeWindowMachine.run]. unfold TimeWindowMachine.react.
  destruct M as [[-> ->]|[[-> N]| ->]].
  - rewrite C. apply IH. left; split; reflexivity.
  - destruct (contains "name: package-0" line).
    + apply IH. right; left. split; [reflexivity|]. destruct s; congruence.
    + destruct s; rewrite ?C; try (contradiction N; reflexivity);
        apply IH; right; left; split; try reflexivity; discriminate.
  - destruct (contains "name: package-0" line); [apply IH; right; right; reflexivity|].
    destruct s; rewrite ?C;
      repeat match goal with |- context [if ?b then _ else _] => destruct b end;
      apply IH; right; right; reflexivity.
Qed.

Lemma load_timewindow_info_not_found (lines : list string) :
  TimeWindowMachine.run TimeWindowMachine.Outside lines = None ->
  load_timewindow_info (Some lines)
  = ({| time_window_us := None; time_window_ms := None |}, [NotFound]).
Proof.
  intros R.
  pose proof (scan_lines_machine lines start ltac:(intros H'; discriminate)) as M.
  change (machine_state start) with TimeWindowMachine.Outside in M.
  rewrite R in M. unfold load_timewindow_info.
  destruct (scan_lines lines start) as [st en]. cbn [fst snd] in M.
  injection M as -> ->. reflexivity.
Qed.

(** X6.  [load_timewindow_info] needs all three markers: on a file in
    which no line contains [name: package-0], or none contains
    [name: long_term], or none contains [time_window_us:], it returns
    both fields absent and reports the time window as not found,
    without a warning. *)
Theorem time_window_needs_three_markers (lines : list string) (marker : string) :
  marker = "name: package-0" \/ marker = "name: long_term"
  \/ marker = "time_window_us:" ->
  Forall (fun line => contains marker line = false) lines ->
  load_timewindow_info (Some lines)
  = ({| time_window_us := None; time_window_ms := None |}, [NotFound]).
Proof.
  intros M H. apply load_timewindow_info_not_found.
  apply (run_never_takes marker); [|exact H].
  destruct M as [->|[->| ->]].
  - left; split; reflexivity.
  - right; left; split; [reflexivity | discriminate].
  - right; right; reflexivity.
Qed.

(** The theorem on a file whose only package is [package-1]. *)
Lemma time_window_needs_three_markers_witness :
  load_timewindow_info
    (Some ["name: package-1"; "  name: long_term"; "  time_window_us: 8000"])
  = ({| time_window_us := None; time_window_ms := None |}, [NotFound]).
Proof.
  refine (time_window_needs_three_markers _ "name: package-0" _ _).
  - left; reflexivity.
  - repeat constructor.
Defined.

(** X7.  The report of [load_timewindow_info] and the fields it returns
    can disagree in one case only, a window of [0]: a report of a time
    window comes with that window, non-zero, and its milliseconds in
    the fields; a report of no window comes with both fields absent or
    with the fields [0] and [0.0]. *)
Theorem time_window_report_and_fields (lines : list string) :
  match load_timewindow_info (Some lines) with
  | (i, [TimeWindow us ms]) =>
      us <> 0%Z /\ time_window_us i = Some us /\ time_window_ms i = ms
      /\ ms = value_of (int_truediv us 1000%float) /\ ms <> None
  | (i, [NotFound]) =>
      i = {| time_window_us := None; time_window_ms := None |}
      \/ i = {| time_window_us := Some 0%Z; time_window_ms := Some 0%float |}
  | (_, [Warning _]) => True
  | _ => False
  end.
Proof.
  pose proof (scan_lines_machine lines start ltac:(intros H'; discriminate)) as M.
  unfold load_timewindow_info.
  destruct (scan_lines lines start) as [st en]. cbn [fst snd] in M.
  destruct (TimeWindowMachine.run (machine_state start) lines) as [line|].
  - unfold take_line in M.
    destruct (window_value line) as [us|e]; [|injection M as -> ->; exact I].
    destruct (int_truediv us 1000%float) as [ms|e] eqn:D;
      injection M as -> ->; [|exact I].
    unfold report. cbn [time_window_us time_window_ms].
    destruct (Z.eqb_spec us 0) as [->|N].
    + right. f_equal. vm_compute in D. injection D as <-. reflexivity.
    + cbn [time_window_us time_window_ms]. repeat split; try assumption.
      * rewrite D. reflexivity.
      * discriminate.
  - injection M as -> ->. left. reflexivity.
Qed.

Example zero_window_is_reported_missing :
  load_timewindow_info
    (Some ["name: package-0"; "name: long_term"; "time_window_us: 0"])
  = ({| time_window_us := Some 0%Z; time_window_ms := Some 0%float |}, [NotFound]).
Proof. vm_compute. reflexivity. Qed.

(** ** More on [load_chirop5_data] *)

Lemma sfabs_not_below_zero (s : spec_float) :
  SFltb (SFabs s) (S754_zero false) = false.
Proof. destruct s as [| | |sg m e]; reflexivity. Qed.

Lemma sfabs_idempotent (s : spec_float) : SFabs (SFabs s) = SFabs s.
Proof. destruct s; reflexivity. Qed.

Lemma float_abs_not_negative (f : float) : (abs f <? 0)%float = false.
Proof.
  rewrite ltb_spec, abs_spec.
  replace (Prim2SF 0%float) with (S754_zero false) by reflexivity.
  apply sfabs_not_below_zero.
Qed.

Lemma float_abs_idempotent (f : float) : abs (abs f) = abs f.
Proof.
  assert (E : Prim2SF (abs (abs f)) = Prim2SF (abs f)).
  { rewrite (abs_spec (abs f)), !(abs_spec f). apply sfabs_idempotent. }
  etransitivity; [symmetry; apply SF2Prim_Prim2SF|].
  rewrite E. apply SF2Prim_Prim2SF.
Qed.

(** An absolute value is not negative and is its own absolute value. *)
Lemma py_abs_result (v a : pyval) :
  py_abs v = Returns a -> not_negative a /\ py_abs a = Returns a.
Proof.
  destruct v as [|b|z|f| | |]; cbn [py_abs]; try discriminate;
    intros H; injection H as <-; cbn [not_negative py_abs].
  - destruct b; split; [lia | reflexivity | lia | reflexivity].
  - split; [apply Z.abs_nonneg | rewrite Z.abs_idemp; reflexivity].
  - split; [apply float_abs_not_negative | rewrite float_abs_idempotent; reflexivity].
Qed.

Section Chirop5More.
Variable datetime : Type.
Variable fromisoformat : string -> option datetime.

Lemma load_entry_returns (acc acc' : list datetime * list pyval) (entry : pyval) :
  PlotChirop5Power.load_entry datetime fromisoformat acc entry = Returns acc' ->
  loadable fromisoformat entry
  /\ (acc' = acc
      \/ exists ts a, acc' = (fst acc ++ [ts], snd acc ++ [a])
                      /\ not_negative a /\ py_abs a = Returns a).
Proof.
  unfold PlotChirop5Power.load_entry, loadable, is_chirop5, pair_of, has_key, field, getitem.
  destruct entry as [| | | | | |kvs]; try discriminate.
  destruct (assoc "device_id" kvs) as [d|]; [|discriminate].
  cbn [bind]. destruct (eq_str d "chirop-5").
  - destruct (assoc "timestamp" kvs) as [t|]; [|discriminate]. cbn [bind].
    unfold PlotChirop5Power.parse_timestamp.
    destruct t as [| | | |s| |]; try discriminate.
    destruct (fromisoformat s) as [ts|] eqn:F; [|discriminate]. cbn [bind].
    destruct (assoc "value" kvs) as [v|]; [|discriminate]. cbn [bind].
    destruct (py_abs v) as [a|] eqn:A; [|discriminate]. cbn [bind].
    intros H; injection H as <-.
    split.
    + split; [reflexivity|]. intros _. exists (ts, a), s. repeat split; assumption.
    + right. exists ts, a. split; [reflexivity | exact (py_abs_result _ _ A)].
  - intros H; injection H as <-. split; [|left; reflexivity].
    split; [reflexivity | discriminate].
Qed.

Lemma load_loop_returns (entries : list pyval) (acc acc' : list datetime * list pyval) :
  PlotChirop5Power.load_loop datetime fromisoformat entries acc = Returns acc' ->
  Forall (loadable fromisoformat) entries
  /\ exists ts vs, acc' = (fst acc ++ ts, snd acc ++ vs)
                   /\ List.length ts = List.length vs
                   /\ Forall (fun a => not_negative a /\ py_abs a = Returns a) vs.
Proof.
  revert acc; induction entries as [|entry entries IH]; intros acc H.
  - injection H as <-. split; [constructor|]. exists [], [].
    rewrite !app_nil_r. destruct acc. repeat split. constructor.
  - cbn [PlotChirop5Power.load_loop] in H.
    destruct (PlotChirop5Power.load_entry datetime fromisoformat acc entry)
      as [acc1|] eqn:E; [|discriminate].
    cbn [bind] in H.
    destruct (load_entry_returns _ _ _ E) as [L C].
    destruct (IH _ H) as (F & ts & vs & -> & Len & V).
    split; [constructor; assumption|].
    destruct C as [->|(t & a & -> & Na)].
    + exists ts, vs. repeat split; assumption.
    + exists (t :: ts), (a :: vs). cbn [fst snd]. rewrite <- !app_assoc.
      repeat split; [cbn [List.length]; congruence | constructor; assumption].
Qed.

(** X8.  No value returned by [load_chirop5_data] is negative: each is
    an integer at least [0] or a float not below [0.0], and is its own
    absolute value; and there are as many values as timestamps. *)
Theorem loaded_power_is_not_negative (data : pyval)
        (timestamps : list datetime) (power_values : list pyval) :
  PlotChirop5Power.load_chirop5_data datetime fromisoformat data
    = Returns (timestamps, power_values) ->
  Forall (fun v => not_negative v /\ py_abs v = Returns v) power_values
  /\ List.length timestamps = List.length power_values.
Proof.
  unfold PlotChirop5Power.load_chirop5_data. intros H.
  destruct (iter data) as [entries|]; [|discriminate]. cbn [bind] in H.
  destruct (load_loop_returns _ _ _ H) as (_ & ts & vs & E & L & V).
  cbn [fst snd app] in E. injection E as -> ->. split; assumption.
Qed.

(** X9.  [load_chirop5_data] returns on an array exactly when every
    entry can be processed, the entries of other devices needing a
    [device_id] only: one entry without [device_id], or one entry of
    ["chirop-5"] whose timestamp does not parse or whose value is not a
    number, anywhere in the array, and nothing is returned. *)
Theorem load_chirop5_data_all_or_nothing (entries : list pyval) :
  (exists result,
     PlotChirop5Power.load_chirop5_data datetime fromisoformat (PList entries)
     = Returns result)
  <-> Forall (loadable fromisoformat) entries.
Proof.
  unfold PlotChirop5Power.load_chirop5_data. cbn [iter bind]. split.
  - intros [result H]. exact (proj1 (load_loop_returns _ _ _ H)).
  - intros H. destruct (load_loop_spec datetime fromisoformat entries ([], []) H)
      as (ts & vs & E & _). eexists. exact E.
Qed.
End Chirop5More.

(** The first theorem on the example of the specification. *)
Lemma loaded_power_is_not_negative_witness :
  Forall (fun v => not_negative v /\ py_abs v = Returns v)
         [PFloat 42.5%float; PFloat 10%float].
Proof.
  exact (proj1 (loaded_power_is_not_negative string Some example_records
                  ["2024-01-01T00:00:00"; "2024-01-01T00:00:01"]
                  [PFloat 42.5%float; PFloat 10%float] eq_refl)).
Defined.

Example load_chirop5_data_missing_value :
  PlotChirop5Power.load_chirop5_data string Some
    (PList [PDict [("device_id", PStr "other")];
            PDict [("device_id", PStr "chirop-5");
                   ("timestamp", PStr "2024-01-01T00:00:00")]])
  = Raises KeyError.
Proof. reflexivity. Qed.

(** ** A whole run of [extract_metrics_to_csv.py] *)

Lemma kept_groupable_key (r : pyval) :
  groupable r = true -> kept r = true ->
  exists k, key_of (field r "device_id") = Returns k /\ device_is k r = true.
Proof.
  unfold groupable, hashable, device_is. intros G K. rewrite K in G.
  apply andb_prop in G as [_ G]. cbn [negb orb] in G.
  destruct (key_of (field r "device_id")) as [k|e]; [|discriminate].
  exists k. split; [reflexivity|apply key_eqb_refl].
Qed.

Lemma sorted_nonempty {A : Type} (key : A -> string) (l : list A) :
  l <> [] -> PySort.sorted key l <> [].
Proof.
  intros N E. apply N.
  pose proof (sorted_perm key l) as P. rewrite E in P.
  apply Permutation_sym, Permutation_nil in P. exact P.
Qed.

Lemma grouped_readings (records : list pyval) (g : listdict ExtractMetrics.row) :
  forallb (fun r => negb (kept r) || float_reading r) records = true ->
  (forall k, series g k
             = map row_of (filter (fun r => kept r && device_is k r) records)) ->
  NoDup (keys g) ->
  string_timestamps g /\ float_values g.
Proof.
  intros F S N.
  assert (R : forall k rows r, In (k, rows) g -> In r rows ->
                exists rec, r = row_of rec /\ float_reading rec = true).
  { intros k rows r I Ir.
    rewrite <- (series_of_entry g k rows N I), S in Ir.
    apply in_map_iff in Ir as [rec [<- Irec]].
    apply filter_In in Irec as [Irec K].
    apply andb_prop in K as [K _].
    rewrite forallb_forall in F. specialize (F rec Irec).
    rewrite K in F. exists rec. split; [reflexivity|exact F]. }
  split; intros k rows r I Ir; destruct (R k rows r I Ir) as [rec [-> Frec]];
    apply andb_prop in Frec as [Ft Fv]; cbn [row_of ExtractMetrics.timestamp
                                              ExtractMetrics.power_watt].
  - exact Ft.
  - destruct (field rec "value"); try discriminate. eexists; reflexivity.
Qed.



(** The run of the example: device [b], read first, has the first file;
    the rows of [a] are in time order. *)
Example main_two_devices :
  fmap (option_map (fun w => map (fun f => (ExtractMetrics.device f,
                                            map time_of (ExtractMetrics.rows f)))
                                 (ExtractMetrics.files w)))
       (ExtractMetrics.main (ExtractMetrics.Json (PList two_devices)))
  = Returns (Some [(KStr "b", ["2024-01-01T00:00:03"]);
                   (KStr "a", ["2024-01-01T00:00:01"; "2024-01-01T00:00:02"])]).
Proof. reflexivity. Qed.

(** ** The two converters side by side *)

Lemma kept_has_fields (kvs : list (string * pyval)) :
  kept (PDict kvs) = true -> kept_simple (PDict kvs) = true.
Proof.
  unfold kept, kept_simple, ExtractMetrics.complete, field, has_key.
  destruct (assoc "device_id" kvs); [|discriminate].
  destruct (assoc "timestamp" kvs);
    [|rewrite andb_false_r; discriminate].
  destruct (assoc "value" kvs); [reflexivity|].
  rewrite andb_false_r. discriminate.
Qed.

Lemma groupings_agree (records : list pyval) (g : listdict ExtractMetrics.row)
      (w : list pyval) :
  forallb is_dict records = true ->
  (forall r, In r records -> kept_simple r = true -> kept r = true) ->
  JsonToCsvSimple.group_loop records g
  = fmap fst (ExtractMetrics.group_loop records (g, w)).
Proof.
  revert g w. induction records as [|r records IH]; intros g w D K; [reflexivity|].
  cbn [forallb] in D. apply andb_prop in D as [Dr D].
  destruct r as [| | | | | |kvs]; try discriminate.
  cbn [JsonToCsvSimple.group_loop ExtractMetrics.group_loop].
  rewrite simple_group_record_dict, group_record_dict.
  assert (IH' : forall g w, JsonToCsvSimple.group_loop records g
                            = fmap fst (ExtractMetrics.group_loop records (g, w))).
  { intros g' w'. apply IH; [exact D|]. intros r I. apply K. right. exact I. }
  destruct (kept (PDict kvs)) eqn:Ek.
  - rewrite (kept_has_fields kvs Ek).
    destruct (key_of (field (PDict kvs) "device_id")) as [k|e]; [|reflexivity].
    cbn [bind fst snd]. apply IH'.
  - destruct (kept_simple (PDict kvs)) eqn:Es.
    + rewrite (K (PDict kvs) (or_introl eq_refl) Es) in Ek. discriminate.
    + cbn [bind fst snd]. apply IH'.
Qed.

Lemma write_csv_files_of_write (d : listdict ExtractMetrics.row)
      (fs : list ExtractMetrics.csv_file) :
  JsonToCsvSimple.write d = Some fs ->
  exists w later,
    ExtractMetrics.write_csv_files d = Some w
    /\ fs = ExtractMetrics.files w ++ later
    /\ (ExtractMetrics.raised_in_summary w = None -> later = []).
Proof.
  revert fs. induction d as [|[k rows] d IH]; intros fs H.
  - injection H as <-. eexists _, []. repeat split.
  - cbn [JsonToCsvSimple.write] in H.
    destruct (ExtractMetrics.sort_records rows) as [sorted|] eqn:E; [|discriminate].
    destruct (JsonToCsvSimple.write d) as [fs'|] eqn:E'; [|discriminate].
    injection H as <-.
    destruct (IH fs' eq_refl) as [w [later [W [-> L]]]].
    cbn [ExtractMetrics.write_csv_files]. rewrite E.
    destruct (ExtractMetrics.summary_exn sorted) as [e|].
    + eexists _, _. split; [reflexivity|]. split; [reflexivity|].
      cbn [ExtractMetrics.raised_in_summary]. discriminate.
    + rewrite W. eexists _, later. split; [reflexivity|]. split; [reflexivity|].
      exact L.
Qed.

Lemma mains_agree (simple : outcome (listdict ExtractMetrics.row))
      (full : outcome ExtractMetrics.grouping) (fs : list ExtractMetrics.csv_file) :
  simple = fmap fst full ->
  bind simple (fun devices => Returns (JsonToCsvSimple.write devices))
  = Returns (Some fs) ->
  exists w later,
    bind full (fun st => Returns (ExtractMetrics.write_csv_files (fst st)))
    = Returns (Some w)
    /\ fs = ExtractMetrics.files w ++ later
    /\ (ExtractMetrics.raised_in_summary w = None -> later = []).
Proof.
  intros -> M. destruct full as [[g sk]|e]; [|discriminate].
  cbn [fmap bind fst] in M |- *. injection M as M.
  destruct (write_csv_files_of_write g fs M) as [w [later [W [-> L]]]].
  exists w, later. rewrite W. repeat split. exact L.
Qed.

(** X11.  [json_to_csv_simple.py] and [extract_metrics_to_csv.py] on the
    same JSON array of dictionaries in which every record that has the
    three fields has them meaningful (device and timestamp truthy, value
    not null).  The two group alike, exception included.  When the
    simple script writes its files, the full script writes the same
    files in the same order, up to the first device whose summary
    raises; with no such device it writes them all. *)
Theorem simple_and_full_converters_agree (records : list pyval) :
  forallb is_dict records = true ->
  (forall r, In r records -> kept_simple r = true -> kept r = true) ->
  JsonToCsvSimple.group (PList records)
  = fmap fst (ExtractMetrics.extract_and_group_data (PList records))
  /\ forall fs,
       JsonToCsvSimple.main (PList records) = Returns (Some fs) ->
       exists w later,
         ExtractMetrics.main (ExtractMetrics.Json (PList records)) = Returns (Some w)
         /\ fs = ExtractMetrics.files w ++ later
         /\ (ExtractMetrics.raised_in_summary w = None -> later = []).
Proof.
  intros D K.
  pose proof (groupings_agree records [] [] D K) as A.
  split; [exact A|].
  intros fs M. exact (mains_agree _ _ fs A M).
Qed.

Lemma simple_and_full_converters_agree_witness :
  JsonToCsvSimple.group (PList two_devices)
  = fmap fst (ExtractMetrics.extract_and_group_data (PList two_devices)).
Proof.
  refine (proj1 (simple_and_full_converters_agree two_devices eq_refl _)).
  intros r [<-|[<-|[<-|[<-|[]]]]]; vm_compute; intros; congruence.
Defined.

(** Where the two part: a record with an empty timestamp is written by
    the simple script and reported as incomplete by the full one. *)
Example converters_part_on_empty_timestamp :
  let records := [PDict [("device_id", PStr "a"); ("timestamp", PStr "");
                         ("value", PFloat 1%float)]] in
  fmap keys (JsonToCsvSimple.group (PList records)) = Returns [KStr "a"]
  /\ fmap (fun st => keys (fst st))
          (ExtractMetrics.extract_and_group_data (PList records)) = Returns [].
Proof. split; reflexivity. Qed.

(** ** The points loaded for the plots *)

Section PlotFacts.
Context {Timestamp : Type} (to_datetime : pyval -> outcome Timestamp).

Lemma contains_key_setitem (k : pykey) (c : PlotPowerCurves.curve Timestamp)
      (d : PlotPowerCurves.devices Timestamp) :
  PlotPowerCurves.contains_key k (PlotPowerCurves.setitem k c d) = true.
Proof.
  induction d as [|[k' c'] d IH]; cbn [PlotPowerCurves.setitem].
  - cbn. rewrite key_eqb_refl. reflexivity.
  - destruct (key_eqb k' k) eqn:E; cbn [PlotPowerCurves.contains_key existsb fst].
    + rewrite E. reflexivity.
    + rewrite E. exact IH.
Qed.

Lemma contains_key_update (k k' : pykey)
      (f : PlotPowerCurves.curve Timestamp -> PlotPowerCurves.curve Timestamp)
      (d : PlotPowerCurves.devices Timestamp) :
  PlotPowerCurves.contains_key k' (PlotPowerCurves.update k f d)
  = PlotPowerCurves.contains_key k' d.
Proof.
  induction d as [|[k0 c] d IH]; [reflexivity|].
  cbn [PlotPowerCurves.update].
  destruct (key_eqb k0 k); cbn [PlotPowerCurves.contains_key existsb fst];
    [reflexivity|].
  f_equal. exact IH.
Qed.

Lemma lookup_contains_key (k : pykey) (d : PlotPowerCurves.devices Timestamp) :
  PlotPowerCurves.contains_key k d = true ->
  exists c, PlotPowerCurves.lookup k d = Returns c.
Proof.
  induction d as [|[k' c] d IH]; [discriminate|].
  cbn [PlotPowerCurves.contains_key existsb fst PlotPowerCurves.lookup].
  destruct (key_eqb k' k); [intros _; eexists; reflexivity|exact IH].
Qed.

Lemma missing_contains_key (k : pykey) (d : PlotPowerCurves.devices Timestamp) :
  PlotPowerCurves.contains_key k (PlotSimple.missing k d) = true.
Proof.
  unfold PlotSimple.missing.
  destruct (PlotPowerCurves.contains_key k d) eqn:E; [exact E|].
  apply contains_key_setitem.
Qed.

Lemma missing_present (k : pykey) (d : PlotPowerCurves.devices Timestamp) :
  PlotPowerCurves.contains_key k d = true -> PlotSimple.missing k d = d.
Proof. unfold PlotSimple.missing. intros ->. reflexivity. Qed.

Lemma missing_cons (k k' : pykey) (c : PlotPowerCurves.curve Timestamp)
      (d : PlotPowerCurves.devices Timestamp) :
  key_eqb k' k = false ->
  PlotSimple.missing k ((k', c) :: d) = (k', c) :: PlotSimple.missing k d.
Proof.
  intros E. unfold PlotSimple.missing.
  cbn [PlotPowerCurves.contains_key existsb fst PlotPowerCurves.setitem].
  rewrite E. cbn [orb].
  fold (PlotPowerCurves.contains_key k d).
  destruct (PlotPowerCurves.contains_key k d); reflexivity.
Qed.

(** Entering the device when it is new, then extending its two lists,
    adds one point. *)
Lemma update_twice_add_point (k : pykey) (ts : Timestamp) (v : pyval)
      (d : PlotPowerCurves.devices Timestamp) :
  PlotPowerCurves.update k (PlotPowerCurves.append_power v)
    (PlotPowerCurves.update k (PlotPowerCurves.append_timestamp ts)
       (PlotSimple.missing k d))
  = add_point k ts v d.
Proof.
  induction d as [|[k' c] d IH].
  - cbn. rewrite key_eqb_refl. cbn. rewrite key_eqb_refl. reflexivity.
  - destruct (key_eqb k' k) eqn:E.
    + rewrite missing_present
        by (cbn [PlotPowerCurves.contains_key existsb fst]; rewrite E; reflexivity).
      cbn [PlotPowerCurves.update add_point]. rewrite E.
      cbn [PlotPowerCurves.update]. rewrite E. reflexivity.
    + rewrite (missing_cons k k' c d E).
      cbn [PlotPowerCurves.update add_point]. rewrite E.
      cbn [PlotPowerCurves.update]. rewrite E. f_equal. exact IH.
Qed.

Lemma load_record_dict (d : PlotPowerCurves.devices Timestamp)
      (kvs : list (string * pyval)) :
  PlotPowerCurves.load_record to_datetime d (PDict kvs) =
  if kept (PDict kvs) then
    bind (key_of (field (PDict kvs) "device_id")) (fun k =>
    bind (to_datetime (field (PDict kvs) "timestamp")) (fun ts =>
    Returns (add_point k ts (field (PDict kvs) "value") d)))
  else Returns d.
Proof.
  unfold PlotPowerCurves.load_record, kept, field, get. cbn [bind].
  destruct (ExtractMetrics.complete _ _ _); [|reflexivity].
  destruct (key_of _) as [k|e]; [|reflexivity]. cbn [bind].
  fold (PlotSimple.missing k d).
  destruct (lookup_contains_key k _ (missing_contains_key k d)) as [c ->].
  cbn [bind].
  destruct (to_datetime _) as [ts|e]; [|reflexivity]. cbn [bind].
  assert (C : PlotPowerCurves.contains_key k
                (PlotPowerCurves.update k (PlotPowerCurves.append_timestamp ts)
                   (PlotSimple.missing k d)) = true)
    by (rewrite contains_key_update; apply missing_contains_key).
  destruct (lookup_contains_key k _ C) as [c' ->]. cbn [bind].
  rewrite update_twice_add_point. reflexivity.
Qed.

Lemma simple_group_record_points (d : PlotPowerCurves.devices Timestamp)
      (kvs : list (string * pyval)) :
  PlotSimple.group_record to_datetime d (PDict kvs) =
  PlotPowerCurves.load_record to_datetime d (PDict kvs).
Proof.
  rewrite load_record_dict.
  unfold PlotSimple.group_record, kept, field, get. cbn [bind].
  destruct (ExtractMetrics.complete _ _ _); [|reflexivity].
  destruct (key_of _) as [k|e]; [|reflexivity]. cbn [bind].
  destruct (to_datetime _) as [ts|e]; [|reflexivity]. cbn [bind].
  rewrite (missing_present k (PlotPowerCurves.update k _ _))
    by (rewrite contains_key_update; apply missing_contains_key).
  rewrite update_twice_add_point. reflexivity.
Qed.

Lemma load_record_not_dict (d : PlotPowerCurves.devices Timestamp) (r : pyval) :
  is_dict r = false ->
  PlotPowerCurves.load_record to_datetime d r = Raises AttributeError
  /\ PlotSimple.group_record to_datetime d r = Raises AttributeError.
Proof. destruct r; try discriminate; intros _; split; reflexivity. Qed.

Lemma add_point_same_points (d : PlotPowerCurves.devices Timestamp)
      (g : listdict ExtractMetrics.row) (k : pykey) (ts : Timestamp)
      (r : ExtractMetrics.row) :
  same_points to_datetime d g ->
  to_datetime (ExtractMetrics.timestamp r) = Returns ts ->
  same_points to_datetime (add_point k ts (ExtractMetrics.power_watt r) d)
              (append_at k r g).
Proof.
  intros S T. induction S as [|[k1 c] [k2 rows] d g [K [P Q]] S IH].
  - constructor; [|constructor]. split; [reflexivity|].
    split; [reflexivity|]. constructor; [exact T|constructor].
  - cbn [fst snd] in K, P, Q. subst k2.
    cbn [add_point append_at].
    destruct (key_eqb k1 k).
    + constructor; [|exact S]. split; [reflexivity|].
      split; cbn [snd PlotPowerCurves.power_watts PlotPowerCurves.timestamps].
      * rewrite P, map_app. reflexivity.
      * apply Forall2_app; [exact Q|]. constructor; [exact T|constructor].
    + constructor; [|exact IH]. split; [reflexivity|]. split; assumption.
Qed.

Lemma load_loop_same_points (records : list pyval)
      (d d' : PlotPowerCurves.devices Timestamp)
      (g : listdict ExtractMetrics.row) (w : list pyval) :
  PlotPowerCurves.load_loop to_datetime records d = Returns d' ->
  same_points to_datetime d g ->
  exists g' w', ExtractMetrics.group_loop records (g, w) = Returns (g', w')
                /\ same_points to_datetime d' g'.
Proof.
  revert d g w. induction records as [|r records IH]; intros d g w L S.
  - injection L as <-. exists g, w. split; [reflexivity|exact S].
  - cbn [PlotPowerCurves.load_loop ExtractMetrics.group_loop] in L |- *.
    destruct (is_dict r) eqn:D.
    2:{ rewrite (proj1 (load_record_not_dict d r D)) in L. discriminate. }
    destruct r as [| | | | | |kvs]; try discriminate.
    rewrite load_record_dict in L. rewrite group_record_dict.
    destruct (kept (PDict kvs)).
    + destruct (key_of _) as [k|e]; [|discriminate]. cbn [bind] in L |- *.
      destruct (to_datetime _) as [ts|e] eqn:T; [|discriminate]. cbn [bind] in L.
      cbn [fst snd].
      apply (IH _ _ w L).
      apply (add_point_same_points d g k ts (row_of (PDict kvs)) S T).
    + cbn [bind fst snd] in L |- *. apply (IH _ _ _ L S).
Qed.

Lemma same_points_keys (d : PlotPowerCurves.devices Timestamp)
      (g : listdict ExtractMetrics.row) :
  same_points to_datetime d g -> map fst d = keys g.
Proof.
  induction 1 as [|e e' d g [K _] _ IH]; [reflexivity|].
  cbn [map keys]. unfold keys in IH. rewrite K, IH. reflexivity.
Qed.

Lemma same_points_in (d : PlotPowerCurves.devices Timestamp)
      (g : listdict ExtractMetrics.row) (k : pykey)
      (c : PlotPowerCurves.curve Timestamp) :
  same_points to_datetime d g -> In (k, c) d ->
  exists rows, In (k, rows) g /\ points_of to_datetime rows c.
Proof.
  induction 1 as [|[k1 c1] [k2 rows] d g [K P] _ IH]; [intros []|].
  cbn [fst snd] in K, P. subst k2.
  intros [E|I].
  - injection E as -> ->. exists rows. split; [left; reflexivity|exact P].
  - destruct (IH I) as [rows' [I' P']]. exists rows'. split; [right; exact I'|exact P'].
Qed.

(** X12.  The points [load_data_from_json] loads for the plots are the
    rows [extract_and_group_data] groups for the CSV files.  Whenever
    the loader returns, the grouping returns on the same data; both
    have the same devices in the same order; and the curve of each
    device holds one point per grouped row, in the same order, with the
    value as it is and the timestamp converted, so that its two lists
    have the same length. *)
Theorem plotted_points_are_the_grouped_rows (data : pyval)
        (d : PlotPowerCurves.devices Timestamp) :
  PlotPowerCurves.load_data_from_json to_datetime data = Returns d ->
  exists g w,
    ExtractMetrics.extract_and_group_data data = Returns (g, w)
    /\ map fst d = keys g
    /\ forall k c, In (k, c) d ->
         points_of to_datetime (series g k) c
         /\ List.length (PlotPowerCurves.timestamps c)
            = List.length (PlotPowerCurves.power_watts c).
Proof.
  unfold PlotPowerCurves.load_data_from_json, ExtractMetrics.extract_and_group_data.
  destruct (iter data) as [records|e]; [|discriminate]. cbn [bind].
  intros L.
  destruct (load_loop_same_points records [] d [] [] L (Forall2_nil _))
    as [g [w [G S]]].
  exists g, w. split; [exact G|]. split; [exact (same_points_keys d g S)|].
  intros k c I.
  destruct (same_points_in d g k c S I) as [rows [Ig P]].
  destruct (group_loop_invariant records ([], []) (g, w) G (NoDup_nil _) (Forall_nil _))
    as [N _].
  cbn [fst] in N. rewrite (series_of_entry g k rows N Ig).
  split; [exact P|].
  destruct P as [P Q]. rewrite P, length_map.
  symmetry. exact (Forall2_length Q).
Qed.

Lemma load_loop_returns_when (records : list pyval)
      (d : PlotPowerCurves.devices Timestamp) :
  (exists d', PlotPowerCurves.load_loop to_datetime records d = Returns d')
  <-> (forallb groupable records = true
       /\ forall r, In r records -> kept r = true ->
            exists t, to_datetime (field r "timestamp") = Returns t).
Proof.
  revert d. induction records as [|r records IH]; intros d.
  - split; [intros _; split; [reflexivity|intros r []]|intros _; eexists; reflexivity].
  - cbn [PlotPowerCurves.load_loop forallb].
    destruct (is_dict r) eqn:D.
    2:{ rewrite (proj1 (load_record_not_dict d r D)).
        unfold groupable. rewrite D. cbn [andb bind].
        split; [intros [d' H]; discriminate|intros [H _]; discriminate]. }
    destruct r as [| | | | | |kvs]; try discriminate.
    rewrite load_record_dict.
    unfold groupable at 1, hashable. cbn [is_dict andb].
    destruct (kept (PDict kvs)) eqn:K; cbn [negb orb].
    + destruct (key_of (field (PDict kvs) "device_id")) as [k|e]; cbn [bind raised negb].
      2:{ split; [intros [d' H]; discriminate|intros [H _]; discriminate]. }
      destruct (to_datetime (field (PDict kvs) "timestamp")) as [ts|e] eqn:T;
        cbn [bind].
      * rewrite IH. split; intros [G C]; (split; [exact G|]).
        -- intros r [<-|I] Kr; [exists ts; exact T|exact (C r I Kr)].
        -- intros r I. apply C. right. exact I.
      * split; [intros [d' H]; discriminate|].
        intros [_ C]. destruct (C (PDict kvs) (or_introl eq_refl) K) as [t T'].
        rewrite T in T'. discriminate.
    + cbn [bind]. rewrite IH. split; intros [G C]; (split; [exact G|]).
      * intros r [<-|I] Kr; [rewrite K in Kr; discriminate|exact (C r I Kr)].
      * intros r I. apply C. right. exact I.
Qed.

(** X13.  [load_data_from_json] is all or nothing, and asks more than
    the CSV converter: on a JSON array it returns exactly when every
    record is a dictionary, every kept record has a hashable device,
    and [pd.to_datetime] reads the timestamp of every kept record.  One
    kept record with a timestamp that cannot be read and no device is
    plotted. *)
Theorem load_data_from_json_returns_exactly_when (records : list pyval) :
  (exists d, PlotPowerCurves.load_data_from_json to_datetime (PList records)
             = Returns d)
  <-> (forallb groupable records = true
       /\ forall r, In r records -> kept r = true ->
            exists t, to_datetime (field r "timestamp") = Returns t).
Proof. exact (load_loop_returns_when records []). Qed.

Lemma simple_group_loop_points (records : list pyval)
      (d : PlotPowerCurves.devices Timestamp) :
  PlotSimple.group_loop to_datetime records d
  = PlotPowerCurves.load_loop to_datetime records d.
Proof.
  revert d. induction records as [|r records IH]; intros d; [reflexivity|].
  cbn [PlotSimple.group_loop PlotPowerCurves.load_loop].
  assert (E : PlotSimple.group_record to_datetime d r
              = PlotPowerCurves.load_record to_datetime d r).
  { destruct (is_dict r) eqn:D.
    - destruct r; try discriminate. apply simple_group_record_points.
    - destruct (load_record_not_dict d r D) as [-> ->]. reflexivity. }
  rewrite E. destruct (PlotPowerCurves.load_record to_datetime d r); [|reflexivity].
  cbn [bind]. apply IH.
Qed.

(** X14.  [plot_simple.py] and [plot_power_curves.py] load the same
    points from the same data: the [defaultdict] of the one, whose keys
    are entered by being looked up, and the tested dictionary of the
    other end in the same devices, in the same order, with the same two
    lists; and the one raises when the other does, the same exception. *)
Theorem both_plots_load_the_same_points (data : pyval) :
  PlotSimple.group to_datetime data
  = PlotPowerCurves.load_data_from_json to_datetime data.
Proof.
  unfold PlotSimple.group, PlotPowerCurves.load_data_from_json.
  destruct (iter data) as [records|e]; [|reflexivity].
  cbn [bind]. apply simple_group_loop_points.
Qed.

End PlotFacts.

Lemma plotted_points_are_the_grouped_rows_witness :
  exists g w,
    ExtractMetrics.extract_and_group_data (PList two_devices) = Returns (g, w)
    /\ map fst two_curves = keys g
    /\ forall k c, In (k, c) two_curves ->
         points_of read_string (series g k) c
         /\ List.length (PlotPowerCurves.timestamps c)
            = List.length (PlotPowerCurves.power_watts c).
Proof.
  apply (plotted_points_are_the_grouped_rows read_string (PList two_devices) two_curves).
  reflexivity.
Defined.

(** With a conversion that reads strings only, one timestamp that is
    a number: the converter still groups the records, the loader
    returns nothing. *)
Example one_bad_timestamp_stops_the_plot :
  let records := [PDict [("device_id", PStr "a"); ("timestamp", PStr "t1");
                         ("value", PInt 1)];
                  PDict [("device_id", PStr "a"); ("timestamp", PInt 1700000000);
                         ("value", PInt 2)]] in
  PlotPowerCurves.load_data_from_json read_string (PList records) = Raises TypeError
  /\ fmap (fun st => map (fun e => List.length (snd e)) (fst st))
          (ExtractMetrics.extract_and_group_data (PList records)) = Returns [2].
Proof. split; reflexivity. Qed.

(** ** The files of a directory *)

Lemma filter_all_equal (t : string) (l : list string) :
  filter (fun x => String.eqb x t) l
  = repeat t (List.length (filter (fun x => String.eqb x t) l)).
Proof.
  induction l as [|x l IH]; [reflexivity|].
  cbn [filter]. destruct (String.eqb x t) eqn:E; [|exact IH].
  apply String.eqb_eq in E. subst x.
  cbn [List.length repeat]. f_equal. exact IH.
Qed.

Lemma sorted_strings_of_permutation (l l' : list string) :
  Permutation l l' ->
  PySort.sorted (fun path => path) l = PySort.sorted (fun path => path) l'.
Proof.
  intros P.
  apply (sorted_unique (fun path : string => path));
    try apply (sorted_sorted (fun path : string => path)).
  intros t.
  rewrite !(sorted_stable (fun path : string => path)).
  rewrite (filter_all_equal t l), (filter_all_equal t l').
  f_equal. apply Permutation_length.
  clear - P. induction P; cbn [filter].
  - reflexivity.
  - destruct (String.eqb x t); [apply perm_skip|]; exact IHP.
  - destruct (String.eqb x t), (String.eqb y t);
      try apply perm_swap; reflexivity.
  - etransitivity; eassumption.
Qed.

Lemma filter_permutation {A : Type} (f : A -> bool) (l l' : list A) :
  Permutation l l' -> Permutation (filter f l) (filter f l').
Proof.
  induction 1; cbn [filter].
  - reflexivity.
  - destruct (f x); [apply perm_skip|]; assumption.
  - destruct (f x), (f y); try apply perm_swap; reflexivity.
  - etransitivity; eassumption.
Qed.

Lemma json_files_of_permutation (directory : string) (listing listing' : list string) :
  Permutation listing listing' ->
  ProcessAllJsonFiles.json_files directory listing
  = ProcessAllJsonFiles.json_files directory listing'.
Proof.
  intros P. unfold ProcessAllJsonFiles.json_files.
  apply sorted_strings_of_permutation, Permutation_map, filter_permutation, P.
Qed.

(** X15.  [process_all_json_files] does not depend on the order in which
    [os.listdir] lists the directory: two listings of the same names
    give the same files to convert, in the same (ascending) order, and
    so the same conversions, the same result and the same exception. *)
Theorem process_all_json_files_ignores_listing_order
        (json_to_csv : string -> outcome (list string))
        (directory : string) (listing listing' : list string) :
  Permutation listing listing' ->
  ascending (ProcessAllJsonFiles.json_files directory listing)
  /\ ProcessAllJsonFiles.json_files directory listing'
     = ProcessAllJsonFiles.json_files directory listing
  /\ ProcessAllJsonFiles.process_all_json_files json_to_csv directory listing'
     = ProcessAllJsonFiles.process_all_json_files json_to_csv directory listing.
Proof.
  intros P. split; [apply (sorted_sorted (fun path : string => path))|].
  pose proof (json_files_of_permutation directory listing listing' P) as E.
  split; [symmetry; exact E|].
  unfold ProcessAllJsonFiles.process_all_json_files. rewrite E. reflexivity.
Qed.

Lemma process_all_json_files_ignores_listing_order_witness :
  ProcessAllJsonFiles.process_all_json_files one_csv "data"
    ["metrics_powercap_b.json"; "notes.txt"; "metrics_powercap_a.json"]
  = ProcessAllJsonFiles.process_all_json_files one_csv "data"
    ["metrics_powercap_a.json"; "metrics_powercap_b.json"; "notes.txt"].
Proof.
  refine (proj2 (proj2 (process_all_json_files_ignores_listing_order one_csv "data"
    ["metrics_powercap_a.json"; "metrics_powercap_b.json"; "notes.txt"]
    ["metrics_powercap_b.json"; "notes.txt"; "metrics_powercap_a.json"] _))).
  exact (Permutation_cons_append ["metrics_powercap_b.json"; "notes.txt"]
                                 "metrics_powercap_a.json").
Defined.

(** The run of the example: the CSV files written by an earlier run are
    not selected. *)
Example process_all_json_files_example :
  ProcessAllJsonFiles.process_all_json_files one_csv "data"
    ["metrics_powercap_b.json"; "metrics_powercap_a_dev.csv"; "metrics_powercap_a.json"]
  = Returns (Some ["data/metrics_powercap_a.json.csv"; "data/metrics_powercap_b.json.csv"]).
Proof. reflexivity. Qed.

(** ** The machine profile *)

Section ProfileFacts.
Variable int_of_float_text : string -> outcome Z.

Ltac read_line_cases :=
  unfold AddMachineProfile.read_line;
  repeat match goal with
         | |- context [if ?b then _ else _] => destruct b
         end;
  repeat match goal with
         | |- context [bind ?m _] => destruct m; cbn [bind]
         end;
  intros H; try discriminate; injection H as <-; reflexivity.

Lemma read_line_cpu_threads (info info' : AddMachineProfile.cpu_info) (line : string) :
  contains "CPU(s):" line = false ->
  AddMachineProfile.read_line int_of_float_text info line = Returns info' ->
  AddMachineProfile.cpu_threads info' = AddMachineProfile.cpu_threads info.
Proof.
  intros C. unfold AddMachineProfile.read_line. rewrite C. cbn [andb].
  read_line_cases.
Qed.

Lemma read_line_threads_per_core (info info' : AddMachineProfile.cpu_info)
      (line : string) :
  contains "Thread(s) per core:" line = false ->
  AddMachineProfile.read_line int_of_float_text info line = Returns info' ->
  AddMachineProfile.threads_per_core info' = AddMachineProfile.threads_per_core info.
Proof.
  intros C. unfold AddMachineProfile.read_line. rewrite C. read_line_cases.
Qed.

Lemma read_line_cores_per_socket (info info' : AddMachineProfile.cpu_info)
      (line : string) :
  contains "Core(s) per socket:" line = false ->
  AddMachineProfile.read_line int_of_float_text info line = Returns info' ->
  AddMachineProfile.cores_per_socket info' = AddMachineProfile.cores_per_socket info.
Proof.
  intros C. unfold AddMachineProfile.read_line. rewrite C. read_line_cases.
Qed.

Lemma read_line_sockets (info info' : AddMachineProfile.cpu_info) (line : string) :
  contains "Socket(s):" line = false ->
  AddMachineProfile.read_line int_of_float_text info line = Returns info' ->
  AddMachineProfile.sockets info' = AddMachineProfile.sockets info.
Proof.
  intros C. unfold AddMachineProfile.read_line. rewrite C. read_line_cases.
Qed.

Lemma read_line_cpu_cores (info info' : AddMachineProfile.cpu_info) (line : string) :
  AddMachineProfile.read_line int_of_float_text info line = Returns info' ->
  AddMachineProfile.cpu_cores info' = AddMachineProfile.cpu_cores info.
Proof. read_line_cases. Qed.

(** A key whose marker is in no line is as it was after the loop. *)
Lemma read_lines_without (marker : string) (lines : list string)
      (info info' : AddMachineProfile.cpu_info) :
  Forall (fun line => contains marker line = false) lines ->
  AddMachineProfile.read_lines int_of_float_text lines info = Returns info' ->
  (marker = "CPU(s):" ->
   AddMachineProfile.cpu_threads info' = AddMachineProfile.cpu_threads info)
  /\ (marker = "Thread(s) per core:" ->
      AddMachineProfile.threads_per_core info' = AddMachineProfile.threads_per_core info)
  /\ (marker = "Core(s) per socket:" ->
      AddMachineProfile.cores_per_socket info' = AddMachineProfile.cores_per_socket info)
  /\ (marker = "Socket(s):" ->
      AddMachineProfile.sockets info' = AddMachineProfile.sockets info).
Proof.
  intros F. revert info. induction F as [|line lines C F IH]; intros info R.
  - injection R as <-. repeat split.
  - cbn [AddMachineProfile.read_lines] in R.
    destruct (AddMachineProfile.read_line int_of_float_text info line)
      as [info1|e] eqn:E; [|discriminate].
    cbn [bind] in R. destruct (IH info1 R) as [I1 [I2 [I3 I4]]].
    repeat split; intros M; subst marker.
    + rewrite (I1 eq_refl). exact (read_line_cpu_threads _ _ _ C E).
    + rewrite (I2 eq_refl). exact (read_line_threads_per_core _ _ _ C E).
    + rewrite (I3 eq_refl). exact (read_line_cores_per_socket _ _ _ C E).
    + rewrite (I4 eq_refl). exact (read_line_sockets _ _ _ C E).
Qed.

Lemma read_lines_cpu_cores (lines : list string)
      (info info' : AddMachineProfile.cpu_info) :
  AddMachineProfile.read_lines int_of_float_text lines info = Returns info' ->
  AddMachineProfile.cpu_cores info' = AddMachineProfile.cpu_cores info.
Proof.
  revert info. induction lines as [|line lines IH]; intros info R.
  - injection R as <-. reflexivity.
  - cbn [AddMachineProfile.read_lines] in R.
    destruct (AddMachineProfile.read_line int_of_float_text info line)
      as [info1|e] eqn:E; [|discriminate].
    cbn [bind] in R. rewrite (IH info1 R). exact (read_line_cpu_cores _ _ _ E).
Qed.

(** X16.  The profile needs four lines of [lscpu].  When no line of the
    output contains [CPU(s):], or none contains [Thread(s) per core:],
    or none [Core(s) per socket:], or none [Socket(s):], no profile is
    created: [get_cpu_info] or [create_profile] raises.  When a profile
    is created, its number of cores is the product of two numbers read
    from the output, and the number of memory workers is half of it,
    rounded down. *)
Theorem profile_needs_four_lines (cluster_name site_name stdout : string) (memory : Z) :
  (forall marker, In marker needed_markers ->
     Forall (fun line => contains marker line = false) (lines_of stdout) ->
     exists e, detected_profile int_of_float_text cluster_name site_name stdout memory
               = Raises e)
  /\ (forall p, detected_profile int_of_float_text cluster_name site_name stdout memory
                = Returns p ->
        exists info,
          AddMachineProfile.read_lines int_of_float_text (lines_of stdout)
                                       AddMachineProfile.empty_info = Returns info
          /\ AddMachineProfile.cpu_threads info
             = Some (AddMachineProfile.profile_cpu_threads p)
          /\ AddMachineProfile.threads_per_core info
             = Some (AddMachineProfile.profile_threads_per_core p)
          /\ AddMachineProfile.sockets info = Some (AddMachineProfile.profile_sockets p)
          /\ (exists cores,
                AddMachineProfile.cores_per_socket info = Some cores
                /\ AddMachineProfile.profile_cpu_cores p
                   = (cores * AddMachineProfile.profile_sockets p)%Z)
          /\ (2 * AddMachineProfile.stress_vm_workers p
              <= AddMachineProfile.profile_cpu_cores p
              <= 2 * AddMachineProfile.stress_vm_workers p + 1)%Z).
Proof.
  unfold detected_profile, AddMachineProfile.get_cpu_info, lines_of.
  destruct (AddMachineProfile.read_lines int_of_float_text (split "010"%char stdout)
              AddMachineProfile.empty_info) as [info|e] eqn:R; cbn [bind].
  2:{ split; [intros; eexists; reflexivity|intros p H; discriminate]. }
  split.
  - intros marker M F.
    destruct (read_lines_without marker _ _ _ F R) as [I1 [I2 [I3 I4]]].
    cbn [AddMachineProfile.empty_info AddMachineProfile.cpu_threads
         AddMachineProfile.threads_per_core AddMachineProfile.cores_per_socket
         AddMachineProfile.sockets] in I1, I2, I3, I4.
    unfold AddMachineProfile.create_profile.
    destruct M as [<-|[<-|[<-|[<-|[]]]]].
    + destruct (AddMachineProfile.cores_per_socket info); [|eexists; reflexivity].
      destruct (AddMachineProfile.sockets info); [|eexists; reflexivity].
      cbn [bind AddMachineProfile.item AddMachineProfile.cpu_threads].
      rewrite (I1 eq_refl). eexists; reflexivity.
    + destruct (AddMachineProfile.cores_per_socket info); [|eexists; reflexivity].
      destruct (AddMachineProfile.sockets info); [|eexists; reflexivity].
      cbn [bind AddMachineProfile.item AddMachineProfile.cpu_threads
           AddMachineProfile.cpu_cores AddMachineProfile.sockets
           AddMachineProfile.threads_per_core].
      rewrite (I2 eq_refl).
      destruct (AddMachineProfile.cpu_threads info); eexists; reflexivity.
    + rewrite (I3 eq_refl). eexists; reflexivity.
    + rewrite (I4 eq_refl).
      destruct (AddMachineProfile.cores_per_socket info); eexists; reflexivity.
  - intros p H. exists info. split; [reflexivity|].
    unfold AddMachineProfile.create_profile in H.
    destruct (AddMachineProfile.cores_per_socket info) as [cores|]; [|discriminate].
    destruct (AddMachineProfile.sockets info) as [n|]; [|discriminate].
    cbn [bind AddMachineProfile.item AddMachineProfile.cpu_threads
         AddMachineProfile.cpu_cores AddMachineProfile.sockets
         AddMachineProfile.threads_per_core] in H.
    destruct (AddMachineProfile.cpu_threads info) as [threads|]; [|discriminate].
    destruct (AddMachineProfile.threads_per_core info) as [per_core|]; [|discriminate].
    cbn [bind AddMachineProfile.item] in H. injection H as <-.
    cbn [AddMachineProfile.profile_cpu_threads AddMachineProfile.profile_threads_per_core
         AddMachineProfile.profile_sockets AddMachineProfile.profile_cpu_cores
         AddMachineProfile.stress_vm_workers].
    repeat split.
    + exists cores. split; reflexivity.
    + pose proof (Z.mul_div_le (cores * n) 2 ltac:(lia)). lia.
    + pose proof (Z.mod_pos_bound (cores * n) 2 ltac:(lia)).
      pose proof (Z.div_mod (cores * n) 2 ltac:(lia)). lia.
Qed.

End ProfileFacts.

Lemma profile_needs_four_lines_witness :
  exists e, detected_profile reads_nothing "c" "s" example_lscpu_clusters 16
            = Raises e.
Proof.
  refine (proj1 (profile_needs_four_lines reads_nothing "c" "s"
                   example_lscpu_clusters 16)
            "Core(s) per socket:" _ _).
  - right; right; left; reflexivity.
  - repeat constructor.
Defined.

(** The profile of the example: the frequencies are the defaults, the
    lines of NUMA nodes and on-line CPUs are passed over. *)
Example detected_profile_example :
  detected_profile reads_nothing "chiclet" "lille" example_lscpu 128
  = Returns {| AddMachineProfile.cluster := "chiclet";
               AddMachineProfile.site := "lille";
               AddMachineProfile.profile_cpu_threads := 32%Z;
               AddMachineProfile.profile_cpu_cores := 16%Z;
               AddMachineProfile.profile_sockets := 2%Z;
               AddMachineProfile.profile_threads_per_core := 2%Z;
               AddMachineProfile.memory_gb := 128%Z;
               AddMachineProfile.profile_cpu_model := "Intel(R) Xeon(R) Gold 5218";
               AddMachineProfile.cpu_base_mhz := 2000%Z;
               AddMachineProfile.profile_cpu_max_mhz := 3000%Z;
               AddMachineProfile.stress_cpu_threads := 32%Z;
               AddMachineProfile.stress_vm_workers := 8%Z;
               AddMachineProfile.stress_vm_memory := "70%";
               AddMachineProfile.cpu_method := "matrixprod" |}.
Proof. vm_compute. reflexivity. Qed.

(** ** The period of a summary *)

Lemma string_leb_refl (a : string) : String.leb a a = true.
Proof. apply string_ltb_false_leb, string_ltb_irrefl. Qed.

Lemma sorted_first_is_least {A : Type} (R : A -> A -> Prop) (x : A) (l : list A) :
  (forall a, R a a) -> StronglySorted R (x :: l) ->
  forall y, In y (x :: l) -> R x y.
Proof.
  intros Refl S y [<-|I]; [apply Refl|].
  apply StronglySorted_inv in S as [_ F].
  rewrite Forall_forall in F. exact (F y I).
Qed.

Lemma sorted_last_is_greatest {A : Type} (R : A -> A -> Prop) (l : list A) (a : A) :
  (forall a, R a a) -> StronglySorted R (l ++ [a]) ->
  forall y, In y (l ++ [a]) -> R y a.
Proof.
  intros Refl. induction l as [|x l IH]; intros S y I.
  - destruct I as [<-|[]]. apply Refl.
  - cbn [app] in S, I. apply StronglySorted_inv in S as [S F].
    destruct I as [<-|I]; [|exact (IH S y I)].
    rewrite Forall_forall in F. apply F, in_or_app. right. left. reflexivity.
Qed.

Lemma index_first {A : Type} (x : A) (l : list A) : index (x :: l) 0 = Returns x.
Proof. reflexivity. Qed.

Lemma index_last {A : Type} (l : list A) (a : A) : index (l ++ [a]) (-1) = Returns a.
Proof.
  unfold index. cbv zeta. rewrite length_app. cbn [List.length].
  change (-1 <? 0)%Z with true. cbv iota.
  replace (-1 + Z.of_nat (List.length l + 1))%Z with (Z.of_nat (List.length l)) by lia.
  assert (E : (Z.of_nat (List.length l) <? 0)%Z = false) by (apply Z.ltb_ge; lia).
  rewrite E, Nat2Z.id, nth_error_app2, Nat.sub_diag by apply Nat.le_refl.
  reflexivity.
Qed.

Lemma timestamp_of_string_row (r : ExtractMetrics.row) :
  ExtractMetrics.is_str (ExtractMetrics.timestamp r) = true ->
  ExtractMetrics.timestamp r = PStr (time_of r).
Proof.
  unfold time_of. destruct (ExtractMetrics.timestamp r); try discriminate.
  reflexivity.
Qed.

(** X17.  The period of a summary spans the file.  For the rows of a
    device (there is at least one) once sorted, [first_timestamp] and
    [last_timestamp] are timestamps of two of the rows, no row is
    earlier than the first or later than the last in the order of the
    sort, the fallback ['N/A'] is not used, and [records] counts the
    rows. *)
Theorem summary_period_spans_the_file (rows sorted : list ExtractMetrics.row) :
  ExtractMetrics.sort_records rows = Some sorted ->
  rows <> [] ->
  SummaryPeriod.records_count sorted = Z.of_nat (List.length rows)
  /\ exists first last,
       In first rows /\ In last rows
       /\ SummaryPeriod.first_timestamp sorted = Returns (PStr (time_of first))
       /\ SummaryPeriod.last_timestamp sorted = Returns (PStr (time_of last))
       /\ forall r, In r rows ->
            String.leb (time_of first) (time_of r) = true
            /\ String.leb (time_of r) (time_of last) = true.
Proof.
  intros E N. apply sort_records_some in E as [-> Str].
  pose proof (sorted_perm time_of rows) as P.
  pose proof (sorted_sorted time_of rows) as S.
  pose proof (sorted_nonempty time_of rows N) as N'.
  split.
  { unfold SummaryPeriod.records_count. f_equal. symmetry.
    exact (Permutation_length P). }
  set (l := PySort.sorted time_of rows) in *.
  destruct l as [|first tail] eqn:El; [contradiction|].
  destruct (exists_last N') as [front [last Ef]].
  assert (If : In first rows).
  { apply (Permutation_in first (Permutation_sym P)). left. reflexivity. }
  assert (Il : In last rows).
  { apply (Permutation_in last (Permutation_sym P)). rewrite Ef.
    apply in_or_app. right. left. reflexivity. }
  exists first, last. split; [exact If|]. split; [exact Il|]. split; [|split].
  - cbn. rewrite (timestamp_of_string_row first (Str first If)). reflexivity.
  - change (SummaryPeriod.last_timestamp (first :: tail))
      with (bind (index (first :: tail) (-1))
                 (fun r => Returns (ExtractMetrics.timestamp r))).
    rewrite Ef, index_last.
    cbn [bind]. rewrite (timestamp_of_string_row last (Str last Il)). reflexivity.
  - intros r I. apply (Permutation_in r P) in I. split.
    + exact (sorted_first_is_least _ first tail
               (fun a => string_leb_refl (time_of a)) S r I).
    + rewrite Ef in S, I.
      exact (sorted_last_is_greatest _ front last
               (fun a => string_leb_refl (time_of a)) S r I).
Qed.

Lemma summary_period_spans_the_file_witness :
  SummaryPeriod.records_count (PySort.sorted time_of three_rows) = 3%Z
  /\ exists first last,
       In first three_rows /\ In last three_rows
       /\ SummaryPeriod.first_timestamp (PySort.sorted time_of three_rows)
          = Returns (PStr (time_of first))
       /\ SummaryPeriod.last_timestamp (PySort.sorted time_of three_rows)
          = Returns (PStr (time_of last))
       /\ forall r, In r three_rows ->
            String.leb (time_of first) (time_of r) = true
            /\ String.leb (time_of r) (time_of last) = true.
Proof.
  apply (summary_period_spans_the_file three_rows (PySort.sorted time_of three_rows)).
  - reflexivity.
  - discriminate.
Defined.

(** ** The plotted curve and the CSV file of [chirop-5] *)

Lemma knum_is_number (m e : Z) : exists m' e', knum m e = KNum m' e'.
Proof.
  unfold knum. destruct m as [|p|p]; [eexists _, _; reflexivity| |];
    destruct (odd_part p e); eexists _, _; reflexivity.
Qed.

(** The test of [load_chirop5_data] selects the entries filed under the
    key ['chirop-5']. *)
Lemma is_chirop5_device_is (entry : pyval) :
  is_chirop5 entry = device_is (KStr "chirop-5") entry.
Proof.
  unfold is_chirop5, device_is.
  destruct (field entry "device_id") as [|b|z|f|s|xs|kvs]; cbn [eq_str key_of];
    try reflexivity.
  - destruct (knum_is_number (if b then 1 else 0) 0) as [m [e ->]]. reflexivity.
  - destruct (knum_is_number z 0) as [m [e ->]]. reflexivity.
  - destruct (Prim2SF f) as [sg|sg| |sg m e]; try reflexivity.
    destruct (knum_is_number (if sg then Z.neg m else Z.pos m) e) as [m' [e' ->]].
    reflexivity.
Qed.

Lemma filter_ext_all {A : Type} (f g : A -> bool) (l : list A) :
  (forall a, f a = g a) -> filter f l = filter g l.
Proof. intros E. apply filter_ext_in. intros a _. apply E. Qed.

Lemma json_to_csv_series (entries : list pyval)
      (files : list (pykey * list ChiropJsonToCsv.csv_row)) (k : pykey) :
  ChiropJsonToCsv.json_to_csv (PList entries) = Returns files ->
  series files k = map csv_row_of (filter (device_is k) entries).
Proof.
  rewrite json_to_csv_list.
  destruct (ChiropJsonToCsv.group_loop entries []) as [g|e] eqn:G; [|discriminate].
  cbn [bind].
  destruct (forallb ChiropJsonToCsv.is_kstr (keys g)); [|discriminate].
  pose proof (write_files_cases g) as F.
  destruct (forallb (fun d => forallb writable (snd d)) g).
  - rewrite F. intros H. injection H as <-.
    destruct (chirop_group_loop_returns _ _ _ G) as (_ & S & _).
    rewrite series_map_rows, S. reflexivity.
  - destruct F as [e [-> _]]. discriminate.
Qed.

Section CurveAndColumn.
Variable datetime : Type.
Variable fromisoformat : string -> option datetime.

Lemma load_entry_columns (acc acc' : list datetime * list pyval) (entry : pyval) :
  PlotChirop5Power.load_entry datetime fromisoformat acc entry = Returns acc' ->
  if is_chirop5 entry then
    exists t,
      PlotChirop5Power.parse_timestamp datetime fromisoformat (field entry "timestamp")
      = Returns t
      /\ acc' = (fst acc ++ [t], snd acc ++ [abs_value (field entry "value")])
  else acc' = acc.
Proof.
  unfold PlotChirop5Power.load_entry, is_chirop5, field, getitem.
  destruct entry as [| | | | | |kvs]; try discriminate.
  destruct (assoc "device_id" kvs) as [d|]; [|discriminate].
  cbn [bind]. destruct (eq_str d "chirop-5").
  - destruct (assoc "timestamp" kvs) as [t|]; [|discriminate]. cbn [bind].
    destruct (PlotChirop5Power.parse_timestamp datetime fromisoformat t) as [ts|];
      [|discriminate].
    cbn [bind].
    destruct (assoc "value" kvs) as [v|]; [|discriminate]. cbn [bind].
    unfold abs_value.
    destruct (py_abs v) as [a|]; [|discriminate]. cbn [bind].
    intros H; injection H as <-. exists ts. split; reflexivity.
  - intros H; injection H as <-. reflexivity.
Qed.

Lemma load_loop_columns (entries : list pyval) (acc acc' : list datetime * list pyval) :
  PlotChirop5Power.load_loop datetime fromisoformat entries acc = Returns acc' ->
  exists ts,
    acc' = (fst acc ++ ts,
            snd acc ++ map (fun e => abs_value (field e "value"))
                           (filter is_chirop5 entries))
    /\ Forall2 (fun e t =>
                  PlotChirop5Power.parse_timestamp datetime fromisoformat
                    (field e "timestamp") = Returns t)
               (filter is_chirop5 entries) ts.
Proof.
  revert acc. induction entries as [|entry entries IH]; intros acc H.
  - injection H as <-. exists []. cbn [filter map]. rewrite !app_nil_r.
    destruct acc. split; [reflexivity|constructor].
  - cbn [PlotChirop5Power.load_loop] in H.
    destruct (PlotChirop5Power.load_entry datetime fromisoformat acc entry)
      as [acc1|] eqn:E; [|discriminate].
    cbn [bind] in H. apply load_entry_columns in E.
    destruct (IH _ H) as (ts & -> & F). cbn [filter].
    destruct (is_chirop5 entry).
    + destruct E as (t & T & ->). exists (t :: ts). cbn [fst snd map].
      rewrite <- !app_assoc. split; [reflexivity|]. constructor; assumption.
    + subst acc1. exists ts. split; [reflexivity|exact F].
Qed.

(** X18.  The curve plotted for [chirop-5] is the CSV file of
    [chirop-5].  When [json_to_csv] and [load_chirop5_data] both return
    on the same array, the power values loaded are the column
    [value_abs] of the file of device ['chirop-5'], row by row, and the
    timestamps loaded are its column [timestamp] read by
    [datetime.fromisoformat]. *)
Theorem plotted_curve_is_the_csv_file (entries : list pyval)
        (files : list (pykey * list ChiropJsonToCsv.csv_row))
        (timestamps : list datetime) (power_values : list pyval) :
  ChiropJsonToCsv.json_to_csv (PList entries) = Returns files ->
  PlotChirop5Power.load_chirop5_data datetime fromisoformat (PList entries)
  = Returns (timestamps, power_values) ->
  power_values = map ChiropJsonToCsv.r_value_abs (series files (KStr "chirop-5"))
  /\ Forall2 (fun row t =>
                PlotChirop5Power.parse_timestamp datetime fromisoformat
                  (ChiropJsonToCsv.r_timestamp row) = Returns t)
             (series files (KStr "chirop-5")) timestamps.
Proof.
  intros J L.
  rewrite (json_to_csv_series entries files _ J).
  unfold PlotChirop5Power.load_chirop5_data in L. cbn [iter bind] in L.
  destruct (load_loop_columns entries _ _ L) as (ts & E & F).
  cbn [fst snd app] in E. injection E as -> ->.
  rewrite <- (filter_ext_all _ _ entries is_chirop5_device_is).
  split.
  - rewrite map_map. reflexivity.
  - clear - F. induction F; cbn [map]; constructor; assumption.
Qed.

End CurveAndColumn.

Lemma plotted_curve_is_the_csv_file_witness :
  [PFloat 42.5%float; PFloat 10%float]
  = map ChiropJsonToCsv.r_value_abs
      (series [(KStr "chirop-5", map csv_row_of example_entries)] (KStr "chirop-5")).
Proof.
  refine (proj1 (plotted_curve_is_the_csv_file string Some example_entries
                   [(KStr "chirop-5", map csv_row_of example_entries)]
                   ["2024-01-01T00:00:00"; "2024-01-01T00:00:01"]
                   [PFloat 42.5%float; PFloat 10%float] _ _));
    reflexivity.
Defined.
